(** * network-validator: topology resolver, subnet matcher and test orchestration

    A shallow embedding of the Go packages [netplan], [agent],
    [aggregator], [database] and [config].  Go maps are [gmap]s, slices are lists, strings are byte
    strings ([string]), [int] values are [Z].  Calls that leave the process
    (the file system, [arping], HTTP) are answered by an explicit
    environment, and the calls a function makes are recorded in a trace. *)

From Stdlib Require Import ZArith String Ascii List Lia Bool.
From stdpp Require Import gmap strings list fin_maps pretty sorting.

Local Open Scope Z_scope.

(** ** Byte strings *)

Module Bytes.

Definition byte_of (c : ascii) : Z := Z.of_nat (nat_of_ascii c).

(** ['0' <= c && c <= '9'] *)
Definition is_digit (c : ascii) : bool :=
  (48 <=? byte_of c) && (byte_of c <=? 57).

(** [strings.Index(s, string(c))], [None] standing for [-1]. *)
Fixpoint index_byte (c : ascii) (s : string) : option nat :=
  match s with
  | EmptyString => None
  | String x rest =>
      if Ascii.eqb x c then Some 0%nat
      else match index_byte c rest with
           | Some i => Some (S i)
           | None => None
           end
  end.

(** [s[:n]] *)
Fixpoint take_bytes (n : nat) (s : string) : string :=
  match n, s with
  | S k, String x rest => String x (take_bytes k rest)
  | _, _ => EmptyString
  end.

(** [s[n:]] *)
Fixpoint drop_bytes (n : nat) (s : string) : string :=
  match n, s with
  | S k, String _ rest => drop_bytes k rest
  | _, _ => s
  end.

(** [strings.Contains(s, string(c))] *)
Definition contains_byte (c : ascii) (s : string) : bool :=
  match index_byte c s with Some _ => true | None => false end.

End Bytes.

(** ** The parts of Go's [net] and [net/netip] that the matcher calls

    Textual IPv4 parsing, prefix masks and containment follow the standard
    library (Go 1.22).  The textual IPv6 parser is a parameter
    ([parseIPv6]): it yields the 16 address bytes and the zone. *)

Module GoNet.
Import Bytes.

(** [net.IP] and [net.IPMask]: byte slices; [nil] is the empty list. *)
Definition IP := list Z.
Definition IPMask := list Z.

Record IPNet := mkIPNet { net_IP : IP; net_Mask : IPMask }.

(** [netip.Addr], as far as [ParseCIDR] and [ParseIP] look at it. *)
Record Addr := mkAddr { As16 : list Z; Is4 : bool; Zone : string }.

Definition BitLen (a : Addr) : Z := if Is4 a then 32 else 128.

Definition v4InV6Prefix : list Z := [0; 0; 0; 0; 0; 0; 0; 0; 0; 0; 255; 255].

(** [netip.AddrFrom4] followed by [As16]. *)
Definition AddrFrom4 (fields : list Z) : Addr :=
  mkAddr (v4InV6Prefix ++ fields) true EmptyString.

(** The loop of [netip.parseIPv4]; [prev] is [s[i-1]] ([None] when [i == 0]). *)
Fixpoint parseIPv4_loop (s : string) (prev : option ascii)
    (val : Z) (pos : nat) (digLen : Z) (fields : list Z) : option (list Z) :=
  match s with
  | EmptyString =>
      if (pos <? 3)%nat then None else Some (<[3%nat := val]> fields)
  | String c rest =>
      if is_digit c then
        if (digLen =? 1) && (val =? 0) then None
        else
          let val' := val * 10 + (byte_of c - 48) in
          if val' >? 255 then None
          else parseIPv4_loop rest (Some c) val' pos (digLen + 1) fields
      else if Ascii.eqb c "." then
        if match prev with
           | None => true
           | Some p => Ascii.eqb p "."
           end || match rest with EmptyString => true | _ => false end
        then None
        else if (pos =? 3)%nat then None
        else parseIPv4_loop rest (Some c) 0 (S pos) 0 (<[pos := val]> fields)
      else None
  end.

Definition parseIPv4 (s : string) : option Addr :=
  match parseIPv4_loop s None 0 0%nat 0 [0; 0; 0; 0] with
  | Some fields => Some (AddrFrom4 fields)
  | None => None
  end.

Section Parsers.

Variable parseIPv6 : string -> option (list Z * string).

(** [netip.ParseAddr]: the first of ['.'], [':'], ['%'] picks the parser. *)
Fixpoint ParseAddr_scan (whole s : string) : option Addr :=
  match s with
  | EmptyString => None
  | String c rest =>
      if Ascii.eqb c "." then parseIPv4 whole
      else if Ascii.eqb c ":" then
        match parseIPv6 whole with
        | Some (bytes, zone) => Some (mkAddr bytes false zone)
        | None => None
        end
      else if Ascii.eqb c "%" then None
      else ParseAddr_scan whole rest
  end.

Definition ParseAddr (s : string) : option Addr := ParseAddr_scan s s.

(** [net.ParseIP]; [None] is the [nil] result. *)
Definition ParseIP (s : string) : option IP :=
  match ParseAddr s with
  | Some a => if String.eqb (Zone a) EmptyString then Some (As16 a) else None
  | None => None
  end.

(** [net.dtoi]: decimal prefix of [s]; returns [(n, i, ok)]. *)
Definition big : Z := 16777215.

Fixpoint dtoi_loop (s : string) (n : Z) (i : nat) : Z * nat * bool :=
  match s with
  | EmptyString => if (i =? 0)%nat then (0, 0%nat, false) else (n, i, true)
  | String c rest =>
      if is_digit c then
        let n' := n * 10 + (byte_of c - 48) in
        if n' >=? big then (big, i, false)
        else dtoi_loop rest n' (S i)
      else if (i =? 0)%nat then (0, 0%nat, false) else (n, i, true)
  end.

Definition dtoi (s : string) : Z * nat * bool := dtoi_loop s 0 0%nat.

(** One byte of [net.CIDRMask]: [n] is the number of ones still to place. *)
Fixpoint CIDRMask_loop (l : nat) (n : Z) : list Z :=
  match l with
  | O => []
  | S l' =>
      if n >=? 8 then 255 :: CIDRMask_loop l' (n - 8)
      else Z.lxor 255 (Z.shiftr 255 n) :: CIDRMask_loop l' 0
  end.

Definition CIDRMask (ones bits : Z) : IPMask :=
  if negb (bits =? 32) && negb (bits =? 128) then []
  else if (ones <? 0) || (ones >? bits) then []
  else CIDRMask_loop (Z.to_nat (bits / 8)) ones.

Definition isZeros (p : list Z) : bool := forallb (fun b => b =? 0) p.
Definition allFF (p : list Z) : bool := forallb (fun b => b =? 255) p.

Definition bytes_eqb (p q : list Z) : bool :=
  bool_decide (p = q).

(** [IP.To4]; [[]] is [nil]. *)
Definition To4 (ip : IP) : IP :=
  if (length ip =? 4)%nat then ip
  else if (length ip =? 16)%nat && isZeros (take 10 ip)
          && bool_decide (ip !! 10%nat = Some 255)
          && bool_decide (ip !! 11%nat = Some 255)
       then drop 12 ip
       else [].

Fixpoint and_bytes (p q : list Z) : list Z :=
  match p, q with
  | x :: p', y :: q' => Z.land x y :: and_bytes p' q'
  | _, _ => []
  end.

(** [IP.Mask] *)
Definition Mask (ip : IP) (mask : IPMask) : IP :=
  let mask :=
    if (length mask =? 16)%nat && (length ip =? 4)%nat && allFF (take 12 mask)
    then drop 12 mask else mask in
  let ip :=
    if (length mask =? 4)%nat && (length ip =? 16)%nat
       && bytes_eqb (take 12 ip) v4InV6Prefix
    then drop 12 ip else ip in
  if negb (length ip =? length mask)%nat then []
  else and_bytes ip mask.

(** [net.ParseCIDR]; [None] is the error result. *)
Definition ParseCIDR (s : string) : option (IP * IPNet) :=
  match index_byte "/" s with
  | None => None
  | Some i =>
      let addr := take_bytes i s in
      let mask := drop_bytes (S i) s in
      match ParseAddr addr with
      | None => None
      | Some ipAddr =>
          if negb (String.eqb (Zone ipAddr) EmptyString) then None
          else
            let '(n, j, ok) := dtoi mask in
            if negb ok || negb (j =? String.length mask)%nat
               || (n <? 0) || (n >? BitLen ipAddr)
            then None
            else
              let m := CIDRMask n (BitLen ipAddr) in
              Some (As16 ipAddr, mkIPNet (Mask (As16 ipAddr) m) m)
      end
  end.

(** [net.networkNumberAndMask]; [None] is the [(nil, nil)] result. *)
Definition networkNumberAndMask (n : IPNet) : option (IP * IPMask) :=
  let ip4 := To4 (net_IP n) in
  let ip := if (length ip4 =? 0)%nat then net_IP n else ip4 in
  if (length ip4 =? 0)%nat && negb (length ip =? 16)%nat then None
  else
    let m := net_Mask n in
    if (length m =? 4)%nat then
      if negb (length ip =? 4)%nat then None else Some (ip, m)
    else if (length m =? 16)%nat then
      if (length ip =? 4)%nat then Some (ip, drop 12 m) else Some (ip, m)
    else None.

(** [IPNet.Contains] *)
Definition Contains (n : IPNet) (ip : IP) : bool :=
  match networkNumberAndMask n with
  | None =>
      (* nn = nil: [len(ip) != len(nn)] unless [ip] is empty too *)
      let x := To4 ip in
      let ip := if (length x =? 0)%nat then ip else x in
      (length ip =? 0)%nat
  | Some (nn, m) =>
      let x := To4 ip in
      let ip := if (length x =? 0)%nat then ip else x in
      if negb (length ip =? length nn)%nat then false
      else bytes_eqb (and_bytes nn m) (and_bytes ip m)
  end.

End Parsers.
End GoNet.

(** ** Iteration order of Go maps

    [for k, v := range m] visits every entry of [m] once, in an order the
    language leaves open.  A [RangeOrder] is one choice of that order;
    everything below holds for every choice. *)

Class RangeOrder := {
  range : forall {V : Type}, gmap string V -> list (string * V);
  range_perm : forall (V : Type) (m : gmap string V), range m ≡ₚ map_to_list m
}.

#[export] Instance sorted_range : RangeOrder :=
  {| range := fun V m => map_to_list m;
     range_perm := fun V m => reflexivity (map_to_list m) |}.

(** [for k, v := range m { s = body k v s }] *)
Definition for_range `{RangeOrder} {V S : Type}
    (m : gmap string V) (body : string -> V -> S -> S) (s : S) : S :=
  foldl (fun s kv => body kv.1 kv.2 s) s (range m).

(** [for _, x := range l { s = body x s }] *)
Definition for_each {A S : Type} (l : list A) (body : A -> S -> S) (s : S) : S :=
  foldl (fun s x => body x s) s l.

(** [for _, x := range l { if cond x { s = body s; break } }] *)
Fixpoint for_break {A S : Type} (l : list A) (cond : A -> bool)
    (body : S -> S) (s : S) : S :=
  match l with
  | [] => s
  | x :: rest => if cond x then body s else for_break rest cond body s
  end.

(** [for _, x := range l { if cond x { s = body x; break } }] *)
Fixpoint for_find {A S : Type} (l : list A) (cond : A -> bool)
    (body : A -> S) (s : S) : S :=
  match l with
  | [] => s
  | x :: rest => if cond x then body x else for_find rest cond body s
  end.

(** Results of fallible calls: a value or an error message. *)
Inductive result (A : Type) : Type :=
| Ok (a : A)
| Err (msg : string).
Arguments Ok {A} a.
Arguments Err {A} msg.

(** ** Package netplan

    Only the fields the modelled functions read are kept.  The Go maps
    hold pointers to the interface structs; here an entry holds the struct
    itself, so the embedding covers documents none of whose entries is
    null.  An empty map stands for both the empty and the [nil] map, which
    the code treats alike. *)

Module Netplan.
Import Bytes.

Record CommonInterface := {
  Addresses : list string;
  MTU : Z
}.

Record Ethernet := { Ethernet_Common : CommonInterface }.
Record Wifi := { Wifi_Common : CommonInterface }.
Record Bridge := {
  Bridge_Common : CommonInterface;
  Bridge_Interfaces : list string
}.
Record Bond := {
  Bond_Common : CommonInterface;
  Bond_Interfaces : list string
}.
Record VLAN := {
  VLAN_Common : CommonInterface;
  VLAN_ID : Z;
  VLAN_Link : string
}.
Record Tunnel := {
  Tunnel_Common : CommonInterface;
  Tunnel_Mode : string;
  Tunnel_Local : string;
  Tunnel_Remote : string
}.
Record VRF := { VRF_Table : Z; VRF_Interfaces : list string }.
Record Modem := { Modem_Common : CommonInterface }.

Record Network := {
  Version : Z;
  Renderer : string;
  Ethernets : gmap string Ethernet;
  Wifis : gmap string Wifi;
  Bridges : gmap string Bridge;
  Bonds : gmap string Bond;
  VLANs : gmap string VLAN;
  Tunnels : gmap string Tunnel;
  VRFs : gmap string VRF;
  Modems : gmap string Modem
}.

(** [Config] has the single field [Network]. *)
Record Config := { Net : Network }.

(** [stripCIDR]: cut the address at its first ['/']. *)
Definition stripCIDR (ip : string) : string :=
  match index_byte "/" ip with
  | Some idx => take_bytes idx ip
  | None => ip
  end.

Record IPWithMask := {
  IP : string;
  CIDR : string;
  IPNet : GoNet.IPNet;
  BondName : string
}.

Section WithParsers.

Variable parseIPv6 : string -> option (list Z * string).

Definition InSameSubnet (ip1CIDR ip2 : string) : bool :=
  match GoNet.ParseCIDR parseIPv6 ip1CIDR with
  | None => false
  | Some (_, ipNet1) =>
      match GoNet.ParseIP parseIPv6 (stripCIDR ip2) with
      | None => false
      | Some ip2Addr => GoNet.Contains ipNet1 ip2Addr
      end
  end.

End WithParsers.

(** *** Loading descriptor documents

    The file system and the YAML decoder are the environment of the loader. *)

Record FileSystem := {
  Glob : string -> result (list string);
  ReadFile : string -> result string;
  Unmarshal : string -> result Config
}.

(** [filepath.Join(dir, name)] for the two patterns the loader builds, for
    a directory name that needs no cleaning. *)
Definition Join (dir name : string) : string := (dir +:+ "/" +:+ name)%string.

Definition LoadConfig (fs : FileSystem) (filename : string) : result Config :=
  match ReadFile fs filename with
  | Err e => Err ("failed to read file " +:+ filename +:+ ": " +:+ e)
  | Ok data =>
      match Unmarshal fs data with
      | Err e => Err ("failed to unmarshal YAML: " +:+ e)
      | Ok config => Ok config
      end
  end.

(** The loop of [LoadNetplanConfigsFromDir]: the first file that does not
    load ends the loop with its error. *)
Fixpoint load_files (fs : FileSystem) (files : list string)
    (configs : list Config) : result (list Config) :=
  match files with
  | [] => Ok configs
  | file :: rest =>
      match LoadConfig fs file with
      | Err e => Err ("failed to load config from " +:+ file +:+ ": " +:+ e)
      | Ok config => load_files fs rest (configs ++ [config])
      end
  end.

Definition LoadNetplanConfigsFromDir (fs : FileSystem) (dir : string)
    : result (list Config) :=
  match Glob fs (Join dir "*.yaml") with
  | Err e => Err ("failed to glob yaml files in " +:+ dir +:+ ": " +:+ e)
  | Ok files =>
      match Glob fs (Join dir "*.yml") with
      | Err e => Err ("failed to glob yml files in " +:+ dir +:+ ": " +:+ e)
      | Ok ymlFiles => load_files fs (files ++ ymlFiles) []
      end
  end.

(** *** Validation *)

Inductive ValidationError :=
| UnsupportedVersion (version : Z)
| InvalidRenderer (renderer : string)
| NameEmpty
| NameTooLong (name : string)
| AddressWithoutMask (addr : string)
| InvalidMTU (mtu : Z)
| InvalidVLANID (name : string) (id : Z)
| LinkRequired (name : string)
| Wrapped (kind name : string) (err : ValidationError).

(** [validateInterfaceName]; [None] is the [nil] error. *)
Definition validateInterfaceName (name : string) : option ValidationError :=
  if String.eqb name "" then Some NameEmpty
  else if (15 <? String.length name)%nat then Some (NameTooLong name)
  else None.

Definition validateCommonInterface (iface : CommonInterface)
    : list ValidationError :=
  let errors := [] in
  let errors :=
    for_each (Addresses iface)
      (fun addr errors =>
         if negb (contains_byte "/" addr)
         then errors ++ [AddressWithoutMask addr] else errors)
      errors in
  let errors :=
    if negb (MTU iface =? 0) && ((MTU iface <? 68) || (MTU iface >? 65536))
    then errors ++ [InvalidMTU (MTU iface)] else errors in
  errors.

(** The body shared by the ethernet, wifi, bridge and bond loops. *)
Definition validate_entry (kind name : string) (common : CommonInterface)
    (errors : list ValidationError) : list ValidationError :=
  let errors :=
    match validateInterfaceName name with
    | Some err => errors ++ [Wrapped kind name err]
    | None => errors
    end in
  let errs := validateCommonInterface common in
  if (0 <? length errs)%nat
  then for_each errs (fun err errors => errors ++ [Wrapped kind name err]) errors
  else errors.

Definition validate_vlan (name : string) (vlan : VLAN)
    (errors : list ValidationError) : list ValidationError :=
  let errors :=
    match validateInterfaceName name with
    | Some err => errors ++ [Wrapped "vlan" name err]
    | None => errors
    end in
  let errors :=
    if (VLAN_ID vlan <? 1) || (VLAN_ID vlan >? 4094)
    then errors ++ [InvalidVLANID name (VLAN_ID vlan)] else errors in
  let errors :=
    if String.eqb (VLAN_Link vlan) "" then errors ++ [LinkRequired name]
    else errors in
  errors.

Definition validRenderers : list string := ["networkd"; "NetworkManager"]%string.

Section WithRange.
Context `{RangeOrder}.

Definition Validate (c : Config) : list ValidationError :=
  let n := Net c in
  let errors := [] in
  let errors :=
    if negb (Version n =? 2) then errors ++ [UnsupportedVersion (Version n)]
    else errors in
  let errors :=
    if negb (String.eqb (Renderer n) "") then
      let valid :=
        for_break validRenderers (fun renderer => String.eqb (Renderer n) renderer)
          (fun _ => true) false in
      if negb valid then errors ++ [InvalidRenderer (Renderer n)] else errors
    else errors in
  let errors :=
    for_range (Ethernets n)
      (fun name eth => validate_entry "ethernet" name (Ethernet_Common eth)) errors in
  let errors :=
    for_range (Wifis n)
      (fun name wifi => validate_entry "wifi" name (Wifi_Common wifi)) errors in
  let errors :=
    for_range (Bridges n)
      (fun name bridge => validate_entry "bridge" name (Bridge_Common bridge)) errors in
  let errors :=
    for_range (Bonds n)
      (fun name bond => validate_entry "bond" name (Bond_Common bond)) errors in
  let errors := for_range (VLANs n) validate_vlan errors in
  errors.

(** [for name := range m { names = append(names, name) }] *)
Definition append_keys {V : Type} (m : gmap string V) (names : list string)
    : list string :=
  for_range m (fun name _ names => names ++ [name]) names.

Definition GetInterfaceNames (c : Config) : list string :=
  let n := Net c in
  let names := [] in
  let names := append_keys (Ethernets n) names in
  let names := append_keys (Wifis n) names in
  let names := append_keys (Bridges n) names in
  let names := append_keys (Bonds n) names in
  let names := append_keys (VLANs n) names in
  let names := append_keys (Tunnels n) names in
  let names := append_keys (VRFs n) names in
  let names := append_keys (Modems n) names in
  names.

(** *** The relation resolver *)

(** [isBondRelated] *)
Definition isBondRelated (c : Config) (bondName interfaceName : string) : bool :=
  if String.eqb interfaceName bondName then true
  else
    let n := Net c in
    let in_vlan :=
      match VLANs n !! interfaceName with
      | Some vlan =>
          if String.eqb (VLAN_Link vlan) bondName then true
          else
            match Bridges n !! VLAN_Link vlan with
            | Some bridge =>
                for_break (Bridge_Interfaces bridge)
                  (fun iface => String.eqb iface bondName) (fun _ => true) false
            | None => false
            end
      | None => false
      end in
    if in_vlan then true
    else
      match Bridges n !! interfaceName with
      | Some bridge =>
          for_break (Bridge_Interfaces bridge)
            (fun iface => String.eqb iface bondName) (fun _ => true) false
      | None => false
      end.

(** [result[name] = append(result[name], stripCIDR(addr))] for every [addr]. *)
Definition append_stripped (name : string) (addrs : list string)
    (result : gmap string (list string)) : gmap string (list string) :=
  for_each addrs
    (fun addr result =>
       <[name := default [] (result !! name) ++ [stripCIDR addr]]> result)
    result.

(** The method [(c *Config) GetBondIPAddresses]. *)
Definition GetBondIPAddresses (c : Config) (bondName : string)
    : gmap string (list string) :=
  let n := Net c in
  let result := ∅ in
  match Bonds n !! bondName with
  | None => result
  | Some bond =>
      (* 1. addresses of the bond itself *)
      let result :=
        if (0 <? length (Addresses (Bond_Common bond)))%nat
        then append_stripped bondName (Addresses (Bond_Common bond)) result
        else result in
      (* 2. VLANs whose link is the bond *)
      let result :=
        for_range (VLANs n)
          (fun vlanName vlan result =>
             if String.eqb (VLAN_Link vlan) bondName
                && (0 <? length (Addresses (VLAN_Common vlan)))%nat
             then append_stripped vlanName (Addresses (VLAN_Common vlan)) result
             else result)
          result in
      (* 3. bridges that include the bond *)
      let result :=
        for_range (Bridges n)
          (fun bridgeName bridge =>
             for_break (Bridge_Interfaces bridge)
               (fun iface =>
                  String.eqb iface bondName
                  && (0 <? length (Addresses (Bridge_Common bridge)))%nat)
               (append_stripped bridgeName (Addresses (Bridge_Common bridge))))
          result in
      (* 4. VLANs on top of bridges that include the bond *)
      let result :=
        for_range (VLANs n)
          (fun vlanName vlan result =>
             match Bridges n !! VLAN_Link vlan with
             | Some bridge =>
                 for_break (Bridge_Interfaces bridge)
                   (fun iface =>
                      String.eqb iface bondName
                      && (0 <? length (Addresses (VLAN_Common vlan)))%nat)
                   (append_stripped vlanName (Addresses (VLAN_Common vlan)))
                   result
             | None => result
             end)
          result in
      (* 5. bridges that include a VLAN whose link is the bond *)
      let result :=
        for_range (Bridges n)
          (fun bridgeName bridge =>
             for_break (Bridge_Interfaces bridge)
               (fun iface =>
                  match VLANs n !! iface with
                  | Some vlan =>
                      String.eqb (VLAN_Link vlan) bondName
                      && (0 <? length (Addresses (Bridge_Common bridge)))%nat
                  | None => false
                  end)
               (append_stripped bridgeName (Addresses (Bridge_Common bridge))))
          result in
      (* 6. tunnels *)
      let result :=
        for_range (Tunnels n)
          (fun tunnelName tunnel result =>
             if (0 <? length (Addresses (Tunnel_Common tunnel)))%nat then
               if isBondRelated c bondName tunnelName
               then append_stripped tunnelName (Addresses (Tunnel_Common tunnel)) result
               else result
             else result)
          result in
      result
  end.

Variable parseIPv6 : string -> option (list Z * string).

(** The closure [addIPWithMask] of [GetBondIPAddressesWithMask]. *)
Definition addIPWithMask (addr interfaceName : string)
    (result : list IPWithMask) : list IPWithMask :=
  match GoNet.ParseCIDR parseIPv6 addr with
  | None => result
  | Some (_, ipNet) =>
      result ++ [ {| IP := stripCIDR addr; CIDR := addr;
                     IPNet := ipNet; BondName := interfaceName |} ]
  end.

(** [for _, addr := range addrs { addIPWithMask(addr, name) }] *)
Definition add_all (name : string) (addrs : list string)
    (result : list IPWithMask) : list IPWithMask :=
  for_each addrs (fun addr => addIPWithMask addr name) result.

(** The method [(c *Config) GetBondIPAddressesWithMask]. *)
Definition GetBondIPAddressesWithMask (c : Config) (bondName : string)
    : list IPWithMask :=
  let n := Net c in
  let result := [] in
  match Bonds n !! bondName with
  | None => result
  | Some bond =>
      (* 1. *)
      let result := add_all bondName (Addresses (Bond_Common bond)) result in
      (* 2. *)
      let result :=
        for_range (VLANs n)
          (fun vlanName vlan result =>
             if String.eqb (VLAN_Link vlan) bondName
             then add_all vlanName (Addresses (VLAN_Common vlan)) result
             else result)
          result in
      (* 3. *)
      let result :=
        for_range (Bridges n)
          (fun bridgeName bridge =>
             for_break (Bridge_Interfaces bridge)
               (fun iface => String.eqb iface bondName)
               (add_all bridgeName (Addresses (Bridge_Common bridge))))
          result in
      (* 4. *)
      let result :=
        for_range (VLANs n)
          (fun vlanName vlan result =>
             match Bridges n !! VLAN_Link vlan with
             | Some bridge =>
                 for_break (Bridge_Interfaces bridge)
                   (fun iface => String.eqb iface bondName)
                   (add_all vlanName (Addresses (VLAN_Common vlan)))
                   result
             | None => result
             end)
          result in
      (* 5. *)
      let result :=
        for_range (Bridges n)
          (fun bridgeName bridge =>
             for_break (Bridge_Interfaces bridge)
               (fun iface =>
                  match VLANs n !! iface with
                  | Some vlan => String.eqb (VLAN_Link vlan) bondName
                  | None => false
                  end)
               (add_all bridgeName (Addresses (Bridge_Common bridge))))
          result in
      (* 6. *)
      let result :=
        for_range (Tunnels n)
          (fun tunnelName tunnel result =>
             if (0 <? length (Addresses (Tunnel_Common tunnel)))%nat then
               if isBondRelated c bondName tunnelName
               then add_all tunnelName (Addresses (Tunnel_Common tunnel)) result
               else result
             else result)
          result in
      result
  end.

(** [GetAllBondRelatedInterfaces] *)
Definition GetAllBondRelatedInterfaces (c : Config) (bondName : string)
    : list string :=
  let n := Net c in
  let interfaces := [] in
  match Bonds n !! bondName with
  | None => interfaces
  | Some _ =>
      let interfaces := interfaces ++ [bondName] in
      let interfaces :=
        for_range (VLANs n)
          (fun vlanName vlan interfaces =>
             if String.eqb (VLAN_Link vlan) bondName
             then interfaces ++ [vlanName] else interfaces)
          interfaces in
      let interfaces :=
        for_range (Bridges n)
          (fun bridgeName bridge =>
             for_break (Bridge_Interfaces bridge)
               (fun iface => String.eqb iface bondName)
               (fun interfaces => interfaces ++ [bridgeName]))
          interfaces in
      let interfaces :=
        for_range (VLANs n)
          (fun vlanName vlan interfaces =>
             match Bridges n !! VLAN_Link vlan with
             | Some bridge =>
                 for_break (Bridge_Interfaces bridge)
                   (fun iface => String.eqb iface bondName)
                   (fun interfaces => interfaces ++ [vlanName])
                   interfaces
             | None => interfaces
             end)
          interfaces in
      let interfaces :=
        for_range (Tunnels n)
          (fun tunnelName _ interfaces =>
             if isBondRelated c bondName tunnelName
             then interfaces ++ [tunnelName] else interfaces)
          interfaces in
      interfaces
  end.

End WithRange.

End Netplan.

(** ** Package agent *)

Module Agent.
Import Netplan.

Record Agent := { aggregatorURL : string; hostname : string }.

Record TargetInfo := { Links : gmap string (list string) }.

Record TestRequest := { Targets : gmap string TargetInfo }.

Record TestResult := {
  TargetHostname : string;
  TargetIP : string;
  SourceIP : string;
  BondName : string;
  TestType : string;
  Success : bool;
  ResponseTimeMS : Z;
  ErrorMessage : string
}.

Record TestResultPayload := {
  SourceHostname : string;
  Results : list TestResult;
  TestedAt : Z
}.

(** The outside of the agent is a world [W] that answers three calls and
    moves on: the [arping] command (its error, if any, and the elapsed
    milliseconds), an HTTP GET (status code or transport error, and the
    elapsed milliseconds) and an HTTP POST of a result payload. *)
Section WithWorld.
Context `{RangeOrder}.
Context {W : Type}.
Variable parseIPv6 : string -> option (list Z * string).
Variable run_arping : string -> string -> W -> option string * Z * W.
Variable http_get : string -> W -> result Z * Z * W.
Variable http_post : string -> TestResultPayload -> W -> result Z * W.
Variable time_now : W -> Z.

(** [getBondIPAddressesWithMask]: a failed load gives the empty slice. *)
Definition getBondIPAddressesWithMask (fs : FileSystem) : list IPWithMask :=
  match LoadNetplanConfigsFromDir fs "/etc/netplan" with
  | Err _ => []
  | Ok configs =>
      for_each configs
        (fun config =>
           for_range (Bonds (Net config))
             (fun bondName _ allIPs =>
                allIPs ++ GetBondIPAddressesWithMask parseIPv6 config bondName))
        []
  end.

Definition testConnectivity (a : Agent)
    (targetHostname targetIP bondName sourceIP sourceInterface : string)
    (w : W) : list TestResult * W :=
  let results := [] in
  (* Test 1: ARP *)
  let '(arpErr, arpElapsed, w) := run_arping sourceInterface targetIP w in
  let arpResult :=
    match arpErr with
    | Some e =>
        {| TargetHostname := targetHostname; TargetIP := targetIP;
           SourceIP := sourceIP; BondName := bondName; TestType := "arp";
           Success := false; ResponseTimeMS := arpElapsed;
           ErrorMessage := "ARP ping failed: " +:+ e |}
    | None =>
        {| TargetHostname := targetHostname; TargetIP := targetIP;
           SourceIP := sourceIP; BondName := bondName; TestType := "arp";
           Success := true; ResponseTimeMS := arpElapsed;
           ErrorMessage := "" |}
    end in
  let results := results ++ [arpResult] in
  (* Test 2: HTTP *)
  let url := "http://" +:+ targetIP +:+ ":8080/api/sysinfo" in
  let '(resp, httpElapsed, w) := http_get url w in
  let httpResult :=
    match resp with
    | Err e =>
        {| TargetHostname := targetHostname; TargetIP := targetIP;
           SourceIP := sourceIP; BondName := bondName; TestType := "http";
           Success := false; ResponseTimeMS := httpElapsed;
           ErrorMessage := e |}
    | Ok status =>
        if status =? 200 then
          {| TargetHostname := targetHostname; TargetIP := targetIP;
             SourceIP := sourceIP; BondName := bondName; TestType := "http";
             Success := true; ResponseTimeMS := httpElapsed;
             ErrorMessage := "" |}
        else
          {| TargetHostname := targetHostname; TargetIP := targetIP;
             SourceIP := sourceIP; BondName := bondName; TestType := "http";
             Success := false; ResponseTimeMS := httpElapsed;
             ErrorMessage := "HTTP status " +:+ pretty status |}
    end in
  let results := results ++ [httpResult] in
  (results, w).

(** [SubmitTestResults]; [None] is the [nil] error. *)
Definition SubmitTestResults (a : Agent) (results : list TestResult) (w : W)
    : option string * W :=
  let payload :=
    {| SourceHostname := hostname a; Results := results;
       TestedAt := time_now w |} in
  let url := aggregatorURL a +:+ "/api/test-results" in
  let '(resp, w) := http_post url payload w in
  match resp with
  | Err e => (Some ("failed to submit results: " +:+ e), w)
  | Ok status =>
      if negb (status =? 200) && negb (status =? 201)
      then (Some ("submission failed with status " +:+ pretty status), w)
      else (None, w)
  end.

Definition SubmitSingleTestResult (a : Agent) (result : TestResult) (w : W)
    : option string * W :=
  SubmitTestResults a [result] w.

(** The search for a local address in the subnet of [targetIP]: the first
    match sets the three variables and leaves the loop. *)
Definition find_local (myIPs : list IPWithMask) (targetIP : string)
    : bool * string * string :=
  for_find myIPs
    (fun myIP => InSameSubnet parseIPv6 (CIDR myIP) targetIP)
    (fun myIP => (true, IP myIP, Netplan.BondName myIP))
    (false, ""%string, ""%string).

(** The body of the innermost loop of [RunConnectivityTests]. *)
Definition test_target (a : Agent) (myIPs : list IPWithMask)
    (targetHostname bondName targetIP : string) (st : Z * W) : Z * W :=
  let '(inSameSubnet, matchingLocalIP, matchingInterface) :=
    find_local myIPs targetIP in
  if negb inSameSubnet then st
  else
    let '(results, w) :=
      testConnectivity a targetHostname targetIP bondName
        matchingLocalIP matchingInterface st.2 in
    for_each results
      (fun result '(testCount, w) =>
         match SubmitSingleTestResult a result w with
         | (Some _, w) => (testCount, w)
         | (None, w) => (testCount + 1, w)
         end)
      (st.1, w).

(** [RunConnectivityTests]; returns the final [testCount] and world. *)
Definition RunConnectivityTests (a : Agent) (fs : FileSystem)
    (targets : gmap string TargetInfo) (w : W) : Z * W :=
  let myIPs := getBondIPAddressesWithMask fs in
  let testCount := 0 in
  for_range targets
    (fun targetHostname targetInfo =>
       for_range (Links targetInfo)
         (fun bondName ips =>
            for_each ips (test_target a myIPs targetHostname bondName)))
    (testCount, w).

End WithWorld.
End Agent.

(** ** Package aggregator *)

Module Aggregator.
Import Agent.

(** A row of the registry, as [handleRunTests] reads it. *)
Record Server := {
  Hostname : string;
  IPAddress : string;
  Bonds : string
}.

(** The answers of the record store to the two calls of one request. *)
Record DB := {
  ClearTestResults : option string;
  GetAllServers : result (list Server)
}.

Record triggerResult := {
  tr_hostname : string;
  tr_ipAddr : string;
  tr_success : bool;
  tr_err : string
}.

(** Values of the response object. *)
Inductive JVal :=
| JStr (s : string)
| JInt (n : Z)
| JStrs (l : list string).

Inductive Response :=
| HttpError (code : Z) (body : string)
| JSON (body : gmap string JVal).

Section WithEnv.
Context `{RangeOrder}.

(** [json.Unmarshal] into a [map[string][]string]; [None] is an error. *)
Variable unmarshalBonds : string -> option (gmap string (list string)).
(** [http.Post] of a run-trigger request: transport error or status code. *)
Variable http_post : string -> TestRequest -> result Z.

(** First loop: the targets of all servers whose bonds decode. *)
Definition build_allTargets (servers : list Server) : gmap string TargetInfo :=
  for_each servers
    (fun server allTargets =>
       match unmarshalBonds (Bonds server) with
       | None => allTargets
       | Some bonds => <[Hostname server := {| Links := bonds |}]> allTargets
       end)
    ∅.

(** Targets for one agent: every entry but its own. *)
Definition targets_for (allTargets : gmap string TargetInfo) (server : Server)
    : gmap string TargetInfo :=
  for_range allTargets
    (fun hostname info targets =>
       if negb (String.eqb hostname (Hostname server))
       then <[hostname := info]> targets else targets)
    ∅.

(** The body of one goroutine: post the request, report on the channel. *)
Definition trigger (url hostname ipAddr : string) (req : TestRequest)
    : triggerResult :=
  match http_post url req with
  | Err e =>
      {| tr_hostname := hostname; tr_ipAddr := ipAddr;
         tr_success := false; tr_err := e |}
  | Ok status =>
      if (status =? 200) || (status =? 202) then
        {| tr_hostname := hostname; tr_ipAddr := ipAddr;
           tr_success := true; tr_err := "" |}
      else
        {| tr_hostname := hostname; tr_ipAddr := ipAddr;
           tr_success := false; tr_err := "status " +:+ pretty status |}
  end.

(** Second loop: one goroutine per server; entry [k] is what goroutine [k]
    sends on [resultsChan]. *)
Definition dispatch (servers : list Server)
    (allTargets : gmap string TargetInfo) : list triggerResult :=
  map
    (fun server =>
       let targets := targets_for allTargets server in
       let testRequest := {| Targets := targets |} in
       let agentURL := "http://" +:+ IPAddress server +:+ ":8080/api/run-tests" in
       trigger agentURL (Hostname server) (IPAddress server) testRequest)
    servers.

(** Third loop: [remaining] iterations are left ([len(servers) - i]);
    [received] holds what the channel still delivers before the timer
    fires.  When nothing is left to receive, the timeout branch runs. *)
Fixpoint collect (remaining : nat) (received : list triggerResult)
    (successCount : Z) (failedAgents : list string) : Z * list string :=
  match remaining with
  | O => (successCount, failedAgents)
  | S remaining' =>
      match received with
      | result :: received' =>
          if tr_success result
          then collect remaining' received' (successCount + 1) failedAgents
          else
            collect remaining' received' successCount
              (failedAgents ++
                 [tr_hostname result +:+ " (" +:+ tr_ipAddr result +:+ "): "
                  +:+ tr_err result])
      | [] =>
          if (0 <? Z.of_nat remaining)
          then (successCount,
                failedAgents ++
                  [pretty (Z.of_nat remaining) +:+ " agents timed out"])
          else (successCount, failedAgents)
      end
  end.

(** [handleRunTests].  [arrivals] lists, in order of receipt, the
    goroutines whose result is received before the timer fires. *)
Definition handleRunTests (db : DB) (arrivals : list nat) : Response :=
  match GetAllServers db with
  | Err e => HttpError 500 ("Failed to get servers: " +:+ e)
  | Ok servers =>
      if (length servers =? 0)%nat then
        JSON (<["count" := JInt 0]>
              (<["message" := JStr "No servers registered to test"]>
               (<["status" := JStr "success"]> ∅)))
      else
        let allTargets := build_allTargets servers in
        let sent := dispatch servers allTargets in
        let received := omap (fun k => sent !! k) arrivals in
        let '(successCount, failedAgents) := collect (length servers) received 0 [] in
        let total := Z.of_nat (length servers) in
        let response :=
          <["total" := JInt total]>
          (<["count" := JInt successCount]>
           (<["message" :=
                JStr ("Test requests sent to " +:+ pretty successCount +:+ "/"
                      +:+ pretty total
                      +:+ " agent(s). Results will be posted back.")]>
            (<["status" := JStr "success"]> ∅))) in
        let response :=
          if (0 <? length failedAgents)%nat then
            <["message" :=
                JStr ("Tests triggered on " +:+ pretty successCount +:+ "/"
                      +:+ pretty total +:+ " agent(s). "
                      +:+ pretty (Z.of_nat (length failedAgents)) +:+ " failed.")]>
            (<["failed_agents" := JStrs failedAgents]> response)
          else response in
        JSON response
  end.

End WithEnv.
End Aggregator.

(** ** Reference notions the resolver and the loader are compared with *)

Module Reference.
Import Netplan.

(** The closure of the specification, section 4.2: an interface is derived
    from the bond when it is the bond, a VLAN whose link is derived, a
    bridge one of whose members is derived, or a tunnel one of whose
    endpoints is derived, to any depth. *)
Inductive derived (c : Config) (bondName : string) : string -> Prop :=
| derived_bond : derived c bondName bondName
| derived_vlan (x : string) (vlan : VLAN) :
    VLANs (Net c) !! x = Some vlan ->
    derived c bondName (VLAN_Link vlan) ->
    derived c bondName x
| derived_bridge (x : string) (bridge : Bridge) (member : string) :
    Bridges (Net c) !! x = Some bridge ->
    member ∈ Bridge_Interfaces bridge ->
    derived c bondName member ->
    derived c bondName x
| derived_tunnel (x : string) (tunnel : Tunnel) (endpoint : string) :
    Tunnels (Net c) !! x = Some tunnel ->
    endpoint ∈ [Tunnel_Local tunnel; Tunnel_Remote tunnel] ->
    derived c bondName endpoint ->
    derived c bondName x.

(** The value of an IPv4 address given by its four bytes, most significant
    first, and agreement of two addresses on their first [n] bits. *)
Definition be32 (bytes : list Z) : Z :=
  foldl (fun acc b => acc * 256 + b) 0 bytes.

Definition is_octet (b : Z) : Prop := 0 <= b <= 255.

Definition same_prefix (n : Z) (x y : list Z) : Prop :=
  be32 x / 2 ^ (32 - n) = be32 y / 2 ^ (32 - n).

(** The loader of the specification, section 4.1: a document that does
    not load is skipped and the others are kept. *)
Definition load_skipping (fs : FileSystem) (files : list string) : list Config :=
  omap (fun file =>
          match LoadConfig fs file with
          | Ok config => Some config
          | Err _ => None
          end) files.

(** The interfaces the resolver reports for a bond, case by case. *)
Definition vlan_on_bond (c : Config) (bondName x : string) : Prop :=
  exists vlan, VLANs (Net c) !! x = Some vlan /\ VLAN_Link vlan = bondName.

Definition bridge_with_bond (c : Config) (bondName x : string) : Prop :=
  exists bridge,
    Bridges (Net c) !! x = Some bridge /\ bondName ∈ Bridge_Interfaces bridge.

Definition vlan_on_bridge_with_bond (c : Config) (bondName x : string) : Prop :=
  exists vlan,
    VLANs (Net c) !! x = Some vlan /\
    bridge_with_bond c bondName (VLAN_Link vlan).

Definition bridge_with_vlan_on_bond (c : Config) (bondName x : string) : Prop :=
  exists bridge member,
    Bridges (Net c) !! x = Some bridge /\
    member ∈ Bridge_Interfaces bridge /\
    vlan_on_bond c bondName member.

(** What [isBondRelated] accepts. *)
Definition bond_related (c : Config) (bondName x : string) : Prop :=
  x = bondName \/ vlan_on_bond c bondName x \/
  vlan_on_bridge_with_bond c bondName x \/ bridge_with_bond c bondName x.

Definition related_tunnel (c : Config) (bondName x : string) : Prop :=
  is_Some (Tunnels (Net c) !! x) /\ bond_related c bondName x.

(** Names listed by [GetAllBondRelatedInterfaces]. *)
Definition listed (c : Config) (bondName x : string) : Prop :=
  x = bondName \/ vlan_on_bond c bondName x \/ bridge_with_bond c bondName x \/
  vlan_on_bridge_with_bond c bondName x \/ related_tunnel c bondName x.

(** Address [addr] of owner [x] is considered by
    [GetBondIPAddressesWithMask]. *)
Definition owns (c : Config) (bondName x addr : string) : Prop :=
  (x = bondName /\
   exists bond, Bonds (Net c) !! x = Some bond /\
                addr ∈ Addresses (Bond_Common bond)) \/
  (exists vlan, VLANs (Net c) !! x = Some vlan /\
                addr ∈ Addresses (VLAN_Common vlan) /\
                (VLAN_Link vlan = bondName \/
                 bridge_with_bond c bondName (VLAN_Link vlan))) \/
  (exists bridge, Bridges (Net c) !! x = Some bridge /\
                  addr ∈ Addresses (Bridge_Common bridge) /\
                  (bondName ∈ Bridge_Interfaces bridge \/
                   bridge_with_vlan_on_bond c bondName x)) \/
  (exists tunnel, Tunnels (Net c) !! x = Some tunnel /\
                  addr ∈ Addresses (Tunnel_Common tunnel) /\
                  bond_related c bondName x).

(** The owners that are not tunnels: the bond, a VLAN on the bond or on a
    bridge that includes the bond, a bridge that includes the bond or a
    VLAN on the bond. *)
Definition owns_interface (c : Config) (bondName x addr : string) : Prop :=
  (x = bondName /\
   exists bond, Bonds (Net c) !! x = Some bond /\
                addr ∈ Addresses (Bond_Common bond)) \/
  (exists vlan, VLANs (Net c) !! x = Some vlan /\
                addr ∈ Addresses (VLAN_Common vlan) /\
                (VLAN_Link vlan = bondName \/
                 bridge_with_bond c bondName (VLAN_Link vlan))) \/
  (exists bridge, Bridges (Net c) !! x = Some bridge /\
                  addr ∈ Addresses (Bridge_Common bridge) /\
                  (bondName ∈ Bridge_Interfaces bridge \/
                   bridge_with_vlan_on_bond c bondName x)).

(** The document declares address [addr] on an interface named [x]. *)
Definition declares (c : Config) (x addr : string) : Prop :=
  (exists bond, Bonds (Net c) !! x = Some bond /\
                addr ∈ Addresses (Bond_Common bond)) \/
  (exists vlan, VLANs (Net c) !! x = Some vlan /\
                addr ∈ Addresses (VLAN_Common vlan)) \/
  (exists bridge, Bridges (Net c) !! x = Some bridge /\
                  addr ∈ Addresses (Bridge_Common bridge)) \/
  (exists tunnel, Tunnels (Net c) !! x = Some tunnel /\
                  addr ∈ Addresses (Tunnel_Common tunnel)).

(** The entries [addIPWithMask] adds for the addresses of one owner: one
    for each address that parses, in order. *)
Definition masked_entries (parseIPv6 : string -> option (list Z * string))
    (name : string) (addrs : list string) : list IPWithMask :=
  addrs ≫= fun addr =>
    match GoNet.ParseCIDR parseIPv6 addr with
    | Some (_, ipNet) =>
        [ {| IP := stripCIDR addr; CIDR := addr; IPNet := ipNet;
             BondName := name |} ]
    | None => []
    end.

(** The [(targetHostname, bondName, targetIP)] triples of a target set, in
    the order in which the three nested loops of [RunConnectivityTests]
    reach them. *)
Definition target_triples `{RangeOrder} (targets : gmap string Agent.TargetInfo)
    : list (string * string * string) :=
  range targets ≫= fun hi =>
    range (Agent.Links hi.2) ≫= fun bi =>
      (fun ip => (hi.1, bi.1, ip)) <$> bi.2.

(** The entry of [failed_agents] for a trigger that was answered with a
    failure, and the single entry that stands for all agents still
    outstanding when the timer fires. *)
Definition failure_entry (r : Aggregator.triggerResult) : string :=
  Aggregator.tr_hostname r +:+ " (" +:+ Aggregator.tr_ipAddr r +:+ "): "
  +:+ Aggregator.tr_err r.

Definition timeout_entry (remaining : nat) : string :=
  pretty (Z.of_nat remaining) +:+ " agents timed out".

(** What the collection loop has in hand after reading [received] with
    [n] agents expected. *)
Definition acknowledged (received : list Aggregator.triggerResult) : Z :=
  Z.of_nat (length (filter (fun r => Aggregator.tr_success r = true) received)).

Definition reported_failures (n : nat)
    (received : list Aggregator.triggerResult) : list string :=
  (failure_entry <$> filter (fun r => Aggregator.tr_success r = false) received)
  ++ (if (length received <? n)%nat
      then [timeout_entry (n - length received)] else []).

End Reference.

(** ** Configurations and environments used as examples *)

Module Examples.
Import Netplan.

Definition no_parseIPv6 : string -> option (list Z * string) := fun _ => None.

Definition with_addresses (addrs : list string) : CommonInterface :=
  {| Addresses := addrs; MTU := 0 |}.

Definition network_of (bridges : gmap string Bridge) (bonds : gmap string Bond)
    (vlans : gmap string VLAN) (tunnels : gmap string Tunnel) : Config :=
  {| Net := {| Version := 2; Renderer := ""; Ethernets := ∅; Wifis := ∅;
               Bridges := bridges; Bonds := bonds; VLANs := vlans;
               Tunnels := tunnels; VRFs := ∅; Modems := ∅ |} |}.

Definition bond0 : Bond :=
  {| Bond_Common := with_addresses ["10.0.1.100/24"%string];
     Bond_Interfaces := ["eth0"; "eth1"]%string |}.

Definition bond0_100 : VLAN :=
  {| VLAN_Common := with_addresses ["10.100.1.1/24"%string];
     VLAN_ID := 100; VLAN_Link := "bond0" |}.

Definition br0 : Bridge :=
  {| Bridge_Common := with_addresses ["172.16.1.1/24"%string];
     Bridge_Interfaces := ["bond0"%string] |}.

(** The configuration of [TestGetAllBondRelatedInterfaces]: a bond, a VLAN
    on it and a bridge that includes it. *)
Definition three_interfaces : Config :=
  network_of {["br0"%string := br0]} {["bond0"%string := bond0]}
    {["bond0.100"%string := bond0_100]} ∅.

(** Three levels below the bond: a VLAN on the bond, a bridge that includes
    this VLAN, and a VLAN on that bridge. *)
Definition br1 : Bridge :=
  {| Bridge_Common := with_addresses ["172.16.1.1/24"%string];
     Bridge_Interfaces := ["bond0.100"%string] |}.

Definition br1_200 : VLAN :=
  {| VLAN_Common := with_addresses ["10.200.1.1/24"%string];
     VLAN_ID := 200; VLAN_Link := "br1" |}.

Definition nested : Config :=
  network_of {["br1"%string := br1]} {["bond0"%string := bond0]}
    (<["br1.200"%string := br1_200]> {["bond0.100"%string := bond0_100]}) ∅.

(** A membership cycle next to the bond: the bridge [br0] includes the VLAN
    [br0.10], whose link is [br0] again. *)
Definition cyclic : Config :=
  network_of
    {["br0"%string :=
        {| Bridge_Common := with_addresses ["172.16.1.1/24"%string];
           Bridge_Interfaces := ["bond0"; "br0.10"]%string |}]}
    {["bond0"%string := bond0]}
    {["br0.10"%string :=
        {| VLAN_Common := with_addresses ["10.10.1.1/24"%string];
           VLAN_ID := 10; VLAN_Link := "br0" |}]}
    ∅.

(** A VLAN, a bridge and a tunnel that all name [bond9]; no such bond. *)
Definition dangling : Config :=
  network_of
    {["br0"%string :=
        {| Bridge_Common := with_addresses ["172.16.1.1/24"%string];
           Bridge_Interfaces := ["bond9"%string] |}]}
    {["bond0"%string := bond0]}
    {["bond9.100"%string :=
        {| VLAN_Common := with_addresses ["10.100.1.1/24"%string];
           VLAN_ID := 100; VLAN_Link := "bond9" |}]}
    {["bond9"%string :=
        {| Tunnel_Common := with_addresses ["10.0.0.1/30"%string];
           Tunnel_Mode := "gre"; Tunnel_Local := "192.168.1.1";
           Tunnel_Remote := "192.168.2.1" |}]}.

(** A document with [version: 1] and one VLAN with [id: 5000]. *)
Definition version1_vlan5000 : Config :=
  {| Net := {| Version := 1; Renderer := ""; Ethernets := ∅; Wifis := ∅;
               Bridges := ∅; Bonds := ∅;
               VLANs := {["vlan0"%string :=
                            {| VLAN_Common := with_addresses [];
                               VLAN_ID := 5000; VLAN_Link := "eth0" |}]};
               Tunnels := ∅; VRFs := ∅; Modems := ∅ |} |}.

(** A directory with one document that loads and one that does not. *)
Definition good_and_bad : FileSystem :=
  {| Glob := fun pattern =>
       if String.eqb pattern "/etc/netplan/*.yaml"
       then Ok ["/etc/netplan/01-good.yaml"; "/etc/netplan/02-bad.yaml"]%string
       else Ok [];
     ReadFile := fun filename => Ok filename;
     Unmarshal := fun data =>
       if String.eqb data "/etc/netplan/01-good.yaml" then Ok three_interfaces
       else Err "yaml: line 1: did not find expected key" |}.

(** The agent of the end-to-end scenario: one bond with 192.168.1.10/24. *)
Definition agent_config : Config :=
  network_of ∅
    {["bond0"%string :=
        {| Bond_Common := with_addresses ["192.168.1.10/24"%string];
           Bond_Interfaces := ["eth0"; "eth1"]%string |}]} ∅ ∅.

Definition agent_fs : FileSystem :=
  {| Glob := fun pattern =>
       if String.eqb pattern "/etc/netplan/*.yaml"
       then Ok ["/etc/netplan/50-bond.yaml"%string] else Ok [];
     ReadFile := fun filename => Ok filename;
     Unmarshal := fun _ => Ok agent_config |}.

Definition scenario_targets : gmap string Agent.TargetInfo :=
  <["server-c"%string :=
      {| Agent.Links := {["bond0"%string := ["10.0.0.5"%string]]} |}]>
  {["server-b"%string :=
      {| Agent.Links := {["bond0"%string := ["192.168.1.20"%string]]} |}]}.

(** A registry of three agents.  The bond data are stored as JSON text;
    [decode_braces] stands for [json.Unmarshal] on the one text used
    here: the empty object decodes to the empty map. *)
Definition decode_braces (text : string) : option (gmap string (list string)) :=
  if String.eqb text "{}" then Some ∅ else None.

Definition server_a : Aggregator.Server :=
  {| Aggregator.Hostname := "server-a"; Aggregator.IPAddress := "10.0.0.1";
     Aggregator.Bonds := "{}" |}.
Definition server_b : Aggregator.Server :=
  {| Aggregator.Hostname := "server-b"; Aggregator.IPAddress := "10.0.0.2";
     Aggregator.Bonds := "{}" |}.
Definition server_c : Aggregator.Server :=
  {| Aggregator.Hostname := "server-c"; Aggregator.IPAddress := "10.0.0.3";
     Aggregator.Bonds := "{}" |}.

Definition three_servers : Aggregator.DB :=
  {| Aggregator.ClearTestResults := None;
     Aggregator.GetAllServers := Ok [server_a; server_b; server_c] |}.

Definition no_servers : Aggregator.DB :=
  {| Aggregator.ClearTestResults := None; Aggregator.GetAllServers := Ok [] |}.

(** Every agent accepts the trigger with status 202. *)
Definition all_accept (url : string) (req : Agent.TestRequest) : result Z :=
  Ok 202.

End Examples.

(** ** Documents that validation accepts *)

Module Validity.
Import Bytes Netplan.

Definition valid_name (name : string) : Prop :=
  name <> ""%string /\ (String.length name <= 15)%nat.

Definition valid_common (iface : CommonInterface) : Prop :=
  Forall (fun addr => contains_byte "/" addr = true) (Addresses iface) /\
  (MTU iface = 0 \/ 68 <= MTU iface <= 65536).

Definition valid_vlan (name : string) (vlan : VLAN) : Prop :=
  valid_name name /\ 1 <= VLAN_ID vlan <= 4094 /\ VLAN_Link vlan <> ""%string.

(** Every entry of a section has a valid name and valid common fields. *)
Definition valid_section {V : Type} (common : V -> CommonInterface)
    (m : gmap string V) : Prop :=
  forall name entry,
    m !! name = Some entry -> valid_name name /\ valid_common (common entry).

Definition valid_document (c : Config) : Prop :=
  Version (Net c) = 2 /\
  Renderer (Net c) ∈ [""; "networkd"; "NetworkManager"]%string /\
  valid_section Ethernet_Common (Ethernets (Net c)) /\
  valid_section Wifi_Common (Wifis (Net c)) /\
  valid_section Bridge_Common (Bridges (Net c)) /\
  valid_section Bond_Common (Bonds (Net c)) /\
  (forall name vlan, VLANs (Net c) !! name = Some vlan -> valid_vlan name vlan).

End Validity.

(** ** Package netplan: building a document *)

Module Builders.
Import Netplan.

(** [NewConfig]: version 2 and no section; a nil map has no entries. *)
Definition NewConfig : Config :=
  {| Net := {| Version := 2; Renderer := ""; Ethernets := ∅; Wifis := ∅;
               Bridges := ∅; Bonds := ∅; VLANs := ∅; Tunnels := ∅;
               VRFs := ∅; Modems := ∅ |} |}.

(** The [Add...] methods make the map of their section when it is nil and
    assign [c.Network.<Section>[name] = config] in place; here the updated
    document is returned. *)
Definition AddEthernet (c : Config) (name : string) (config : Ethernet) : Config :=
  let n := Net c in
  {| Net := {| Version := Version n; Renderer := Renderer n;
               Ethernets := <[name := config]> (Ethernets n);
               Wifis := Wifis n; Bridges := Bridges n; Bonds := Bonds n;
               VLANs := VLANs n; Tunnels := Tunnels n; VRFs := VRFs n;
               Modems := Modems n |} |}.

Definition AddWifi (c : Config) (name : string) (config : Wifi) : Config :=
  let n := Net c in
  {| Net := {| Version := Version n; Renderer := Renderer n;
               Ethernets := Ethernets n;
               Wifis := <[name := config]> (Wifis n);
               Bridges := Bridges n; Bonds := Bonds n;
               VLANs := VLANs n; Tunnels := Tunnels n; VRFs := VRFs n;
               Modems := Modems n |} |}.

Definition AddBridge (c : Config) (name : string) (config : Bridge) : Config :=
  let n := Net c in
  {| Net := {| Version := Version n; Renderer := Renderer n;
               Ethernets := Ethernets n; Wifis := Wifis n;
               Bridges := <[name := config]> (Bridges n);
               Bonds := Bonds n;
               VLANs := VLANs n; Tunnels := Tunnels n; VRFs := VRFs n;
               Modems := Modems n |} |}.

Definition AddBond (c : Config) (name : string) (config : Bond) : Config :=
  let n := Net c in
  {| Net := {| Version := Version n; Renderer := Renderer n;
               Ethernets := Ethernets n; Wifis := Wifis n;
               Bridges := Bridges n;
               Bonds := <[name := config]> (Bonds n);
               VLANs := VLANs n; Tunnels := Tunnels n; VRFs := VRFs n;
               Modems := Modems n |} |}.

Definition AddVLAN (c : Config) (name : string) (config : VLAN) : Config :=
  let n := Net c in
  {| Net := {| Version := Version n; Renderer := Renderer n;
               Ethernets := Ethernets n; Wifis := Wifis n;
               Bridges := Bridges n; Bonds := Bonds n;
               VLANs := <[name := config]> (VLANs n);
               Tunnels := Tunnels n; VRFs := VRFs n;
               Modems := Modems n |} |}.

Definition AddTunnel (c : Config) (name : string) (config : Tunnel) : Config :=
  let n := Net c in
  {| Net := {| Version := Version n; Renderer := Renderer n;
               Ethernets := Ethernets n; Wifis := Wifis n;
               Bridges := Bridges n; Bonds := Bonds n;
               VLANs := VLANs n;
               Tunnels := <[name := config]> (Tunnels n);
               VRFs := VRFs n; Modems := Modems n |} |}.

End Builders.

(** ** Package netplan: the addresses of all bonds of a directory *)

Module NetplanDir.
Import Netplan.

Section WithRange.
Context `{RangeOrder}.

(** The package-level [GetBondIPAddresses].  A document whose bonds map
    is nil is skipped; the loop over a map without entries does the
    same. *)
Definition GetBondIPAddresses (fs : FileSystem) (netplanDir : string)
    : result (gmap string (list string)) :=
  match LoadNetplanConfigsFromDir fs netplanDir with
  | Err e => Err ("failed to load netplan configs: " +:+ e)
  | Ok configs =>
      let allBonds := ∅ in
      Ok (for_each configs
            (fun config =>
               for_range (Bonds (Net config))
                 (fun bondName _ allBonds =>
                    let bondIPs := Netplan.GetBondIPAddresses config bondName in
                    let ips :=
                      for_range bondIPs (fun _ addrs ips => ips ++ addrs) [] in
                    if (0 <? length ips)%nat
                    then <[bondName := ips]> allBonds else allBonds))
            allBonds)
  end.

Variable parseIPv6 : string -> option (list Z * string).

(** The package-level [GetBondIPAddressesWithMask]. *)
Definition GetBondIPAddressesWithMask (fs : FileSystem) (netplanDir : string)
    : result (gmap string (list IPWithMask)) :=
  match LoadNetplanConfigsFromDir fs netplanDir with
  | Err e => Err ("failed to load netplan configs: " +:+ e)
  | Ok configs =>
      let allBonds := ∅ in
      Ok (for_each configs
            (fun config =>
               for_range (Bonds (Net config))
                 (fun bondName _ allBonds =>
                    let bondIPs :=
                      Netplan.GetBondIPAddressesWithMask parseIPv6 config
                        bondName in
                    if (0 <? length bondIPs)%nat
                    then <[bondName := bondIPs]> allBonds else allBonds))
            allBonds)
  end.

End WithRange.

End NetplanDir.

(** ** Package agent: registration *)

Module Registration.
Import Netplan Agent.

Record RegistrationPayload (SystemInfo : Type) := {
  Hostname : string;
  IPAddress : string;
  SystemInfo_of : SystemInfo;
  Bonds : gmap string (list string)
}.
Arguments Hostname {SystemInfo} _.
Arguments IPAddress {SystemInfo} _.
Arguments SystemInfo_of {SystemInfo} _.
Arguments Bonds {SystemInfo} _.

(** The outside of [Register]: the two readings of package [sysinfo],
    [json.Marshal] of the payload and the HTTP POST of the text. *)
Section WithWorld.
Context `{RangeOrder}.
Context {W SystemInfo : Type}.
Variable GetSystemInfo : W -> result SystemInfo.
Variable GetMainIPAddress : W -> result string.
Variable json_Marshal : RegistrationPayload SystemInfo -> result string.
Variable http_post : string -> string -> W -> result Z * W.

(** [getBondIPAddresses]: a failed load gives the empty map and no error. *)
Definition getBondIPAddresses (fs : FileSystem)
    : result (gmap string (list string)) :=
  match LoadNetplanConfigsFromDir fs "/etc/netplan" with
  | Err _ => Ok ∅
  | Ok configs =>
      let allBonds := ∅ in
      Ok (for_each configs
            (fun config =>
               for_range (Netplan.Bonds (Net config))
                 (fun bondName _ allBonds =>
                    let bondIPs := Netplan.GetBondIPAddresses config bondName in
                    let ips :=
                      for_range bondIPs (fun _ addrs ips => ips ++ addrs) [] in
                    if (0 <? length ips)%nat
                    then <[bondName := ips]> allBonds else allBonds))
            allBonds)
  end.

(** [Register]; [None] is the [nil] error. *)
Definition Register (a : Agent) (fs : FileSystem) (w : W) : option string * W :=
  match GetSystemInfo w with
  | Err e => (Some ("failed to get system info: " +:+ e), w)
  | Ok systemInfo =>
      match GetMainIPAddress w with
      | Err e => (Some ("failed to get main IP address: " +:+ e), w)
      | Ok ipAddr =>
          match getBondIPAddresses fs with
          | Err e => (Some ("failed to get bond IP addresses: " +:+ e), w)
          | Ok bonds =>
              let payload :=
                {| Hostname := hostname a; IPAddress := ipAddr;
                   SystemInfo_of := systemInfo; Bonds := bonds |} in
              match json_Marshal payload with
              | Err e => (Some ("failed to marshal payload: " +:+ e), w)
              | Ok jsonData =>
                  let url := aggregatorURL a +:+ "/api/server" in
                  let '(resp, w) := http_post url jsonData w in
                  match resp with
                  | Err e => (Some ("failed to register: " +:+ e), w)
                  | Ok status =>
                      if negb (status =? 200) && negb (status =? 201)
                      then (Some ("registration failed with status "
                                  +:+ pretty status), w)
                      else (None, w)
                  end
              end
          end
      end
  end.

End WithWorld.

End Registration.

(** ** Package config: the settings of the program *)

Module AppConfig.

Record AggregatorConfig := { Port : Z; Database : string }.

Record AgentConfig := {
  ListenAddr : string;
  AggregatorURL : string;
  RegisterInterval : Z
}.

Record Config := {
  Mode : string;
  Aggregator : AggregatorConfig;
  Agent : AgentConfig
}.

(** The outside of the package: the file system, as a world that a write
    changes, and the TOML codec. *)
Section WithFiles.
Context {W : Type}.
Variable ReadFile : string -> W -> result string.
Variable WriteFile : string -> string -> W -> option string * W.
Variable toml_Unmarshal : string -> result Config.
Variable toml_Marshal : Config -> result string.

Definition LoadConfig (path : string) (w : W) : result Config :=
  match ReadFile path w with
  | Err e => Err ("failed to read config file: " +:+ e)
  | Ok data =>
      match toml_Unmarshal data with
      | Err e => Err ("failed to parse config: " +:+ e)
      | Ok config =>
          (* Set defaults *)
          let config :=
            if Port (Aggregator config) =? 0 then
              {| Mode := Mode config;
                 Aggregator := {| Port := 8080;
                                  Database := Database (Aggregator config) |};
                 Agent := Agent config |}
            else config in
          let config :=
            if String.eqb (Database (Aggregator config)) "" then
              {| Mode := Mode config;
                 Aggregator := {| Port := Port (Aggregator config);
                                  Database := "sysinfo.db" |};
                 Agent := Agent config |}
            else config in
          let config :=
            if String.eqb (ListenAddr (Agent config)) "" then
              {| Mode := Mode config;
                 Aggregator := Aggregator config;
                 Agent := {| ListenAddr := ":8080";
                             AggregatorURL := AggregatorURL (Agent config);
                             RegisterInterval := RegisterInterval (Agent config) |} |}
            else config in
          let config :=
            if RegisterInterval (Agent config) =? 0 then
              {| Mode := Mode config;
                 Aggregator := Aggregator config;
                 Agent := {| ListenAddr := ListenAddr (Agent config);
                             AggregatorURL := AggregatorURL (Agent config);
                             RegisterInterval := 300 |} |}
            else config in
          (* Validate mode *)
          if negb (String.eqb (Mode config) "aggregator")
             && negb (String.eqb (Mode config) "agent")
          then Err ("invalid mode: " +:+ Mode config
                    +:+ " (must be 'aggregator' or 'agent')")
          else if String.eqb (Mode config) "agent"
                  && String.eqb (AggregatorURL (Agent config)) ""
          then Err "aggregator_url is required in agent mode"
          else Ok config
      end
  end.

(** The zero value of [Config]. *)
Definition zero : Config :=
  {| Mode := "";
     Aggregator := {| Port := 0; Database := "" |};
     Agent := {| ListenAddr := ""; AggregatorURL := ""; RegisterInterval := 0 |} |}.

(** [GenerateDefaultConfig]; [None] is the [nil] error. *)
Definition GenerateDefaultConfig (path mode : string) (w : W)
    : option string * W :=
  let config :=
    if String.eqb mode "aggregator" then
      {| Mode := "aggregator";
         Aggregator := {| Port := 8080; Database := "sysinfo.db" |};
         Agent := Agent zero |}
    else
      {| Mode := "agent";
         Aggregator := Aggregator zero;
         Agent := {| ListenAddr := ":8080";
                     AggregatorURL := "http://localhost:8080";
                     RegisterInterval := 300 |} |} in
  match toml_Marshal config with
  | Err e => (Some ("failed to marshal config: " +:+ e), w)
  | Ok data =>
      match WriteFile path data w with
      | (Some e, w) => (Some ("failed to write config file: " +:+ e), w)
      | (None, w) => (None, w)
      end
  end.

End WithFiles.

End AppConfig.

(** A toy disk and a toy codec for the settings: the disk keeps what was
    written last under each path, and the codec knows the two generated
    settings only. *)
Module SettingsExamples.
Import AppConfig.

Definition write_file (path data : string) (disk : gmap string string)
    : option string * gmap string string :=
  (None, <[path := data]> disk).

Definition read_file (path : string) (disk : gmap string string)
    : result string :=
  match disk !! path with
  | Some data => Ok data
  | None => Err "no such file or directory"
  end.

Definition same_settings (x y : Config) : bool :=
  String.eqb (Mode x) (Mode y)
  && (Port (Aggregator x) =? Port (Aggregator y))
  && String.eqb (Database (Aggregator x)) (Database (Aggregator y))
  && String.eqb (ListenAddr (Agent x)) (ListenAddr (Agent y))
  && String.eqb (AggregatorURL (Agent x)) (AggregatorURL (Agent y))
  && (RegisterInterval (Agent x) =? RegisterInterval (Agent y)).

Definition aggregator_settings : Config :=
  {| Mode := "aggregator";
     Aggregator := {| Port := 8080; Database := "sysinfo.db" |};
     Agent := Agent zero |}.

Definition agent_settings : Config :=
  {| Mode := "agent";
     Aggregator := Aggregator zero;
     Agent := {| ListenAddr := ":8080";
                 AggregatorURL := "http://localhost:8080";
                 RegisterInterval := 300 |} |}.

Definition encode (config : Config) : result string :=
  if same_settings config aggregator_settings then Ok "mode = 'aggregator'"
  else if same_settings config agent_settings then Ok "mode = 'agent'"
  else Err "not supported".

Definition decode (data : string) : result Config :=
  if String.eqb data "mode = 'aggregator'" then Ok aggregator_settings
  else if String.eqb data "mode = 'agent'" then Ok agent_settings
  else Err "not supported".

End SettingsExamples.

(** ** The findings validation is to report *)

Module Findings.
Import Bytes Netplan.

(** An interface name is faulty when it is empty or longer than 15
    bytes. *)
Inductive name_finding (name : string) : ValidationError -> Prop :=
| name_empty :
    name = ""%string -> name_finding name NameEmpty
| name_too_long :
    (15 < String.length name)%nat -> name_finding name (NameTooLong name).

(** The common part of an entry is faulty for every address without a
    mask, and for an MTU that is set and outside 68..65536. *)
Inductive common_finding (iface : CommonInterface) : ValidationError -> Prop :=
| address_without_mask (addr : string) :
    addr ∈ Addresses iface -> contains_byte "/" addr = false ->
    common_finding iface (AddressWithoutMask addr)
| invalid_mtu :
    MTU iface <> 0 -> MTU iface < 68 \/ MTU iface > 65536 ->
    common_finding iface (InvalidMTU (MTU iface)).

(** The faults of one entry of the ethernet, wifi, bridge or bond
    section, under the name of its section. *)
Definition section_finding {V : Type} (kind : string)
    (common : V -> CommonInterface) (m : gmap string V)
    (e : ValidationError) : Prop :=
  exists name entry err,
    m !! name = Some entry /\
    (name_finding name err \/ common_finding (common entry) err) /\
    e = Wrapped kind name err.

(** Everything that is wrong with a document, as validation sees it. *)
Inductive finding (c : Config) : ValidationError -> Prop :=
| unsupported_version :
    Version (Net c) <> 2 ->
    finding c (UnsupportedVersion (Version (Net c)))
| invalid_renderer :
    Renderer (Net c) <> ""%string ->
    Renderer (Net c) <> "networkd"%string ->
    Renderer (Net c) <> "NetworkManager"%string ->
    finding c (InvalidRenderer (Renderer (Net c)))
| in_ethernets (e : ValidationError) :
    section_finding "ethernet" Ethernet_Common (Ethernets (Net c)) e ->
    finding c e
| in_wifis (e : ValidationError) :
    section_finding "wifi" Wifi_Common (Wifis (Net c)) e -> finding c e
| in_bridges (e : ValidationError) :
    section_finding "bridge" Bridge_Common (Bridges (Net c)) e -> finding c e
| in_bonds (e : ValidationError) :
    section_finding "bond" Bond_Common (Bonds (Net c)) e -> finding c e
| vlan_name (name : string) (vlan : VLAN) (err : ValidationError) :
    VLANs (Net c) !! name = Some vlan -> name_finding name err ->
    finding c (Wrapped "vlan" name err)
| vlan_id (name : string) (vlan : VLAN) :
    VLANs (Net c) !! name = Some vlan ->
    VLAN_ID vlan < 1 \/ VLAN_ID vlan > 4094 ->
    finding c (InvalidVLANID name (VLAN_ID vlan))
| vlan_link (name : string) (vlan : VLAN) :
    VLANs (Net c) !! name = Some vlan -> VLAN_Link vlan = ""%string ->
    finding c (LinkRequired name).

End Findings.

(** ** Package database: the registry of servers *)

Module Database.
Import Agent Aggregator.

(** The table [servers].  Column [hostname] is UNIQUE, so the table is a
    map from host names to rows; a row keeps the columns that
    [handleRunTests] reads. *)
Definition Store := gmap string Server.

(** [ORDER BY hostname]: byte order of the host names. *)
Definition by_hostname (a b : Server) : Prop :=
  String.leb (Hostname a) (Hostname b) = true.

#[export] Instance by_hostname_dec (a b : Server) : Decision (by_hostname a b).
Proof. unfold by_hostname. apply _. Defined.

Section WithCodec.
Context {SystemInfo : Type}.
(** [json.Marshal] of the system information and of the bond map. *)
Variable marshal_info : SystemInfo -> result string.
Variable marshal_bonds : gmap string (list string) -> result string.

(** [RegisterServer]; [exec_err] is the answer of [conn.Exec] to the
    INSERT ... ON CONFLICT(hostname) DO UPDATE statement, and [None] is
    the [nil] error. *)
Definition RegisterServer (exec_err : option string)
    (hostname ipAddress : string) (systemInfo : SystemInfo)
    (bonds : gmap string (list string)) (store : Store)
    : option string * Store :=
  match marshal_info systemInfo with
  | Err e => (Some ("failed to marshal system info: " +:+ e), store)
  | Ok systemInfoJSON =>
      match marshal_bonds bonds with
      | Err e => (Some ("failed to marshal bonds: " +:+ e), store)
      | Ok bondsJSON =>
          match exec_err with
          | Some e => (Some ("failed to register server: " +:+ e), store)
          | None =>
              (None,
               <[hostname := {| Hostname := hostname; IPAddress := ipAddress;
                                Bonds := bondsJSON |}]> store)
          end
      end
  end.

(** [GetAllServers]; [query_err] is the answer of [conn.Query] and
    [scan_err] that of [rows.Scan], which is called once there is a
    row. *)
Definition GetAllServers (query_err scan_err : option string) (store : Store)
    : result (list Server) :=
  match query_err with
  | Some e => Err ("failed to query servers: " +:+ e)
  | None =>
      let servers := merge_sort by_hostname (map_to_list store).*2 in
      match servers, scan_err with
      | _ :: _, Some e => Err ("failed to scan server: " +:+ e)
      | _, _ => Ok servers
      end
  end.

(** One call of [RegisterServer], with the answer of the database. *)
Record registration := {
  reg_exec_err : option string;
  reg_hostname : string;
  reg_ipAddress : string;
  reg_systemInfo : SystemInfo;
  reg_bonds : gmap string (list string)
}.

(** The table after a sequence of calls of [RegisterServer], its only
    writer, on a table that [initTables] created. *)
Definition registered (calls : list registration) : Store :=
  foldl
    (fun store call =>
       (RegisterServer (reg_exec_err call) (reg_hostname call)
          (reg_ipAddress call) (reg_systemInfo call) (reg_bonds call) store).2)
    ∅ calls.

End WithCodec.

End Database.

(** A toy encoder of bond maps to go with [decode_braces], and the three
    registrations that produce the registry of three agents. *)
Module DatabaseExamples.
Import Agent Aggregator Database.

Definition encode_braces (bonds : gmap string (list string)) : result string :=
  match map_to_list bonds with
  | [] => Ok "{}"%string
  | _ :: _ => Err "not supported"%string
  end.

Definition encode_unit (info : unit) : result string := Ok "{}"%string.

Definition three_registrations : list (registration (SystemInfo := unit)) :=
  [ {| reg_exec_err := None; reg_hostname := "server-b";
       reg_ipAddress := "10.0.0.2"; reg_systemInfo := tt; reg_bonds := ∅ |};
    {| reg_exec_err := None; reg_hostname := "server-a";
       reg_ipAddress := "10.0.0.1"; reg_systemInfo := tt; reg_bonds := ∅ |};
    {| reg_exec_err := None; reg_hostname := "server-c";
       reg_ipAddress := "10.0.0.3"; reg_systemInfo := tt; reg_bonds := ∅ |} ].

End DatabaseExamples.

(** * Properties *)

(** ** Loops *)

Section LoopFacts.
Context `{RangeOrder}.

Lemma elem_of_range {V : Type} (m : gmap string V) (k : string) (v : V) :
  (k, v) ∈ range m <-> m !! k = Some v.
Proof. rewrite range_perm. apply elem_of_map_to_list. Qed.

Lemma range_empty {V : Type} : range (∅ : gmap string V) = [].
Proof.
  apply Permutation_nil_r. rewrite range_perm, map_to_list_empty. done.
Qed.

Lemma range_singleton {V : Type} (k : string) (v : V) :
  range ({[k := v]} : gmap string V) = [(k, v)].
Proof.
  apply Permutation_singleton_r. rewrite range_perm, map_to_list_singleton. done.
Qed.

Lemma NoDup_range_keys {V : Type} (m : gmap string V) : NoDup (range m).*1.
Proof. rewrite range_perm. apply NoDup_fst_map_to_list. Qed.

Lemma for_each_app {A B : Type} (f : A -> list B) (body : A -> list B -> list B)
    (l : list A) (s : list B) :
  (forall x s, body x s = s ++ f x) ->
  for_each l body s = s ++ (l ≫= f).
Proof.
  intros Hbody. unfold for_each. revert s.
  induction l as [|x l IH]; intros s; simpl.
  - by rewrite app_nil_r.
  - rewrite IH, Hbody, <- app_assoc. done.
Qed.

Lemma for_range_app {V B : Type} (f : string -> V -> list B)
    (body : string -> V -> list B -> list B) (m : gmap string V) (s : list B) :
  (forall k v s, body k v s = s ++ f k v) ->
  for_range m body s = s ++ (range m ≫= fun kv => f kv.1 kv.2).
Proof.
  intros Hbody. unfold for_range.
  change (foldl (fun s kv => body kv.1 kv.2 s) s (range m))
    with (for_each (range m) (fun kv s => body kv.1 kv.2 s) s).
  apply for_each_app. intros [k v] s'. apply Hbody.
Qed.

Lemma for_break_existsb {A S : Type} (l : list A) (cond : A -> bool)
    (body : S -> S) (s : S) :
  for_break l cond body s = if existsb cond l then body s else s.
Proof.
  induction l as [|x l IH]; simpl; [done|]. destruct (cond x); simpl; done.
Qed.

Lemma for_find_find {A S : Type} (l : list A) (cond : A -> bool)
    (body : A -> S) (s : S) :
  for_find l cond body s =
  match find cond l with Some x => body x | None => s end.
Proof.
  induction l as [|x l IH]; simpl; [done|]. destruct (cond x); done.
Qed.

Lemma existsb_eqb_elem (l : list string) (b : string) :
  existsb (fun iface => String.eqb iface b) l = true <-> b ∈ l.
Proof.
  rewrite existsb_exists. split.
  - intros (x & Hx & Heq). apply String.eqb_eq in Heq. subst.
    by apply list_elem_of_In.
  - intros Hb. exists b. split; [by apply list_elem_of_In|apply String.eqb_refl].
Qed.

Lemma elem_of_range_bind {V B : Type} (m : gmap string V)
    (g : string * V -> list B) (y : B) :
  y ∈ (range m ≫= g) <-> exists k v, m !! k = Some v /\ y ∈ g (k, v).
Proof.
  rewrite list_elem_of_bind. split.
  - intros ([k v] & Hy & Hkv). apply elem_of_range in Hkv. eauto.
  - intros (k & v & Hkv & Hy). exists (k, v). split; [done|].
    by apply elem_of_range.
Qed.

End LoopFacts.

(** ** The subnet matcher *)

Section Matcher.
Import Bytes Netplan.
Variable parseIPv6 : string -> option (list Z * string).

Lemma index_byte_app (c : ascii) (p q : string) :
  index_byte c p = None ->
  index_byte c (p +:+ String c q) = Some (String.length p).
Proof.
  induction p as [|x p IH]; simpl.
  - by rewrite Ascii.eqb_refl.
  - destruct (Ascii.eqb x c); [done|].
    destruct (index_byte c p); [done|]. intros _. by rewrite IH.
Qed.

Lemma take_bytes_app (p q : string) : take_bytes (String.length p) (p +:+ q) = p.
Proof.
  induction p as [|x p IH]; simpl.
  - by destruct q.
  - by rewrite IH.
Qed.

Lemma stripCIDR_mask (p q : string) :
  index_byte "/" p = None -> stripCIDR (p +:+ String "/" q) = p.
Proof.
  intros Hp. unfold stripCIDR. rewrite (index_byte_app _ _ _ Hp).
  apply take_bytes_app.
Qed.

Lemma stripCIDR_bare (p : string) : index_byte "/" p = None -> stripCIDR p = p.
Proof. intros Hp. unfold stripCIDR. by rewrite Hp. Qed.

Lemma InSameSubnet_true (ip1CIDR ip2 : string) :
  InSameSubnet parseIPv6 ip1CIDR ip2 = true <->
  exists ip ipNet1 ip2Addr,
    GoNet.ParseCIDR parseIPv6 ip1CIDR = Some (ip, ipNet1) /\
    GoNet.ParseIP parseIPv6 (stripCIDR ip2) = Some ip2Addr /\
    GoNet.Contains ipNet1 ip2Addr = true.
Proof.
  unfold InSameSubnet. split.
  - destruct (GoNet.ParseCIDR parseIPv6 ip1CIDR) as [[ip ipNet1]|]; [|done].
    destruct (GoNet.ParseIP parseIPv6 (stripCIDR ip2)) as [ip2Addr|]; [|done].
    eauto 6.
  - intros (ip & ipNet1 & ip2Addr & -> & -> & Hc). done.
Qed.

End Matcher.

(** ** The loader *)

Section Loader.
Import Netplan Reference.

Lemma load_files_all_ok (fs : FileSystem) (files : list string) (acc : list Config) :
  Forall (fun file => exists config, LoadConfig fs file = Ok config) files ->
  load_files fs files acc = Ok (acc ++ load_skipping fs files).
Proof.
  intros Hall. revert acc.
  induction Hall as [|file files [config Hc] _ IH]; intros acc; simpl.
  - by rewrite app_nil_r.
  - unfold load_skipping. simpl. rewrite Hc. simpl.
    rewrite IH, <- app_assoc. done.
Qed.

Lemma load_files_some_err (fs : FileSystem) (files : list string) (acc : list Config) :
  Exists (fun file => exists e, LoadConfig fs file = Err e) files ->
  exists msg, load_files fs files acc = Err msg.
Proof.
  intros Hex. revert acc.
  induction Hex as [file files [e He]|file files _ IH]; intros acc; simpl.
  - rewrite He. eauto.
  - destruct (LoadConfig fs file); eauto.
Qed.

Lemma length_load_skipping_all_ok (fs : FileSystem) (files : list string) :
  Forall (fun file => exists config, LoadConfig fs file = Ok config) files ->
  length (load_skipping fs files) = length files.
Proof.
  induction 1 as [|file l [config Hc] _ IH]; [done|].
  unfold load_skipping in *. simpl. rewrite Hc. simpl. f_equal. exact IH.
Qed.

(** C3, as the code has it: the load of a directory is all or nothing.
    When the two enumerations succeed and every document loads, all
    graphs are returned in file order; a single document that does not
    load makes the whole load fail, as does a failed enumeration. *)
Theorem LoadNetplanConfigsFromDir_all_or_nothing
    (fs : FileSystem) (dir : string) :
  (forall e, Glob fs (Join dir "*.yaml") = Err e ->
     exists msg, LoadNetplanConfigsFromDir fs dir = Err msg) /\
  (forall files e,
     Glob fs (Join dir "*.yaml") = Ok files ->
     Glob fs (Join dir "*.yml") = Err e ->
     exists msg, LoadNetplanConfigsFromDir fs dir = Err msg) /\
  (forall files ymlFiles,
     Glob fs (Join dir "*.yaml") = Ok files ->
     Glob fs (Join dir "*.yml") = Ok ymlFiles ->
     (Forall (fun file => exists config, LoadConfig fs file = Ok config)
        (files ++ ymlFiles) ->
      LoadNetplanConfigsFromDir fs dir =
        Ok (load_skipping fs (files ++ ymlFiles)) /\
      length (load_skipping fs (files ++ ymlFiles)) = length (files ++ ymlFiles)) /\
     (Exists (fun file => exists e, LoadConfig fs file = Err e)
        (files ++ ymlFiles) ->
      exists msg, LoadNetplanConfigsFromDir fs dir = Err msg)).
Proof.
  unfold LoadNetplanConfigsFromDir. split; [|split].
  - intros e ->. eauto.
  - intros files e -> ->. eauto.
  - intros files ymlFiles -> ->. split.
    + intros Hall. split; [by rewrite load_files_all_ok|].
      by apply length_load_skipping_all_ok.
    + apply load_files_some_err.
Qed.

(** C3, as stated, fails: with one good and one malformed document the
    enumeration succeeds and skipping would keep one graph, but the load
    returns an error and no graph. *)
Lemma load_aborts_on_bad_document :
  Glob Examples.good_and_bad (Join "/etc/netplan" "*.yaml") =
    Ok ["/etc/netplan/01-good.yaml"; "/etc/netplan/02-bad.yaml"]%string /\
  Glob Examples.good_and_bad (Join "/etc/netplan" "*.yml") = Ok [] /\
  load_skipping Examples.good_and_bad
    ["/etc/netplan/01-good.yaml"; "/etc/netplan/02-bad.yaml"]%string =
    [Examples.three_interfaces] /\
  LoadNetplanConfigsFromDir Examples.good_and_bad "/etc/netplan" =
    Err ("failed to load config from /etc/netplan/02-bad.yaml: "
         +:+ "failed to unmarshal YAML: yaml: line 1: did not find expected key").
Proof. repeat split. Qed.

End Loader.

(** ** The prober *)

Section Prober.
Import Agent.
Context `{RangeOrder}.
Context {W : Type}.
Variable run_arping : string -> string -> W -> option string * Z * W.
Variable http_get : string -> W -> result Z * Z * W.

(** C5: whatever the two probes answer, [testConnectivity] runs [arping]
    and then the HTTP GET, each once, and returns exactly two results:
    first the one of type "arp", then the one of type "http".  Each
    carries the outcome of its own probe only. *)
Theorem testConnectivity_two_results (a : Agent)
    (targetHostname targetIP bondName sourceIP sourceInterface : string) (w : W) :
  exists arpErr arpElapsed w1 resp httpElapsed w2 arpResult httpResult,
    run_arping sourceInterface targetIP w = (arpErr, arpElapsed, w1) /\
    http_get ("http://" +:+ targetIP +:+ ":8080/api/sysinfo") w1 =
      (resp, httpElapsed, w2) /\
    testConnectivity run_arping http_get a targetHostname targetIP bondName
      sourceIP sourceInterface w = ([arpResult; httpResult], w2) /\
    TestType arpResult = "arp"%string /\
    TestType httpResult = "http"%string /\
    (Success arpResult = true <-> arpErr = None) /\
    (Success httpResult = true <-> resp = Ok 200) /\
    TargetIP arpResult = targetIP /\ TargetIP httpResult = targetIP /\
    TargetHostname arpResult = targetHostname /\
    TargetHostname httpResult = targetHostname /\
    SourceIP arpResult = sourceIP /\ SourceIP httpResult = sourceIP /\
    BondName arpResult = bondName /\ BondName httpResult = bondName.
Proof.
  unfold testConnectivity.
  destruct (run_arping sourceInterface targetIP w)
    as [[arpErr arpElapsed] w1] eqn:Harp.
  destruct (http_get ("http://" +:+ targetIP +:+ ":8080/api/sysinfo") w1)
    as [[resp httpElapsed] w2] eqn:Hhttp.
  exists arpErr, arpElapsed, w1, resp, httpElapsed, w2.
  destruct arpErr as [e|], resp as [status|e'];
    try (destruct (Z.eqb_spec status 200) as [->|Hne]);
    eexists _, _; simpl;
    (split; [reflexivity|]); (split; [exact Hhttp|]); (split; [reflexivity|]);
    repeat split; intros; simpl in *; congruence.
Qed.

End Prober.

(** ** The relation resolver *)

Section Resolver.
Import Netplan Reference.
Context `{RangeOrder}.
Variable parseIPv6 : string -> option (list Z * string).

Lemma for_break_true (l : list string) (b : string) :
  for_break l (fun iface => String.eqb iface b) (fun _ : bool => true) false = true
  <-> b ∈ l.
Proof.
  rewrite for_break_existsb, <- existsb_eqb_elem.
  destruct (existsb _ l); split; done.
Qed.

Lemma isBondRelated_spec (c : Config) (bondName x : string) :
  isBondRelated c bondName x = true <-> bond_related c bondName x.
Proof.
  unfold isBondRelated, bond_related, vlan_on_bond, vlan_on_bridge_with_bond,
    bridge_with_bond.
  destruct (String.eqb_spec x bondName) as [->|Hne]; [by split; auto|].
  split.
  - intros Hrel.
    destruct (VLANs (Net c) !! x) as [vlan|] eqn:Hv.
    + destruct (String.eqb_spec (VLAN_Link vlan) bondName) as [Hl|Hl];
        [by right; left; eauto|].
      destruct (Bridges (Net c) !! VLAN_Link vlan) as [bridge|] eqn:Hb.
      * destruct (for_break (Bridge_Interfaces bridge) _ _ false) eqn:Hf.
        -- apply for_break_true in Hf. right; right; left.
           exists vlan. split; [done|]. by exists bridge.
        -- destruct (Bridges (Net c) !! x) as [bridge'|] eqn:Hb'; [|done].
           apply for_break_true in Hrel. right; right; right. by exists bridge'.
      * destruct (Bridges (Net c) !! x) as [bridge'|] eqn:Hb'; [|done].
        apply for_break_true in Hrel. right; right; right. by exists bridge'.
    + destruct (Bridges (Net c) !! x) as [bridge'|] eqn:Hb'; [|done].
      apply for_break_true in Hrel. right; right; right. by exists bridge'.
  - intros [Heq|[(vlan & Hv & Hl)|[(vlan & Hv & bridge & Hb & Hin)|(bridge & Hb & Hin)]]].
    + done.
    + rewrite Hv, Hl, String.eqb_refl. done.
    + rewrite Hv. destruct (String.eqb (VLAN_Link vlan) bondName); [done|].
      rewrite Hb. apply for_break_true in Hin. by rewrite Hin.
    + apply for_break_true in Hin.
      destruct (VLANs (Net c) !! x) as [vlan|]; [|by rewrite Hb].
      destruct (String.eqb (VLAN_Link vlan) bondName); [done|].
      destruct (Bridges (Net c) !! VLAN_Link vlan) as [bridge'|].
      * case_match; [done|]. by rewrite Hb.
      * by rewrite Hb.
Qed.

Lemma elem_of_GetAllBondRelatedInterfaces (c : Config) (bondName x : string) :
  is_Some (Bonds (Net c) !! bondName) ->
  x ∈ GetAllBondRelatedInterfaces c bondName <-> listed c bondName x.
Proof.
  intros [bond Hbond]. unfold GetAllBondRelatedInterfaces. rewrite Hbond.
  rewrite (for_range_app
             (fun name (_ : Tunnel) =>
                if isBondRelated c bondName name then [name] else []));
    [|intros k v s; destruct (isBondRelated _ _ _); by rewrite ?app_nil_r].
  rewrite (for_range_app
             (fun name vlan =>
                match Bridges (Net c) !! VLAN_Link vlan with
                | Some bridge =>
                    if existsb (fun iface => String.eqb iface bondName)
                         (Bridge_Interfaces bridge)
                    then [name] else []
                | None => []
                end));
    [|intros k v s; destruct (Bridges _ !! _);
      rewrite ?for_break_existsb; try destruct (existsb _ _);
      by rewrite ?app_nil_r].
  rewrite (for_range_app
             (fun name bridge =>
                if existsb (fun iface => String.eqb iface bondName)
                     (Bridge_Interfaces bridge)
                then [name] else []));
    [|intros k v s; rewrite for_break_existsb; destruct (existsb _ _);
      by rewrite ?app_nil_r].
  rewrite (for_range_app
             (fun name vlan => if String.eqb (VLAN_Link vlan) bondName
                               then [name] else []));
    [|intros k v s; destruct (String.eqb _ _); by rewrite ?app_nil_r].
  rewrite app_nil_l, !elem_of_app, !elem_of_range_bind. simpl.
  unfold listed, related_tunnel, vlan_on_bond, vlan_on_bridge_with_bond,
    bridge_with_bond.
  rewrite list_elem_of_singleton.
  split.
  - intros [[[[Hx|(k & vlan & Hv & Hx)]|(k & bridge & Hb & Hx)]
            |(k & vlan & Hv & Hx)]|(k & tunnel & Ht & Hx)].
    + by left.
    + destruct (String.eqb_spec (VLAN_Link vlan) bondName); [|by inversion Hx].
      apply list_elem_of_singleton in Hx as ->. right; left. eauto.
    + destruct (existsb _ _) eqn:He; [|by inversion Hx].
      apply list_elem_of_singleton in Hx as ->. apply existsb_eqb_elem in He.
      right; right; left. eauto.
    + destruct (Bridges (Net c) !! VLAN_Link vlan) as [bridge|] eqn:Hb;
        [|by inversion Hx].
      destruct (existsb _ _) eqn:He; [|by inversion Hx].
      apply list_elem_of_singleton in Hx as ->. apply existsb_eqb_elem in He.
      right; right; right; left. eauto.
    + destruct (isBondRelated c bondName k) eqn:Hr; [|by inversion Hx].
      apply list_elem_of_singleton in Hx as ->. apply isBondRelated_spec in Hr.
      right; right; right; right. eauto.
  - intros [Hx|[(vlan & Hv & Hl)|[(bridge & Hb & Hin)
            |[(vlan & Hv & bridge & Hb & Hin)|([tunnel Ht] & Hr)]]]].
    + by repeat left.
    + left; left; left; right. exists x, vlan. split; [done|].
      rewrite Hl, String.eqb_refl. by apply list_elem_of_singleton.
    + left; left; right. exists x, bridge. split; [done|].
      apply existsb_eqb_elem in Hin. rewrite Hin. by apply list_elem_of_singleton.
    + left; right. exists x, vlan. split; [done|]. rewrite Hb.
      apply existsb_eqb_elem in Hin. rewrite Hin. by apply list_elem_of_singleton.
    + right. exists x, tunnel. split; [done|].
      apply isBondRelated_spec in Hr. rewrite Hr. by apply list_elem_of_singleton.
Qed.

Lemma add_all_app (name : string) (addrs : list string) (result : list IPWithMask) :
  add_all parseIPv6 name addrs result =
  result ++ masked_entries parseIPv6 name addrs.
Proof.
  unfold add_all, masked_entries. apply for_each_app.
  intros addr s. unfold addIPWithMask.
  destruct (GoNet.ParseCIDR parseIPv6 addr) as [[ip ipNet]|];
    by rewrite ?app_nil_r.
Qed.

Lemma elem_of_masked_entries (name : string) (addrs : list string) (e : IPWithMask) :
  e ∈ masked_entries parseIPv6 name addrs <->
  exists addr ip ipNet,
    addr ∈ addrs /\ GoNet.ParseCIDR parseIPv6 addr = Some (ip, ipNet) /\
    e = {| IP := stripCIDR addr; CIDR := addr; IPNet := ipNet; BondName := name |}.
Proof.
  unfold masked_entries. rewrite list_elem_of_bind. split.
  - intros (addr & He & Hin).
    destruct (GoNet.ParseCIDR parseIPv6 addr) as [[ip ipNet]|] eqn:Hp;
      [|by inversion He].
    apply list_elem_of_singleton in He. eauto 6.
  - intros (addr & ip & ipNet & Hin & Hp & ->). exists addr. rewrite Hp.
    split; [by apply list_elem_of_singleton|done].
Qed.

Lemma GetBondIPAddressesWithMask_app (c : Config) (bondName : string) (bond : Bond) :
  Bonds (Net c) !! bondName = Some bond ->
  GetBondIPAddressesWithMask parseIPv6 c bondName =
  masked_entries parseIPv6 bondName (Addresses (Bond_Common bond))
  ++ (range (VLANs (Net c)) ≫= fun kv =>
        if String.eqb (VLAN_Link kv.2) bondName
        then masked_entries parseIPv6 kv.1 (Addresses (VLAN_Common kv.2)) else [])
  ++ (range (Bridges (Net c)) ≫= fun kv =>
        if existsb (fun iface => String.eqb iface bondName) (Bridge_Interfaces kv.2)
        then masked_entries parseIPv6 kv.1 (Addresses (Bridge_Common kv.2)) else [])
  ++ (range (VLANs (Net c)) ≫= fun kv =>
        match Bridges (Net c) !! VLAN_Link kv.2 with
        | Some bridge =>
            if existsb (fun iface => String.eqb iface bondName)
                 (Bridge_Interfaces bridge)
            then masked_entries parseIPv6 kv.1 (Addresses (VLAN_Common kv.2))
            else []
        | None => []
        end)
  ++ (range (Bridges (Net c)) ≫= fun kv =>
        if existsb (fun iface =>
                      match VLANs (Net c) !! iface with
                      | Some vlan => String.eqb (VLAN_Link vlan) bondName
                      | None => false
                      end) (Bridge_Interfaces kv.2)
        then masked_entries parseIPv6 kv.1 (Addresses (Bridge_Common kv.2)) else [])
  ++ (range (Tunnels (Net c)) ≫= fun kv =>
        if (0 <? length (Addresses (Tunnel_Common kv.2)))%nat
           && isBondRelated c bondName kv.1
        then masked_entries parseIPv6 kv.1 (Addresses (Tunnel_Common kv.2)) else []).
Proof.
  intros Hbond. unfold GetBondIPAddressesWithMask. rewrite Hbond.
  rewrite (for_range_app
             (fun name tunnel =>
                if (0 <? length (Addresses (Tunnel_Common tunnel)))%nat
                   && isBondRelated c bondName name
                then masked_entries parseIPv6 name (Addresses (Tunnel_Common tunnel))
                else []));
    [|intros k v s; destruct (_ <? _)%nat, (isBondRelated _ _ _); simpl;
      by rewrite ?add_all_app, ?app_nil_r].
  rewrite (for_range_app
             (fun name bridge =>
                if existsb (fun iface =>
                              match VLANs (Net c) !! iface with
                              | Some vlan => String.eqb (VLAN_Link vlan) bondName
                              | None => false
                              end) (Bridge_Interfaces bridge)
                then masked_entries parseIPv6 name (Addresses (Bridge_Common bridge))
                else []));
    [|intros k v s; rewrite for_break_existsb; destruct (existsb _ _);
      by rewrite ?add_all_app, ?app_nil_r].
  rewrite (for_range_app
             (fun name vlan =>
                match Bridges (Net c) !! VLAN_Link vlan with
                | Some bridge =>
                    if existsb (fun iface => String.eqb iface bondName)
                         (Bridge_Interfaces bridge)
                    then masked_entries parseIPv6 name (Addresses (VLAN_Common vlan))
                    else []
                | None => []
                end));
    [|intros k v s; destruct (Bridges _ !! _);
      rewrite ?for_break_existsb; try destruct (existsb _ _);
      by rewrite ?add_all_app, ?app_nil_r].
  rewrite (for_range_app
             (fun name bridge =>
                if existsb (fun iface => String.eqb iface bondName)
                     (Bridge_Interfaces bridge)
                then masked_entries parseIPv6 name (Addresses (Bridge_Common bridge))
                else []));
    [|intros k v s; rewrite for_break_existsb; destruct (existsb _ _);
      by rewrite ?add_all_app, ?app_nil_r].
  rewrite (for_range_app
             (fun name vlan =>
                if String.eqb (VLAN_Link vlan) bondName
                then masked_entries parseIPv6 name (Addresses (VLAN_Common vlan))
                else []));
    [|intros k v s; destruct (String.eqb _ _);
      by rewrite ?add_all_app, ?app_nil_r].
  rewrite add_all_app, app_nil_l, <- !app_assoc. done.
Qed.

Lemma elem_of_GetBondIPAddressesWithMask (c : Config) (bondName : string)
    (e : IPWithMask) :
  is_Some (Bonds (Net c) !! bondName) ->
  e ∈ GetBondIPAddressesWithMask parseIPv6 c bondName <->
  exists x addr ip ipNet,
    owns c bondName x addr /\
    GoNet.ParseCIDR parseIPv6 addr = Some (ip, ipNet) /\
    e = {| IP := stripCIDR addr; CIDR := addr; IPNet := ipNet; BondName := x |}.
Proof.
  intros [bond Hbond]. rewrite (GetBondIPAddressesWithMask_app _ _ _ Hbond).
  rewrite !elem_of_app, !elem_of_range_bind. simpl.
  unfold owns, bridge_with_vlan_on_bond, bond_related, vlan_on_bridge_with_bond,
    bridge_with_bond, vlan_on_bond.
  split.
  - intros [He|[(k & vlan & Hv & He)|[(k & bridge & Hb & He)
            |[(k & vlan & Hv & He)|[(k & bridge & Hb & He)
            |(k & tunnel & Ht & He)]]]]].
    + apply elem_of_masked_entries in He as (addr & ip & ipNet & Hin & Hp & ->).
      exists bondName, addr, ip, ipNet. split; [|done]. left. eauto.
    + destruct (String.eqb_spec (VLAN_Link vlan) bondName) as [Hl|];
        [|by inversion He].
      apply elem_of_masked_entries in He as (addr & ip & ipNet & Hin & Hp & ->).
      exists k, addr, ip, ipNet. split; [|done]. right; left. eauto 6.
    + destruct (existsb _ _) eqn:Hex; [|by inversion He].
      apply existsb_eqb_elem in Hex.
      apply elem_of_masked_entries in He as (addr & ip & ipNet & Hin & Hp & ->).
      exists k, addr, ip, ipNet. split; [|done]. right; right; left. eauto 6.
    + destruct (Bridges (Net c) !! VLAN_Link vlan) as [bridge|] eqn:Hb;
        [|by inversion He].
      destruct (existsb _ _) eqn:Hex; [|by inversion He].
      apply existsb_eqb_elem in Hex.
      apply elem_of_masked_entries in He as (addr & ip & ipNet & Hin & Hp & ->).
      exists k, addr, ip, ipNet. split; [|done]. right; left.
      exists vlan. split; [done|]. split; [done|]. right. eauto.
    + destruct (existsb _ _) eqn:Hex; [|by inversion He].
      apply existsb_exists in Hex as (member & Hm & Hex).
      apply list_elem_of_In in Hm.
      destruct (VLANs (Net c) !! member) as [vlan|] eqn:Hv; [|done].
      apply String.eqb_eq in Hex.
      apply elem_of_masked_entries in He as (addr & ip & ipNet & Hin & Hp & ->).
      exists k, addr, ip, ipNet. split; [|done]. right; right; left.
      exists bridge. split; [done|]. split; [done|]. right.
      exists bridge, member. eauto.
    + destruct (_ <? _)%nat; [|by inversion He].
      destruct (isBondRelated c bondName k) eqn:Hr; [|by inversion He].
      apply isBondRelated_spec in Hr. simpl in He.
      apply elem_of_masked_entries in He as (addr & ip & ipNet & Hin & Hp & ->).
      exists k, addr, ip, ipNet. split; [|done]. right; right; right. eauto.
  - intros (x & addr & ip & ipNet & Hown & Hp & ->).
    assert (forall addrs, addr ∈ addrs ->
              {| IP := stripCIDR addr; CIDR := addr; IPNet := ipNet;
                 BondName := x |} ∈ masked_entries parseIPv6 x addrs) as Hentry.
    { intros addrs Hin. apply elem_of_masked_entries. eauto 6. }
    destruct Hown as [(-> & bond' & Hb' & Hin)
                     |[(vlan & Hv & Hin & [Hl|(bridge & Hb & Hmem)])
                     |[(bridge & Hb & Hin & [Hmem|(bridge' & member & Hb' & Hmem & vlan & Hv & Hl)])
                     |(tunnel & Ht & Hin & Hr)]]].
    + left. rewrite Hbond in Hb'. inversion Hb'; subst. by apply Hentry.
    + right; left. exists x, vlan. split; [done|].
      rewrite Hl, String.eqb_refl. by apply Hentry.
    + do 3 right. left. exists x, vlan. split; [done|]. rewrite Hb.
      apply existsb_eqb_elem in Hmem. rewrite Hmem. by apply Hentry.
    + do 2 right. left. exists x, bridge. split; [done|].
      apply existsb_eqb_elem in Hmem. rewrite Hmem. by apply Hentry.
    + do 4 right. left. exists x, bridge. split; [done|].
      rewrite Hb in Hb'. inversion Hb'; subst bridge'.
      replace (existsb _ (Bridge_Interfaces bridge)) with true; [by apply Hentry|].
      symmetry. apply existsb_exists. exists member.
      split; [by apply list_elem_of_In|]. rewrite Hv, Hl. apply String.eqb_refl.
    + do 5 right. exists x, tunnel. split; [done|].
      apply isBondRelated_spec in Hr. rewrite Hr.
      replace (0 <? length (Addresses (Tunnel_Common tunnel)))%nat with true;
        [by apply Hentry|].
      symmetry. apply Nat.ltb_lt. destruct (Addresses (Tunnel_Common tunnel));
        [by inversion Hin|simpl; lia].
Qed.

Lemma bond_related_derived (c : Config) (bondName x : string) :
  bond_related c bondName x -> derived c bondName x.
Proof.
  intros [->|[(vlan & Hv & Hl)|[(vlan & Hv & bridge & Hb & Hin)|(bridge & Hb & Hin)]]].
  - constructor.
  - eapply derived_vlan; [done|]. rewrite Hl. constructor.
  - eapply derived_vlan; [done|]. eapply derived_bridge; [done..|]. constructor.
  - eapply derived_bridge; [done..|]. constructor.
Qed.

Lemma listed_derived (c : Config) (bondName x : string) :
  listed c bondName x -> derived c bondName x.
Proof.
  intros [Hx|[Hx|[Hx|[Hx|[_ Hx]]]]]; apply bond_related_derived;
    unfold bond_related; auto.
Qed.

Lemma owns_derived (c : Config) (bondName x addr : string) :
  owns c bondName x addr -> derived c bondName x.
Proof.
  intros [(-> & _)|[(vlan & Hv & _ & [Hl|Hbr])
                   |[(bridge & Hb & _ & [Hmem|(bridge' & member & Hb' & Hmem & Hvl)])
                   |(tunnel & _ & _ & Hr)]]].
  - constructor.
  - apply bond_related_derived. right; left. by exists vlan.
  - apply bond_related_derived. right; right; left. by exists vlan.
  - apply bond_related_derived. right; right; right. by exists bridge.
  - eapply derived_bridge; [done..|]. apply bond_related_derived. by right; left.
  - by apply bond_related_derived.
Qed.

Lemma owns_interface_owns (c : Config) (bondName x addr : string) :
  owns_interface c bondName x addr -> owns c bondName x addr.
Proof. unfold owns_interface, owns. tauto. Qed.

Lemma owns_declares (c : Config) (bondName x addr : string) :
  owns c bondName x addr -> declares c x addr.
Proof.
  intros [(_ & bond & Hb & Hin)|[(vlan & Hv & Hin & _)
         |[(bridge & Hb & Hin & _)|(tunnel & Ht & Hin & _)]]].
  - left. eauto.
  - right; left. eauto.
  - right; right; left. eauto.
  - right; right; right. eauto.
Qed.

Lemma bond_related_listed (c : Config) (bondName x : string) :
  bond_related c bondName x -> listed c bondName x.
Proof. unfold bond_related, listed. tauto. Qed.

(** C1, as the code has it: for a bond of the graph the resolver follows
    the membership edges through a fixed set of cases, not to any depth.
    [GetAllBondRelatedInterfaces] lists the bond, the VLANs on it, the
    bridges that include it and the VLANs on such bridges;
    [GetBondIPAddressesWithMask] returns, tagged with its owner, every
    address that parses of these interfaces and of the bridges that
    include a VLAN on the bond.  Whatever either of them reports belongs
    to the closure, and every masked address returned is an address the
    document declares on its owner.  Both are plain loops over the maps,
    defined for every graph, whether its membership edges are cyclic or
    not. *)
Theorem resolver_fixed_cases (c : Config) (bondName : string) :
  is_Some (Bonds (Net c) !! bondName) ->
  (forall x, bond_related c bondName x ->
             x ∈ GetAllBondRelatedInterfaces c bondName) /\
  (forall x, x ∈ GetAllBondRelatedInterfaces c bondName -> derived c bondName x) /\
  (forall x addr ip ipNet,
     owns_interface c bondName x addr ->
     GoNet.ParseCIDR parseIPv6 addr = Some (ip, ipNet) ->
     {| IP := stripCIDR addr; CIDR := addr; IPNet := ipNet; BondName := x |}
       ∈ GetBondIPAddressesWithMask parseIPv6 c bondName) /\
  (forall e,
     e ∈ GetBondIPAddressesWithMask parseIPv6 c bondName ->
     derived c bondName (BondName e) /\
     exists addr ip ipNet,
       declares c (BondName e) addr /\
       GoNet.ParseCIDR parseIPv6 addr = Some (ip, ipNet) /\
       e = {| IP := stripCIDR addr; CIDR := addr; IPNet := ipNet;
              BondName := BondName e |}).
Proof.
  intros Hbond. split; [|split; [|split]].
  - intros x Hx. apply elem_of_GetAllBondRelatedInterfaces; [done|].
    by apply bond_related_listed.
  - intros x Hx. apply listed_derived.
    by apply elem_of_GetAllBondRelatedInterfaces.
  - intros x addr ip ipNet Hown Hparse.
    apply elem_of_GetBondIPAddressesWithMask; [done|].
    exists x, addr, ip, ipNet. split; [by apply owns_interface_owns|done].
  - intros e He.
    apply elem_of_GetBondIPAddressesWithMask in He
      as (x & addr & ip & ipNet & Hown & Hparse & ->); [|done].
    simpl. split; [by eapply owns_derived|].
    exists addr, ip, ipNet. split; [by eapply owns_declares|done].
Qed.

(** C10: a name that is not a key of the bonds map resolves to nothing:
    the empty map, the empty slice and the empty list, whatever VLANs,
    bridges or tunnels mention the name. *)
Theorem resolver_unknown_bond (c : Config) (bondName : string) :
  Bonds (Net c) !! bondName = None ->
  GetBondIPAddresses c bondName = ∅ /\
  GetBondIPAddressesWithMask parseIPv6 c bondName = [] /\
  GetAllBondRelatedInterfaces c bondName = [].
Proof.
  intros Hnone.
  unfold GetBondIPAddresses, GetBondIPAddressesWithMask,
    GetAllBondRelatedInterfaces.
  by rewrite Hnone.
Qed.

End Resolver.

Section ResolverExamples.
Import Netplan Reference Examples.

(** The hypothesis of [resolver_fixed_cases] holds for [bond0] in the
    configuration of [TestGetAllBondRelatedInterfaces]. *)
Lemma resolver_fixed_cases_witness :
  is_Some (Bonds (Net three_interfaces) !! "bond0"%string) /\
  (forall x, bond_related three_interfaces "bond0" x ->
             x ∈ GetAllBondRelatedInterfaces three_interfaces "bond0") /\
  (forall x, x ∈ GetAllBondRelatedInterfaces three_interfaces "bond0" ->
             derived three_interfaces "bond0" x) /\
  (forall e,
     e ∈ GetBondIPAddressesWithMask no_parseIPv6 three_interfaces "bond0" ->
     derived three_interfaces "bond0" (BondName e)).
Proof.
  assert (is_Some (Bonds (Net three_interfaces) !! "bond0"%string)) as Hbond
    by (eexists; reflexivity).
  destruct (resolver_fixed_cases no_parseIPv6 three_interfaces "bond0" Hbond)
    as (Hlists & Hsound & _ & Hmask).
  split; [exact Hbond|]. split; [exact Hlists|]. split; [exact Hsound|].
  intros e He. exact (proj1 (Hmask e He)).
Defined.

(** C1, as stated, fails: the VLAN [br1.200] sits on a bridge that includes
    a VLAN of [bond0], so it is in the closure, but the resolver neither
    lists it nor returns its address. *)
Lemma nested_vlan_not_resolved :
  is_Some (Bonds (Net nested) !! "bond0"%string) /\
  derived nested "bond0" "br1.200" /\
  ~ ("br1.200"%string ∈ GetAllBondRelatedInterfaces nested "bond0") /\
  ~ ("br1.200"%string ∈
       BondName <$> GetBondIPAddressesWithMask no_parseIPv6 nested "bond0").
Proof.
  split; [by eexists|]. split.
  - eapply (derived_vlan _ _ "br1.200" br1_200); [reflexivity|].
    eapply (derived_bridge _ _ "br1" br1 "bond0.100");
      [reflexivity|by apply list_elem_of_singleton|].
    eapply (derived_vlan _ _ "bond0.100" bond0_100); [reflexivity|].
    apply derived_bond.
  - split; apply (bool_decide_unpack _); vm_compute; exact I.
Qed.

(** On a graph with a membership cycle the resolver returns as on any
    other. *)
Lemma resolver_on_cycle :
  GetAllBondRelatedInterfaces cyclic "bond0" = ["bond0"; "br0"; "br0.10"]%string /\
  BondName <$> GetBondIPAddressesWithMask no_parseIPv6 cyclic "bond0" =
    ["bond0"; "br0"; "br0.10"]%string.
Proof. split; vm_compute; reflexivity. Qed.

(** The hypothesis of [resolver_unknown_bond] holds for [bond9], a name
    that a VLAN, a bridge and a tunnel mention. *)
Lemma resolver_unknown_bond_witness :
  Bonds (Net dangling) !! "bond9"%string = None /\
  (GetBondIPAddresses dangling "bond9" = ∅ /\
   GetBondIPAddressesWithMask no_parseIPv6 dangling "bond9" = [] /\
   GetAllBondRelatedInterfaces dangling "bond9" = []).
Proof.
  split; [reflexivity|].
  apply (resolver_unknown_bond no_parseIPv6 dangling "bond9"). reflexivity.
Defined.

End ResolverExamples.

Section ThreeInterfaces.
Import Netplan Reference Examples.
Context `{RangeOrder}.
Variable parseIPv6 : string -> option (list Z * string).

Lemma derived_three_interfaces (x : string) :
  derived three_interfaces "bond0" x <->
  x ∈ ["bond0"; "bond0.100"; "br0"]%string.
Proof.
  split.
  - induction 1 as [|x vlan Hv _ _|x bridge member Hb _ _ _|x tunnel e Ht _ _ _].
    + set_solver.
    + simpl in Hv. apply lookup_singleton_Some in Hv as [<- _]. set_solver.
    + simpl in Hb. apply lookup_singleton_Some in Hb as [<- _]. set_solver.
    + simpl in Ht. by rewrite lookup_empty in Ht.
  - intros Hx. repeat (apply elem_of_cons in Hx as [->|Hx]).
    + apply derived_bond.
    + eapply (derived_vlan _ _ _ bond0_100); [reflexivity|]. apply derived_bond.
    + eapply (derived_bridge _ _ _ br0 "bond0"); [reflexivity| |apply derived_bond].
      by apply list_elem_of_singleton.
    + by apply elem_of_nil in Hx.
Qed.

(** C4: for the bond [bond0] with 10.0.1.100/24, the VLAN [bond0.100] with
    link [bond0] and 10.100.1.1/24, and the bridge [br0] that includes
    [bond0] with 172.16.1.1/24, the resolver lists exactly [bond0],
    [bond0.100] and [br0], which is also the closure, and returns exactly
    three masked addresses, one for each of the three owners. *)
Theorem three_interfaces_resolved :
  GetAllBondRelatedInterfaces three_interfaces "bond0" =
    ["bond0"; "bond0.100"; "br0"]%string /\
  (forall x, derived three_interfaces "bond0" x <->
             x ∈ GetAllBondRelatedInterfaces three_interfaces "bond0") /\
  GetBondIPAddressesWithMask parseIPv6 three_interfaces "bond0" =
    [ {| IP := "10.0.1.100"; CIDR := "10.0.1.100/24";
         IPNet := GoNet.mkIPNet [10; 0; 1; 0] [255; 255; 255; 0];
         BondName := "bond0" |};
      {| IP := "10.100.1.1"; CIDR := "10.100.1.1/24";
         IPNet := GoNet.mkIPNet [10; 100; 1; 0] [255; 255; 255; 0];
         BondName := "bond0.100" |};
      {| IP := "172.16.1.1"; CIDR := "172.16.1.1/24";
         IPNet := GoNet.mkIPNet [172; 16; 1; 0] [255; 255; 255; 0];
         BondName := "br0" |} ] /\
  length (GetBondIPAddressesWithMask parseIPv6 three_interfaces "bond0") = 3%nat.
Proof.
  assert (GetAllBondRelatedInterfaces three_interfaces "bond0" =
            ["bond0"; "bond0.100"; "br0"]%string) as Hall.
  { unfold GetAllBondRelatedInterfaces, for_range. simpl.
    rewrite !range_singleton, range_empty. reflexivity. }
  assert (GetBondIPAddressesWithMask parseIPv6 three_interfaces "bond0" =
    [ {| IP := "10.0.1.100"; CIDR := "10.0.1.100/24";
         IPNet := GoNet.mkIPNet [10; 0; 1; 0] [255; 255; 255; 0];
         BondName := "bond0" |};
      {| IP := "10.100.1.1"; CIDR := "10.100.1.1/24";
         IPNet := GoNet.mkIPNet [10; 100; 1; 0] [255; 255; 255; 0];
         BondName := "bond0.100" |};
      {| IP := "172.16.1.1"; CIDR := "172.16.1.1/24";
         IPNet := GoNet.mkIPNet [172; 16; 1; 0] [255; 255; 255; 0];
         BondName := "br0" |} ]) as Hmask.
  { unfold GetBondIPAddressesWithMask, for_range. simpl.
    rewrite !range_singleton, range_empty. vm_compute. reflexivity. }
  split; [exact Hall|]. split; [|split; [exact Hmask|by rewrite Hmask]].
  intros x. rewrite Hall. apply derived_three_interfaces.
Qed.

End ThreeInterfaces.

(** ** Validation *)

Section Validation.
Import Bytes Netplan Findings Examples.
Context `{RangeOrder}.

Lemma validate_entry_app (kind name : string) (common : CommonInterface)
    (errors : list ValidationError) :
  validate_entry kind name common errors =
  errors ++ validate_entry kind name common [].
Proof.
  unfold validate_entry.
  destruct (validateInterfaceName name) as [err|];
    destruct (0 <? length (validateCommonInterface common))%nat;
    rewrite ?(for_each_app (fun err => [Wrapped kind name err])) by done;
    by rewrite ?app_nil_r, ?app_nil_l, <- ?app_assoc.
Qed.

Lemma validate_vlan_app (name : string) (vlan : VLAN)
    (errors : list ValidationError) :
  validate_vlan name vlan errors = errors ++ validate_vlan name vlan [].
Proof.
  unfold validate_vlan.
  destruct (validateInterfaceName name) as [err|];
    destruct ((VLAN_ID vlan <? 1) || (VLAN_ID vlan >? 4094));
    destruct (String.eqb (VLAN_Link vlan) "");
    by rewrite ?app_nil_r, ?app_nil_l, <- ?app_assoc.
Qed.

Lemma elem_of_append_keys {V : Type} (m : gmap string V) (names : list string)
    (x : string) :
  x ∈ append_keys m names <-> x ∈ names \/ is_Some (m !! x).
Proof.
  unfold append_keys.
  rewrite (for_range_app (fun name _ => [name])) by done.
  rewrite elem_of_app, elem_of_range_bind. simpl. split.
  - intros [Hx|(k & v & Hk & Hx)]; [by left|].
    apply list_elem_of_singleton in Hx as ->. right. by exists v.
  - intros [Hx|[v Hv]]; [by left|]. right. exists x, v.
    split; [done|]. by apply list_elem_of_singleton.
Qed.

Lemma elem_of_GetInterfaceNames (c : Config) (x : string) :
  x ∈ GetInterfaceNames c <->
  is_Some (Ethernets (Net c) !! x) \/ is_Some (Wifis (Net c) !! x) \/
  is_Some (Bridges (Net c) !! x) \/ is_Some (Bonds (Net c) !! x) \/
  is_Some (VLANs (Net c) !! x) \/ is_Some (Tunnels (Net c) !! x) \/
  is_Some (VRFs (Net c) !! x) \/ is_Some (Modems (Net c) !! x).
Proof.
  unfold GetInterfaceNames. rewrite !elem_of_append_keys, elem_of_nil. tauto.
Qed.

Lemma Validate_parts (c : Config) :
  Validate c =
  (if negb (Version (Net c) =? 2) then [UnsupportedVersion (Version (Net c))]
   else [])
  ++ (if negb (String.eqb (Renderer (Net c)) "") then
        if negb (for_break validRenderers
                   (fun renderer => String.eqb (Renderer (Net c)) renderer)
                   (fun _ => true) false)
        then [InvalidRenderer (Renderer (Net c))] else []
      else [])
  ++ (range (Ethernets (Net c)) ≫= fun kv =>
        validate_entry "ethernet" kv.1 (Ethernet_Common kv.2) [])
  ++ (range (Wifis (Net c)) ≫= fun kv =>
        validate_entry "wifi" kv.1 (Wifi_Common kv.2) [])
  ++ (range (Bridges (Net c)) ≫= fun kv =>
        validate_entry "bridge" kv.1 (Bridge_Common kv.2) [])
  ++ (range (Bonds (Net c)) ≫= fun kv =>
        validate_entry "bond" kv.1 (Bond_Common kv.2) [])
  ++ (range (VLANs (Net c)) ≫= fun kv => validate_vlan kv.1 kv.2 []).
Proof.
  unfold Validate.
  rewrite (for_range_app (fun name vlan => validate_vlan name vlan []))
    by (intros; apply validate_vlan_app).
  rewrite (for_range_app
             (fun name bond => validate_entry "bond" name (Bond_Common bond) []))
    by (intros; apply validate_entry_app).
  rewrite (for_range_app
             (fun name bridge =>
                validate_entry "bridge" name (Bridge_Common bridge) []))
    by (intros; apply validate_entry_app).
  rewrite (for_range_app
             (fun name wifi => validate_entry "wifi" name (Wifi_Common wifi) []))
    by (intros; apply validate_entry_app).
  rewrite (for_range_app
             (fun name eth =>
                validate_entry "ethernet" name (Ethernet_Common eth) []))
    by (intros; apply validate_entry_app).
  destruct (negb (Version (Net c) =? 2));
    destruct (negb (String.eqb (Renderer (Net c)) ""));
    try destruct (negb (for_break validRenderers _ _ false));
    rewrite ?app_nil_l, <- ?app_assoc; reflexivity.
Qed.

Lemma validateInterfaceName_finding (name : string) (err : ValidationError) :
  validateInterfaceName name = Some err <-> name_finding name err.
Proof.
  unfold validateInterfaceName.
  destruct (String.eqb_spec name "") as [Hn|Hn].
  - split.
    + intros [= <-]. by constructor.
    + intros [_|Hlen]; [done|]. subst name. simpl in Hlen. lia.
  - destruct (Nat.ltb_spec 15 (String.length name)) as [Hlen|Hlen].
    + split.
      * intros [= <-]. by constructor.
      * intros [Hempty|_]; done.
    + split; [done|]. intros [Hempty|Hlong]; [done|lia].
Qed.

Lemma validateCommonInterface_finding (iface : CommonInterface)
    (err : ValidationError) :
  err ∈ validateCommonInterface iface <-> common_finding iface err.
Proof.
  unfold validateCommonInterface.
  rewrite (for_each_app
             (fun addr => if negb (contains_byte "/" addr)
                          then [AddressWithoutMask addr] else []))
    by (intros addr s; destruct (negb _); by rewrite ?app_nil_r).
  rewrite app_nil_l.
  assert (Haddr : forall e,
            e ∈ (Addresses iface ≫=
                   (fun addr => if negb (contains_byte "/" addr)
                                then [AddressWithoutMask addr] else []))
            <-> exists addr, addr ∈ Addresses iface /\
                             contains_byte "/" addr = false /\
                             e = AddressWithoutMask addr).
  { intros e. rewrite list_elem_of_bind. split.
    - intros (addr & He & Haddr). exists addr. split; [done|].
      destruct (contains_byte "/" addr); simpl in He.
      + by apply elem_of_nil in He.
      + by apply list_elem_of_singleton in He.
    - intros (addr & Haddr & Hno & ->). exists addr. split; [|done].
      rewrite Hno. simpl. by apply list_elem_of_singleton. }
  destruct (negb (MTU iface =? 0) && ((MTU iface <? 68) || (MTU iface >? 65536)))
    eqn:Hmtu.
  - apply andb_true_iff in Hmtu as [Hz Hr].
    apply negb_true_iff, Z.eqb_neq in Hz.
    assert (MTU iface < 68 \/ MTU iface > 65536) as Hout.
    { apply orb_true_iff in Hr as [Hr|Hr]; [apply Z.ltb_lt in Hr|
        rewrite Z.gtb_ltb in Hr; apply Z.ltb_lt in Hr]; lia. }
    rewrite elem_of_app, Haddr, list_elem_of_singleton. split.
    + intros [(addr & Hin & Hno & ->)| ->]; by constructor.
    + intros [addr Hin Hno|_ _]; [left; eauto|by right].
  - rewrite Haddr. split.
    + intros (addr & Hin & Hno & ->). by constructor.
    + intros [addr Hin Hno|Hz Hout]; [eauto|]. exfalso.
      apply andb_false_iff in Hmtu as [Hm|Hm].
      * apply negb_false_iff, Z.eqb_eq in Hm. done.
      * apply orb_false_iff in Hm as [Hlo Hhi].
        apply Z.ltb_ge in Hlo. rewrite Z.gtb_ltb in Hhi.
        apply Z.ltb_ge in Hhi. lia.
Qed.

Lemma validate_entry_finding (kind name : string) (common : CommonInterface)
    (e : ValidationError) :
  e ∈ validate_entry kind name common [] <->
  exists err,
    (name_finding name err \/ common_finding common err) /\
    e = Wrapped kind name err.
Proof.
  unfold validate_entry.
  assert (Hcommon : forall s,
            e ∈ (if (0 <? length (validateCommonInterface common))%nat
                 then for_each (validateCommonInterface common)
                        (fun err errors => errors ++ [Wrapped kind name err]) s
                 else s)
            <-> e ∈ s \/ exists err, common_finding common err /\
                                     e = Wrapped kind name err).
  { intros s.
    assert (Hloop : e ∈ for_each (validateCommonInterface common)
                          (fun err errors => errors ++ [Wrapped kind name err]) s
                    <-> e ∈ s \/ exists err, common_finding common err /\
                                             e = Wrapped kind name err).
    { rewrite (for_each_app (fun err => [Wrapped kind name err])) by done.
      rewrite elem_of_app, list_elem_of_bind. split.
      - intros [?|(err & He & Herr)]; [by left|]. right. exists err.
        apply list_elem_of_singleton in He.
        by apply validateCommonInterface_finding in Herr.
      - intros [?|(err & Herr & ->)]; [by left|]. right. exists err.
        split; [by apply list_elem_of_singleton|].
        by apply validateCommonInterface_finding. }
    destruct (validateCommonInterface common) as [|err0 errs] eqn:Hc;
      [|exact Hloop].
    simpl. split; [by left|]. intros [?|(err & Herr & _)]; [done|].
    apply validateCommonInterface_finding in Herr. rewrite Hc in Herr.
    by apply elem_of_nil in Herr. }
  rewrite Hcommon.
  destruct (validateInterfaceName name) as [nerr|] eqn:Hname.
  - rewrite app_nil_l, list_elem_of_singleton. split.
    + intros [->|(err & Herr & ->)].
      * exists nerr. split; [|done]. left.
        by apply validateInterfaceName_finding.
      * exists err. split; [by right|done].
    + intros (err & [Hn|Hc] & ->).
      * left. apply validateInterfaceName_finding in Hn. congruence.
      * right. eauto.
  - split.
    + intros [He|(err & Herr & ->)]; [by apply elem_of_nil in He|].
      exists err. split; [by right|done].
    + intros (err & [Hn|Hc] & ->).
      * apply validateInterfaceName_finding in Hn. congruence.
      * right. eauto.
Qed.

Lemma validate_vlan_finding (name : string) (vlan : VLAN)
    (e : ValidationError) :
  e ∈ validate_vlan name vlan [] <->
  (exists err, name_finding name err /\ e = Wrapped "vlan" name err) \/
  ((VLAN_ID vlan < 1 \/ VLAN_ID vlan > 4094) /\
   e = InvalidVLANID name (VLAN_ID vlan)) \/
  (VLAN_Link vlan = ""%string /\ e = LinkRequired name).
Proof.
  unfold validate_vlan.
  assert (Hname : forall s,
            e ∈ match validateInterfaceName name with
                | Some err => s ++ [Wrapped "vlan" name err]
                | None => s
                end
            <-> e ∈ s \/ exists err, name_finding name err /\
                                     e = Wrapped "vlan" name err).
  { intros s. destruct (validateInterfaceName name) as [nerr|] eqn:Hn.
    - rewrite elem_of_app, list_elem_of_singleton. split.
      + intros [?| ->]; [by left|]. right. exists nerr.
        split; [by apply validateInterfaceName_finding|done].
      + intros [?|(err & Herr & ->)]; [by left|]. right.
        apply validateInterfaceName_finding in Herr. congruence.
    - split; [by left|]. intros [?|(err & Herr & _)]; [done|].
      apply validateInterfaceName_finding in Herr. congruence. }
  assert (Hid : forall s,
            e ∈ (if (VLAN_ID vlan <? 1) || (VLAN_ID vlan >? 4094)
                 then s ++ [InvalidVLANID name (VLAN_ID vlan)] else s)
            <-> e ∈ s \/ ((VLAN_ID vlan < 1 \/ VLAN_ID vlan > 4094) /\
                          e = InvalidVLANID name (VLAN_ID vlan))).
  { intros s.
    destruct ((VLAN_ID vlan <? 1) || (VLAN_ID vlan >? 4094)) eqn:Hr.
    - assert (VLAN_ID vlan < 1 \/ VLAN_ID vlan > 4094) as Hout.
      { apply orb_true_iff in Hr as [Hr|Hr]; [apply Z.ltb_lt in Hr|
          rewrite Z.gtb_ltb in Hr; apply Z.ltb_lt in Hr]; lia. }
      rewrite elem_of_app, list_elem_of_singleton. tauto.
    - apply orb_false_iff in Hr as [Hlo Hhi].
      apply Z.ltb_ge in Hlo. rewrite Z.gtb_ltb in Hhi. apply Z.ltb_ge in Hhi.
      split; [by left|]. intros [?|[Hout _]]; [done|lia]. }
  assert (Hlink : forall s,
            e ∈ (if String.eqb (VLAN_Link vlan) ""
                 then s ++ [LinkRequired name] else s)
            <-> e ∈ s \/ (VLAN_Link vlan = ""%string /\ e = LinkRequired name)).
  { intros s. destruct (String.eqb_spec (VLAN_Link vlan) "") as [Hl|Hl].
    - rewrite elem_of_app, list_elem_of_singleton. tauto.
    - split; [by left|]. intros [?|[? _]]; done. }
  rewrite Hlink, Hid, Hname, elem_of_nil. tauto.
Qed.

Lemma elem_of_Validate (c : Config) (e : ValidationError) :
  e ∈ Validate c <-> finding c e.
Proof.
  rewrite Validate_parts, !elem_of_app, !elem_of_range_bind. simpl.
  assert (Hsec : forall (V : Type) (kind : string)
                   (common : V -> CommonInterface) (m : gmap string V),
            (exists k v, m !! k = Some v /\
                         e ∈ validate_entry kind k (common v) [])
            <-> section_finding kind common m e).
  { intros V kind common m. unfold section_finding. split.
    - intros (k & v & Hkv & He).
      apply validate_entry_finding in He as (err & Herr & ->). eauto 10.
    - intros (k & v & err & Hkv & Herr & ->). exists k, v. split; [done|].
      apply validate_entry_finding. eauto. }
  rewrite !Hsec. split.
  - intros [Hv|[Hr|[He|[Hw|[Hb|[Hbo|(k & v & Hkv & Hvl)]]]]]].
    + destruct (Z.eqb_spec (Version (Net c)) 2) as [Heq|Hne]; simpl in Hv;
        [by apply elem_of_nil in Hv|].
      apply list_elem_of_singleton in Hv as ->. by constructor.
    + destruct (String.eqb_spec (Renderer (Net c)) "") as [Heq|Hne];
        simpl in Hr; [by apply elem_of_nil in Hr|].
      rewrite ?for_break_existsb in Hr. unfold validRenderers in Hr.
      simpl in Hr.
      destruct (String.eqb_spec (Renderer (Net c)) "networkd") as [?|Hn1];
        simpl in Hr; [by apply elem_of_nil in Hr|].
      destruct (String.eqb_spec (Renderer (Net c)) "NetworkManager")
        as [?|Hn2]; simpl in Hr; [by apply elem_of_nil in Hr|].
      apply list_elem_of_singleton in Hr as ->. by constructor.
    + by apply in_ethernets.
    + by apply in_wifis.
    + by apply in_bridges.
    + by apply in_bonds.
    + apply validate_vlan_finding in Hvl
        as [(err & Herr & ->)|[[Hout ->]|[Hl ->]]].
      * by eapply vlan_name.
      * by apply vlan_id.
      * by eapply vlan_link.
  - intros [Hne|Hn0 Hn1 Hn2|e' He|e' Hw|e' Hb|e' Hbo
            |name vlan err Hv Herr|name vlan Hv Hout|name vlan Hv Hl].
    + left. apply Z.eqb_neq in Hne. rewrite Hne. simpl.
      by apply list_elem_of_singleton.
    + right. left. apply String.eqb_neq in Hn0, Hn1, Hn2.
      rewrite Hn0. simpl. rewrite ?for_break_existsb. unfold validRenderers.
      simpl. rewrite Hn1, Hn2. simpl. by apply list_elem_of_singleton.
    + tauto.
    + tauto.
    + tauto.
    + tauto.
    + do 6 right. exists name, vlan. split; [done|].
      apply validate_vlan_finding. left. eauto.
    + do 6 right. exists name, vlan. split; [done|].
      apply validate_vlan_finding. right. left. done.
    + do 6 right. exists name, vlan. split; [done|].
      apply validate_vlan_finding. right. right. done.
Qed.

(** C9: [Validate] returns its findings as a list and never stands in
    the way of using the document.  The list holds exactly what is wrong
    with the document: an unsupported version, an invalid renderer, and
    for every entry the faults of its name (empty, longer than 15
    bytes), of its addresses (no mask) and of its MTU (set and outside
    68..65536) in the ethernet, wifi, bridge and bond sections, and the
    faults of its name, id (outside 1..4094) and link (empty) in the VLAN
    section.  Whatever the findings, [GetInterfaceNames] enumerates every
    interface of the document.  In particular a document whose version
    is not 2 (such as 1) and that has a VLAN whose id is outside 1..4094
    (such as 5000) gets at least two findings, the unsupported version
    and the invalid VLAN id among them, and the VLAN is still
    enumerated. *)
Theorem validation_is_advisory (c : Config) :
  (forall e, e ∈ Validate c <-> finding c e) /\
  (forall x,
     x ∈ GetInterfaceNames c <->
     is_Some (Ethernets (Net c) !! x) \/ is_Some (Wifis (Net c) !! x) \/
     is_Some (Bridges (Net c) !! x) \/ is_Some (Bonds (Net c) !! x) \/
     is_Some (VLANs (Net c) !! x) \/ is_Some (Tunnels (Net c) !! x) \/
     is_Some (VRFs (Net c) !! x) \/ is_Some (Modems (Net c) !! x)) /\
  (forall name vlan,
     Version (Net c) <> 2 ->
     VLANs (Net c) !! name = Some vlan ->
     VLAN_ID vlan < 1 \/ VLAN_ID vlan > 4094 ->
     UnsupportedVersion (Version (Net c)) ∈ Validate c /\
     InvalidVLANID name (VLAN_ID vlan) ∈ Validate c /\
     (2 <= length (Validate c))%nat /\
     name ∈ GetInterfaceNames c).
Proof.
  split; [apply elem_of_Validate|]. split; [apply elem_of_GetInterfaceNames|].
  intros name vlan Hver Hvlan Hid.
  assert (InvalidVLANID name (VLAN_ID vlan) ∈ Validate c) as Hin
    by (apply elem_of_Validate; by apply vlan_id).
  split; [apply elem_of_Validate; by constructor|]. split; [exact Hin|].
  split.
  - rewrite Validate_parts in Hin |- *.
    apply Z.eqb_neq in Hver. rewrite Hver in Hin |- *. simpl in Hin |- *.
    apply elem_of_cons in Hin as [Heq|Hin]; [discriminate Heq|].
    apply list_elem_of_split in Hin as (l1 & l2 & ->).
    rewrite length_app. simpl. lia.
  - apply elem_of_GetInterfaceNames. do 4 right. left. by exists vlan.
Qed.

End Validation.

(** [validation_is_advisory] at the document with version 1 and the VLAN
    [vlan0] with id 5000 and link [eth0]. *)
Lemma validation_is_advisory_witness :
  Netplan.Version (Netplan.Net Examples.version1_vlan5000) <> 2 /\
  Netplan.VLANs (Netplan.Net Examples.version1_vlan5000) !! "vlan0"%string =
    Some {| Netplan.VLAN_Common := Examples.with_addresses [];
            Netplan.VLAN_ID := 5000; Netplan.VLAN_Link := "eth0" |} /\
  5000 > 4094 /\
  (2 <= length (Netplan.Validate Examples.version1_vlan5000))%nat /\
  "vlan0"%string ∈ Netplan.GetInterfaceNames Examples.version1_vlan5000.
Proof.
  assert (Netplan.Version (Netplan.Net Examples.version1_vlan5000) <> 2)
    as Hver by (simpl; lia).
  assert (Netplan.VLANs (Netplan.Net Examples.version1_vlan5000)
            !! "vlan0"%string =
          Some {| Netplan.VLAN_Common := Examples.with_addresses [];
                  Netplan.VLAN_ID := 5000; Netplan.VLAN_Link := "eth0" |})
    as Hvlan by reflexivity.
  assert (5000 > 4094) as Hid by lia.
  destruct (validation_is_advisory Examples.version1_vlan5000)
    as (_ & _ & Hscenario).
  destruct (Hscenario "vlan0"%string _ Hver Hvlan (or_intror Hid))
    as (_ & _ & Hlen & Hname).
  repeat split; assumption.
Defined.

(** ** The agent orchestrator *)

Section Orchestrator.
Import Netplan Agent Reference Examples.
Context `{RangeOrder}.
Context {W : Type}.
Variable parseIPv6 : string -> option (list Z * string).
Variable run_arping : string -> string -> W -> option string * Z * W.
Variable http_get : string -> W -> result Z * Z * W.
Variable http_post : string -> TestResultPayload -> W -> result Z * W.
Variable time_now : W -> Z.

Local Abbreviation find_local := (find_local parseIPv6).
Local Abbreviation testConnectivity := (testConnectivity run_arping http_get).
Local Abbreviation SubmitSingleTestResult := (SubmitSingleTestResult http_post time_now).
Local Abbreviation test_target :=
  (test_target parseIPv6 run_arping http_get http_post time_now).
Local Abbreviation RunConnectivityTests :=
  (RunConnectivityTests parseIPv6 run_arping http_get http_post time_now).

Lemma find_local_first (myIPs l1 l2 : list IPWithMask) (my : IPWithMask)
    (targetIP : string) :
  myIPs = l1 ++ my :: l2 ->
  Forall (fun x => InSameSubnet parseIPv6 (CIDR x) targetIP = false) l1 ->
  InSameSubnet parseIPv6 (CIDR my) targetIP = true ->
  find_local myIPs targetIP = (true, IP my, Netplan.BondName my).
Proof.
  intros -> Hl1 Hmy. unfold Agent.find_local.
  induction Hl1 as [|x l1 Hx _ IH]; simpl.
  - by rewrite Hmy.
  - by rewrite Hx.
Qed.

Lemma find_local_none (myIPs : list IPWithMask) (targetIP : string) :
  Forall (fun x => InSameSubnet parseIPv6 (CIDR x) targetIP = false) myIPs ->
  find_local myIPs targetIP = (false, ""%string, ""%string).
Proof.
  unfold Agent.find_local. induction 1 as [|x l Hx _ IH]; simpl; [done|].
  by rewrite Hx.
Qed.

Lemma foldl_bind {A B S : Type} (f : S -> B -> S) (g : A -> list B)
    (l : list A) (s : S) :
  foldl f s (l ≫= g) = foldl (fun s x => foldl f s (g x)) s l.
Proof.
  revert s. induction l as [|x l IH]; intros s; [done|].
  rewrite bind_cons, foldl_app. simpl. apply IH.
Qed.

Lemma foldl_ext_all {A S : Type} (f g : S -> A -> S) (l : list A) (s : S) :
  (forall s x, f s x = g s x) -> foldl f s l = foldl g s l.
Proof.
  intros Hfg. revert s. induction l as [|x l IH]; intros s; [done|].
  simpl. by rewrite Hfg, IH.
Qed.

Lemma RunConnectivityTests_triples (a : Agent) (fs : FileSystem)
    (targets : gmap string TargetInfo) (w : W) :
  RunConnectivityTests a fs targets w =
  foldl (fun st t =>
           test_target a (getBondIPAddressesWithMask parseIPv6 fs)
             t.1.1 t.1.2 t.2 st)
    (0, w) (target_triples targets).
Proof.
  unfold Agent.RunConnectivityTests, target_triples, for_range, for_each.
  rewrite foldl_bind. apply foldl_ext_all. intros st [h info]. simpl.
  rewrite foldl_bind. apply foldl_ext_all. intros st' [b ips]. simpl.
  by rewrite foldl_fmap.
Qed.

Lemma elem_of_target_triples (targets : gmap string TargetInfo)
    (h b ip : string) :
  (h, b, ip) ∈ target_triples targets <->
  exists info ips,
    targets !! h = Some info /\ Links info !! b = Some ips /\ ip ∈ ips.
Proof.
  unfold target_triples. rewrite elem_of_range_bind. split.
  - intros (h' & info & Hh & Hin). simpl in Hin.
    apply elem_of_range_bind in Hin as (b' & ips & Hb & Hin). simpl in Hin.
    apply list_elem_of_fmap in Hin as (ip' & Heq & Hin). inversion Heq; subst.
    eauto.
  - intros (info & ips & Hh & Hb & Hin). exists h, info. split; [done|]. simpl.
    apply elem_of_range_bind. exists b, ips. split; [done|]. simpl.
    apply list_elem_of_fmap. eauto.
Qed.

Lemma range_two {V : Type} (k1 k2 : string) (v1 v2 : V) :
  k1 <> k2 ->
  range (<[k1 := v1]> ({[k2 := v2]} : gmap string V)) = [(k1, v1); (k2, v2)] \/
  range (<[k1 := v1]> ({[k2 := v2]} : gmap string V)) = [(k2, v2); (k1, v1)].
Proof.
  intros Hne. apply Permutation_length_2_inv. symmetry.
  rewrite range_perm, map_to_list_insert, map_to_list_singleton; [done|].
  by apply lookup_singleton_ne.
Qed.

Lemma agent_fs_addresses :
  getBondIPAddressesWithMask parseIPv6 agent_fs =
  [ {| IP := "192.168.1.10"; CIDR := "192.168.1.10/24";
       IPNet := GoNet.mkIPNet [192; 168; 1; 0] [255; 255; 255; 0];
       Netplan.BondName := "bond0" |} ].
Proof.
  unfold getBondIPAddressesWithMask.
  change (LoadNetplanConfigsFromDir agent_fs "/etc/netplan")
    with (Ok [agent_config]).
  unfold for_each, for_range. simpl. rewrite range_singleton. simpl.
  unfold GetBondIPAddressesWithMask, for_range. simpl.
  rewrite !range_empty. vm_compute. reflexivity.
Qed.

Lemma scenario_triples :
  target_triples scenario_targets =
    [("server-c", "bond0", "10.0.0.5"); ("server-b", "bond0", "192.168.1.20")]%string
  \/
  target_triples scenario_targets =
    [("server-b", "bond0", "192.168.1.20"); ("server-c", "bond0", "10.0.0.5")]%string.
Proof.
  unfold target_triples, scenario_targets.
  destruct (range_two "server-c" "server-b"
              {| Links := {["bond0"%string := ["10.0.0.5"%string]]} |}
              {| Links := {["bond0"%string := ["192.168.1.20"%string]]} |})
    as [-> | ->]; [done| |]; simpl; rewrite !range_singleton; auto.
Qed.

(** C6: for every triple of the target set the orchestrator takes the
    first local masked address, in slice order, whose subnet contains the
    target address, and probes from that address and interface; a triple
    that no local address matches leaves the count and the world
    untouched.  With the local address 192.168.1.10/24 and the targets
    192.168.1.20 and 10.0.0.5, a run makes one [arping] call and one HTTP
    GET, both for 192.168.1.20, and posts the two results. *)
Theorem orchestrator_first_match (a : Agent) :
  (forall myIPs l1 my l2 targetIP,
     myIPs = l1 ++ my :: l2 ->
     Forall (fun x => InSameSubnet parseIPv6 (CIDR x) targetIP = false) l1 ->
     InSameSubnet parseIPv6 (CIDR my) targetIP = true ->
     find_local myIPs targetIP = (true, IP my, Netplan.BondName my) /\
     forall targetHostname bondName st,
       test_target a myIPs targetHostname bondName targetIP st =
       for_each
         (testConnectivity a targetHostname targetIP bondName
            (IP my) (Netplan.BondName my) st.2).1
         (fun result '(testCount, w) =>
            match SubmitSingleTestResult a result w with
            | (Some _, w) => (testCount, w)
            | (None, w) => (testCount + 1, w)
            end)
         (st.1,
          (testConnectivity a targetHostname targetIP bondName
             (IP my) (Netplan.BondName my) st.2).2)) /\
  (forall myIPs targetIP,
     Forall (fun x => InSameSubnet parseIPv6 (CIDR x) targetIP = false) myIPs ->
     find_local myIPs targetIP = (false, ""%string, ""%string) /\
     forall targetHostname bondName st,
       test_target a myIPs targetHostname bondName targetIP st = st) /\
  (forall fs targets w,
     RunConnectivityTests a fs targets w =
     foldl (fun st t =>
              test_target a (getBondIPAddressesWithMask parseIPv6 fs)
                t.1.1 t.1.2 t.2 st)
       (0, w) (target_triples targets)) /\
  (forall targets h b ip,
     (h, b, ip) ∈ target_triples targets <->
     exists info ips,
       targets !! h = Some info /\ Links info !! b = Some ips /\ ip ∈ ips) /\
  (forall w,
     exists arpErr arpElapsed w1 resp httpElapsed w2 r1 r2,
       run_arping "bond0" "192.168.1.20" w = (arpErr, arpElapsed, w1) /\
       http_get "http://192.168.1.20:8080/api/sysinfo" w1 =
         (resp, httpElapsed, w2) /\
       testConnectivity a "server-b" "192.168.1.20" "bond0"
         "192.168.1.10" "bond0" w = ([r1; r2], w2) /\
       exists e1 w3 e2 w4,
         SubmitSingleTestResult a r1 w2 = (e1, w3) /\
         SubmitSingleTestResult a r2 w3 = (e2, w4) /\
         RunConnectivityTests a agent_fs scenario_targets w =
           (match e1 with Some _ => 0 | None => 1 end
            + match e2 with Some _ => 0 | None => 1 end, w4)).
Proof.
  split; [|split; [|split; [|split]]].
  - intros myIPs l1 my l2 targetIP Hsplit Hl1 Hmy.
    pose proof (find_local_first _ _ _ _ _ Hsplit Hl1 Hmy) as Hfind.
    split; [exact Hfind|]. intros targetHostname bondName st.
    unfold Agent.test_target. rewrite Hfind. simpl.
    destruct (testConnectivity a targetHostname targetIP bondName (IP my)
                (Netplan.BondName my) st.2) as [results w']. done.
  - intros myIPs targetIP Hall.
    pose proof (find_local_none _ _ Hall) as Hfind.
    split; [exact Hfind|]. intros targetHostname bondName st.
    unfold Agent.test_target. by rewrite Hfind.
  - apply RunConnectivityTests_triples.
  - apply elem_of_target_triples.
  - intros w. rewrite RunConnectivityTests_triples, agent_fs_addresses.
    assert (forall st,
              test_target a
                [ {| IP := "192.168.1.10"; CIDR := "192.168.1.10/24";
                     IPNet := GoNet.mkIPNet [192; 168; 1; 0] [255; 255; 255; 0];
                     Netplan.BondName := "bond0" |} ]
                "server-c" "bond0" "10.0.0.5" st = st) as Hskip.
    { intros st. unfold Agent.test_target.
      change (find_local _ "10.0.0.5") with (false, ""%string, ""%string).
      done. }
    assert (forall st,
              test_target a
                [ {| IP := "192.168.1.10"; CIDR := "192.168.1.10/24";
                     IPNet := GoNet.mkIPNet [192; 168; 1; 0] [255; 255; 255; 0];
                     Netplan.BondName := "bond0" |} ]
                "server-b" "bond0" "192.168.1.20" st =
              let '(results, w) :=
                testConnectivity a "server-b" "192.168.1.20" "bond0"
                  "192.168.1.10" "bond0" st.2 in
              for_each results
                (fun result '(testCount, w) =>
                   match SubmitSingleTestResult a result w with
                   | (Some _, w) => (testCount, w)
                   | (None, w) => (testCount + 1, w)
                   end)
                (st.1, w)) as Hprobe.
    { intros st. unfold Agent.test_target.
      change (find_local _ "192.168.1.20")
        with (true, "192.168.1.10"%string, "bond0"%string).
      done. }
    assert (foldl (fun st t =>
                     test_target a
                       [ {| IP := "192.168.1.10"; CIDR := "192.168.1.10/24";
                            IPNet := GoNet.mkIPNet [192; 168; 1; 0]
                                       [255; 255; 255; 0];
                            Netplan.BondName := "bond0" |} ]
                       t.1.1 t.1.2 t.2 st)
              (0, w) (target_triples scenario_targets) =
            let '(results, w') :=
              testConnectivity a "server-b" "192.168.1.20" "bond0"
                "192.168.1.10" "bond0" w in
            for_each results
              (fun result '(testCount, w) =>
                 match SubmitSingleTestResult a result w with
                 | (Some _, w) => (testCount, w)
                 | (None, w) => (testCount + 1, w)
                 end)
              (0, w')) as ->.
    { destruct scenario_triples as [-> | ->]; simpl;
        by rewrite ?Hskip, Hprobe, ?Hskip. }
    unfold Agent.testConnectivity.
    destruct (run_arping "bond0" "192.168.1.20" w)
      as [[arpErr arpElapsed] w1] eqn:Harp.
    change ("http://" +:+ "192.168.1.20" +:+ ":8080/api/sysinfo")
      with "http://192.168.1.20:8080/api/sysinfo"%string.
    destruct (http_get "http://192.168.1.20:8080/api/sysinfo" w1)
      as [[resp httpElapsed] w2] eqn:Hhttp.
    exists arpErr, arpElapsed, w1, resp, httpElapsed, w2.
    eexists _, _. simpl.
    split; [reflexivity|]. split; [exact Hhttp|]. split; [reflexivity|].
    match goal with
    | |- context [SubmitSingleTestResult a ?r1 w2] =>
        destruct (SubmitSingleTestResult a r1 w2) as [e1 w3] eqn:Hs1
    end.
    match goal with
    | |- context [SubmitSingleTestResult a ?r2 _] =>
        destruct (SubmitSingleTestResult a r2 w3) as [e2 w4] eqn:Hs2
    end.
    exists e1, w3, e2, w4.
    split; [reflexivity|]. split; [exact Hs2|].
    destruct e1; rewrite Hs2; by destruct e2.
Qed.

End Orchestrator.

(** ** The aggregator *)

Section Coordinator.
Import Agent Aggregator Reference Examples.
Context `{RangeOrder}.
Variable unmarshalBonds : string -> option (gmap string (list string)).
Variable http_post : string -> TestRequest -> result Z.

Local Abbreviation build_allTargets := (build_allTargets unmarshalBonds).
Local Abbreviation dispatch := (dispatch http_post).
Local Abbreviation handleRunTests := (handleRunTests unmarshalBonds http_post).

(** Copying the entries that pass [keep] into a map. *)
Lemma foldl_insert_skip {V : Type} (keep : string -> bool)
    (l : list (string * V)) (acc : gmap string V) (h : string) :
  keep h = false \/ ~ (h ∈ l.*1) ->
  foldl (fun t kv => if keep kv.1 then <[kv.1 := kv.2]> t else t) acc l !! h =
  acc !! h.
Proof.
  revert acc. induction l as [|[k v] l IH]; intros acc Hskip; [done|].
  simpl. rewrite IH.
  - destruct (keep k) eqn:Hk; [|done]. apply lookup_insert_ne.
    intros ->. destruct Hskip as [Hh|Hnotin]; [congruence|].
    apply Hnotin. simpl. by left.
  - destruct Hskip as [Hh|Hnotin]; [by left|]. right. intros Hin.
    apply Hnotin. simpl. by right.
Qed.

Lemma foldl_insert_keep {V : Type} (keep : string -> bool)
    (l : list (string * V)) (acc : gmap string V) (h : string) (v : V) :
  NoDup l.*1 -> (h, v) ∈ l -> keep h = true ->
  foldl (fun t kv => if keep kv.1 then <[kv.1 := kv.2]> t else t) acc l !! h =
  Some v.
Proof.
  revert acc. induction l as [|[k v'] l IH]; intros acc Hnd Hin Hkeep.
  - by apply elem_of_nil in Hin.
  - simpl in *. apply NoDup_cons in Hnd as [Hk Hnd].
    apply elem_of_cons in Hin as [Heq|Hin].
    + inversion Heq; subst k v'. rewrite Hkeep.
      rewrite foldl_insert_skip by (by right). apply lookup_insert_eq.
    + by apply IH.
Qed.

Lemma targets_for_lookup (allTargets : gmap string TargetInfo) (server : Server)
    (h : string) :
  targets_for allTargets server !! h =
  if String.eqb h (Hostname server) then None else allTargets !! h.
Proof.
  unfold targets_for, for_range.
  destruct (String.eqb h (Hostname server)) eqn:Hh.
  - rewrite (foldl_insert_skip
               (fun k => negb (String.eqb k (Hostname server)))); [done|].
    left. by rewrite Hh.
  - destruct (allTargets !! h) as [v|] eqn:Hv.
    + apply (foldl_insert_keep
               (fun k => negb (String.eqb k (Hostname server)))).
      * apply NoDup_range_keys.
      * by apply elem_of_range.
      * by rewrite Hh.
    + rewrite (foldl_insert_skip
                 (fun k => negb (String.eqb k (Hostname server)))); [done|].
      right. intros Hin. apply list_elem_of_fmap in Hin as ([k v] & -> & Hin).
      apply elem_of_range in Hin. simpl in *. congruence.
Qed.

Lemma build_allTargets_snoc (servers : list Server) (server : Server) :
  build_allTargets (servers ++ [server]) =
  match unmarshalBonds (Bonds server) with
  | None => build_allTargets servers
  | Some bonds =>
      <[Hostname server := {| Links := bonds |}]> (build_allTargets servers)
  end.
Proof. unfold Aggregator.build_allTargets, for_each. by rewrite foldl_app. Qed.

Lemma build_allTargets_keys (servers : list Server) (h : string) :
  is_Some (build_allTargets servers !! h) -> h ∈ Hostname <$> servers.
Proof.
  induction servers as [|server servers IH] using rev_ind.
  - intros [? Hx]. unfold Aggregator.build_allTargets, for_each in Hx.
    simpl in Hx. by rewrite lookup_empty in Hx.
  - rewrite build_allTargets_snoc, fmap_app, elem_of_app. simpl.
    destruct (unmarshalBonds (Bonds server)); [|by left; apply IH].
    destruct (decide (Hostname server = h)) as [<-|Hne].
    + intros _. right. by apply list_elem_of_singleton.
    + rewrite lookup_insert_ne by done. left. by apply IH.
Qed.

Lemma build_allTargets_lookup (servers : list Server) (server : Server) :
  NoDup (Hostname <$> servers) ->
  server ∈ servers ->
  build_allTargets servers !! Hostname server =
  (fun bonds => {| Links := bonds |}) <$> unmarshalBonds (Bonds server).
Proof.
  induction servers as [|last servers IH] using rev_ind; intros Hnd Hin.
  - by apply elem_of_nil in Hin.
  - rewrite fmap_app in Hnd. apply NoDup_app in Hnd as (Hnd & Hfresh & _).
    rewrite build_allTargets_snoc.
    apply elem_of_app in Hin as [Hin|Hin].
    + assert (Hostname last <> Hostname server) as Hne.
      { intros Heq. apply (Hfresh (Hostname server)).
        - apply list_elem_of_fmap. eauto.
        - simpl. rewrite Heq. by apply list_elem_of_singleton. }
      destruct (unmarshalBonds (Bonds last));
        rewrite ?lookup_insert_ne by done; by apply IH.
    + apply list_elem_of_singleton in Hin as ->.
      destruct (unmarshalBonds (Bonds last)) as [bonds|] eqn:Hdec; simpl.
      * apply lookup_insert_eq.
      * apply eq_None_not_Some. intros Hsome.
        apply build_allTargets_keys in Hsome.
        apply (Hfresh (Hostname last)); [done|]. simpl.
        by apply list_elem_of_singleton.
Qed.

(** The target sets for rows with distinct host names: the set sent to an
    agent never holds the agent's own host name, and it holds the decoded
    bond data of every other row, as far as they decode. *)
Lemma target_sets_of_rows (servers : list Server) (server : Server) :
  NoDup (Hostname <$> servers) ->
  targets_for (build_allTargets servers) server !! Hostname server = None /\
  (forall other,
     other ∈ servers -> Hostname other <> Hostname server ->
     targets_for (build_allTargets servers) server !! Hostname other =
     (fun bonds => {| Links := bonds |}) <$> unmarshalBonds (Bonds other)) /\
  (forall h,
     is_Some (targets_for (build_allTargets servers) server !! h) ->
     h <> Hostname server /\ h ∈ Hostname <$> servers) /\
  dispatch servers (build_allTargets servers) =
    map (fun server =>
           trigger http_post
             ("http://" +:+ IPAddress server +:+ ":8080/api/run-tests")
             (Hostname server) (IPAddress server)
             {| Targets := targets_for (build_allTargets servers) server |})
      servers.
Proof.
  intros Hnd. split; [|split; [|split; [|reflexivity]]].
  - by rewrite targets_for_lookup, String.eqb_refl.
  - intros other Hin Hne. rewrite targets_for_lookup.
    apply String.eqb_neq in Hne. rewrite Hne.
    by apply build_allTargets_lookup.
  - intros h. rewrite targets_for_lookup.
    destruct (String.eqb_spec h (Hostname server)) as [->|Hne].
    + by intros [? ?].
    + intros Hsome. split; [done|]. by apply build_allTargets_keys.
Qed.

(** Reading one field of a response built by successive insertions. *)
Ltac lookup_field :=
  repeat (rewrite lookup_insert_ne by done);
  rewrite ?lookup_insert_eq, ?lookup_empty.

Lemma collect_spec (n : nat) (received : list triggerResult)
    (successCount : Z) (failedAgents : list string) :
  collect n received successCount failedAgents =
  (successCount + acknowledged (take n received),
   failedAgents ++ reported_failures n (take n received)).
Proof.
  revert received successCount failedAgents.
  induction n as [|n IH]; intros received successCount failedAgents.
  - unfold acknowledged, reported_failures. simpl.
    by rewrite Z.add_0_r, app_nil_r.
  - destruct received as [|r received]; simpl.
    + unfold acknowledged, reported_failures, timeout_entry. simpl.
      by rewrite Z.add_0_r.
    + rewrite !IH. unfold acknowledged, reported_failures.
      rewrite !filter_cons. simpl.
      destruct (tr_success r) eqn:Hr.
      * rewrite decide_True, decide_False by done. simpl.
        f_equal. lia.
      * rewrite decide_False, decide_True by done. simpl.
        by rewrite <- app_assoc.
Qed.

Lemma filter_success_length (received : list triggerResult) :
  (length (filter (fun r => tr_success r = true) received)
   + length (filter (fun r => tr_success r = false) received))%nat
  = length received.
Proof.
  induction received as [|r received IH]; [done|].
  rewrite !filter_cons. destruct (tr_success r).
  - rewrite decide_True, decide_False by done. simpl. lia.
  - rewrite decide_False, decide_True by done. simpl. lia.
Qed.

(** C7, as the code has it: when at least one agent is registered, the
    trigger response reports [count], the number of triggers acknowledged
    with success before the timer fires, [total], the number of registered
    agents, and, when there is any, [failed_agents]: one entry for each
    trigger answered with a failure and one closing entry for all agents
    still outstanding at the timeout.  With 3 registered agents of which 2
    acknowledge, the response has count 2, total 3 and one entry in
    [failed_agents]. *)
Theorem trigger_response (db : DB) (servers : list Server) (arrivals : list nat) :
  GetAllServers db = Ok servers ->
  servers <> [] ->
  let received :=
    take (length servers)
      (omap (fun k => dispatch servers (build_allTargets servers) !! k) arrivals) in
  exists body,
    handleRunTests db arrivals = JSON body /\
    body !! "count"%string = Some (JInt (acknowledged received)) /\
    body !! "total"%string = Some (JInt (Z.of_nat (length servers))) /\
    body !! "failed_agents"%string =
      match reported_failures (length servers) received with
      | [] => None
      | failed => Some (JStrs failed)
      end /\
    (length servers = 3%nat -> acknowledged received = 2 ->
     body !! "count"%string = Some (JInt 2) /\
     body !! "total"%string = Some (JInt 3) /\
     exists failed,
       body !! "failed_agents"%string = Some (JStrs failed) /\
       length failed = 1%nat).
Proof.
  intros Hdb Hne received.
  unfold Aggregator.handleRunTests. rewrite Hdb.
  destruct servers as [|s0 servers']; [done|].
  remember (s0 :: servers') as servers eqn:Hservers.
  replace (length servers =? 0)%nat with false
    by (subst servers; reflexivity).
  rewrite collect_spec. fold received. simpl.
  assert (length received <= length servers)%nat as Hlen
    by (unfold received; rewrite length_take; lia).
  destruct (reported_failures (length servers) received) as [|f failed] eqn:Hrep.
  - simpl. eexists. split; [reflexivity|].
    split; [by lookup_field|]. split; [by lookup_field|].
    split; [by lookup_field|].
    intros H3 Hack. exfalso.
    unfold reported_failures in Hrep. apply app_eq_nil in Hrep as [Hf Ht].
    apply fmap_nil_inv in Hf.
    pose proof (filter_success_length received) as Hsum.
    rewrite Hf in Hsum. unfold acknowledged in Hack. simpl in Hsum.
    destruct (length received <? length servers)%nat eqn:Hlt; [done|].
    apply Nat.ltb_ge in Hlt. lia.
  - simpl. eexists. split; [reflexivity|].
    split; [by lookup_field|]. split; [by lookup_field|].
    split; [by lookup_field|].
    intros H3 Hack.
    split; [lookup_field; by rewrite Hack|].
    split; [lookup_field; by rewrite H3|].
    exists (f :: failed).
    split; [by lookup_field|].
    rewrite <- Hrep. unfold reported_failures.
    rewrite length_app, length_fmap.
    pose proof (filter_success_length received) as Hsum.
    unfold acknowledged in Hack.
    destruct (length received <? length servers)%nat eqn:Hlt.
    + apply Nat.ltb_lt in Hlt. simpl. lia.
    + apply Nat.ltb_ge in Hlt. simpl. lia.
Qed.

End Coordinator.

Section CoordinatorExamples.
Import Agent Aggregator Reference Examples.

(** The hypotheses of [trigger_response] hold for three registered agents
    of which the first two acknowledge before the timer fires. *)
Lemma trigger_response_witness :
  GetAllServers three_servers = Ok [server_a; server_b; server_c] /\
  [server_a; server_b; server_c] <> [] /\
  exists body,
    handleRunTests decode_braces all_accept three_servers [0%nat; 1%nat] =
      JSON body /\
    body !! "count"%string = Some (JInt 2) /\
    body !! "total"%string = Some (JInt 3) /\
    body !! "failed_agents"%string = Some (JStrs ["1 agents timed out"%string]).
Proof.
  assert ([server_a; server_b; server_c] <> []) as Hne by discriminate.
  split; [reflexivity|]. split; [exact Hne|].
  destruct (trigger_response decode_braces all_accept three_servers
              [server_a; server_b; server_c] [0%nat; 1%nat] eq_refl Hne)
    as (body & Hbody & Hcount & Htotal & Hfailed & _).
  exists body. split; [exact Hbody|].
  split; [exact Hcount|]. split; [exact Htotal|]. exact Hfailed.
Defined.

(** C7, as stated, fails: with no registered agent the response carries
    [count] but neither [total] nor [failed_agents]. *)
Lemma empty_registry_response_has_no_total :
  GetAllServers no_servers = Ok [] /\
  exists body,
    handleRunTests decode_braces all_accept no_servers [] = JSON body /\
    body !! "count"%string = Some (JInt 0) /\
    body !! "total"%string = None /\
    body !! "failed_agents"%string = None.
Proof.
  split; [reflexivity|]. eexists. split; [reflexivity|].
  repeat split; reflexivity.
Qed.

End CoordinatorExamples.

(** ** The registry the coordinator reads *)

Section Registry.
Import Agent Aggregator Database Reference.
Context `{RangeOrder}.
Context {SystemInfo : Type}.
Variable marshal_info : SystemInfo -> result string.
Variable marshal_bonds : gmap string (list string) -> result string.
Variable unmarshalBonds : string -> option (gmap string (list string)).
Variable http_post : string -> TestRequest -> result Z.

Local Abbreviation RegisterServer := (RegisterServer marshal_info marshal_bonds).
Local Abbreviation registered := (registered marshal_info marshal_bonds).
Local Abbreviation build_allTargets := (build_allTargets unmarshalBonds).
Local Abbreviation dispatch := (dispatch http_post).

(** Every row of a table the program wrote is stored under its own host
    name, and its bond text is what [json.Marshal] gave for the bond map
    of a registration of that host. *)
Lemma registered_rows (calls : list registration) (h : string) (row : Server) :
  registered calls !! h = Some row ->
  Hostname row = h /\
  exists call, call ∈ calls /\ reg_hostname call = h /\
               marshal_bonds (reg_bonds call) = Ok (Bonds row).
Proof.
  revert h row. induction calls as [|call calls IH] using rev_ind;
    intros h row.
  - unfold Database.registered. simpl. intros Hrow.
    by apply lookup_empty_Some in Hrow.
  - assert (Hold : registered calls !! h = Some row ->
                   Hostname row = h /\
                   exists call', call' ∈ calls ++ [call] /\
                                 reg_hostname call' = h /\
                                 marshal_bonds (reg_bonds call') = Ok (Bonds row)).
    { intros Hrow. apply IH in Hrow as (Hh & call' & Hin & Hk & Hm).
      split; [done|]. exists call'. split; [|done].
      apply elem_of_app. by left. }
    unfold Database.registered. rewrite foldl_app. simpl.
    fold (registered calls). unfold Database.RegisterServer.
    destruct (marshal_info (reg_systemInfo call)) as [info|e]; [|exact Hold].
    destruct (marshal_bonds (reg_bonds call)) as [text|e] eqn:Htext;
      [|exact Hold].
    destruct (reg_exec_err call) as [e|]; [exact Hold|]. simpl.
    destruct (decide (reg_hostname call = h)) as [<-|Hne].
    + rewrite (lookup_insert_eq (registered calls : gmap string Server)).
      intros [= <-]. simpl. split; [done|]. exists call.
      split; [|done]. apply elem_of_app. right. apply list_elem_of_here.
    + rewrite (lookup_insert_ne (registered calls : gmap string Server))
        by done.
      exact Hold.
Qed.

(** A host one of whose registrations went through has a row. *)
Lemma registered_hosts (calls : list registration) (call : registration)
    (info text : string) :
  call ∈ calls ->
  marshal_info (reg_systemInfo call) = Ok info ->
  marshal_bonds (reg_bonds call) = Ok text ->
  reg_exec_err call = None ->
  is_Some (registered calls !! reg_hostname call).
Proof.
  induction calls as [|last calls IH] using rev_ind; intros Hin Hinfo Htext Hexec.
  - by apply elem_of_nil in Hin.
  - unfold Database.registered. rewrite foldl_app. simpl.
    fold (registered calls).
    apply elem_of_app in Hin as [Hin|Hin].
    + specialize (IH Hin Hinfo Htext Hexec).
      unfold Database.RegisterServer.
      destruct (marshal_info (reg_systemInfo last)); [|done].
      destruct (marshal_bonds (reg_bonds last)); [|done].
      destruct (reg_exec_err last); [done|]. simpl.
      apply (lookup_insert_is_Some (registered calls : gmap string Server)).
      destruct (decide (reg_hostname last = reg_hostname call)); auto.
    + apply list_elem_of_singleton in Hin as ->.
      unfold Database.RegisterServer. rewrite Hinfo, Htext, Hexec. simpl.
      rewrite (lookup_insert_eq (registered calls : gmap string Server)).
      by eexists.
Qed.

Lemma GetAllServers_rows (query_err scan_err : option string) (store : Store)
    (servers : list Server) :
  GetAllServers query_err scan_err store = Ok servers ->
  servers ≡ₚ (map_to_list store).*2.
Proof.
  unfold GetAllServers. destruct query_err as [e|]; [done|].
  pose proof (merge_sort_Permutation by_hostname (map_to_list store).*2)
    as Hperm.
  destruct (merge_sort by_hostname (map_to_list store).*2) as [|row rows].
  - by intros [= <-].
  - destruct scan_err as [e|]; [done|]. by intros [= <-].
Qed.

Lemma hostnames_of_rows (store : Store) :
  (forall h row, store !! h = Some row -> Hostname row = h) ->
  Hostname <$> (map_to_list store).*2 = (map_to_list store).*1.
Proof.
  intros Hkey.
  assert (Hall : Forall (fun kv => Hostname kv.2 = kv.1) (map_to_list store)).
  { apply Forall_forall. intros [h row] Hin. simpl.
    apply Hkey. by apply elem_of_map_to_list. }
  induction Hall as [|[h row] l Hrow _ IH]; [done|].
  rewrite !fmap_cons. simpl in *. by rewrite Hrow, IH.
Qed.

(** The rows that [GetAllServers] returns for a table the program wrote:
    no host name occurs twice, every row stems from a registration of its
    host, and every host that registered has a row. *)
Lemma GetAllServers_registered (calls : list registration)
    (query_err scan_err : option string) (servers : list Server) :
  GetAllServers query_err scan_err (registered calls) = Ok servers ->
  NoDup (Hostname <$> servers) /\
  (forall server, server ∈ servers ->
     exists call, call ∈ calls /\ reg_hostname call = Hostname server /\
                  marshal_bonds (reg_bonds call) = Ok (Bonds server)) /\
  (forall call info text,
     call ∈ calls ->
     marshal_info (reg_systemInfo call) = Ok info ->
     marshal_bonds (reg_bonds call) = Ok text ->
     reg_exec_err call = None ->
     reg_hostname call ∈ Hostname <$> servers).
Proof.
  intros Hget. apply GetAllServers_rows in Hget.
  assert (Hkey : forall h row, registered calls !! h = Some row ->
                               Hostname row = h).
  { intros h row Hrow. by apply registered_rows in Hrow as [? _]. }
  split; [|split].
  - rewrite Hget, hostnames_of_rows by done. apply NoDup_fst_map_to_list.
  - intros server Hin. rewrite Hget in Hin.
    apply list_elem_of_fmap in Hin as ([h row] & -> & Hin). simpl.
    apply elem_of_map_to_list in Hin.
    apply registered_rows in Hin as (-> & call & ? & ? & ?). eauto.
  - intros call info text Hin Hinfo Htext Hexec.
    destruct (registered_hosts calls call info text Hin Hinfo Htext Hexec)
      as [row Hrow].
    rewrite Hget, hostnames_of_rows by done.
    apply list_elem_of_fmap. exists (reg_hostname call, row).
    split; [done|]. by apply elem_of_map_to_list.
Qed.

(** C8: the registry is written by [RegisterServer] alone, which stores
    the bond map of a host as [json.Marshal] encodes it; whenever the
    decoder accepts what the encoder produces, every stored bond text
    decodes.  For the servers [GetAllServers] returns from such a
    registry, the target set sent to an agent never holds the agent's own
    host name; it holds, for every other registered host, the bond to
    address mapping decoded from what a registration of that host stored;
    every host whose registration went through, the agent apart, has an
    entry; and the set has no entries for other names. *)
Theorem target_sets_exclude_self (calls : list registration)
    (query_err scan_err : option string) (servers : list Server)
    (server : Server) :
  (forall bonds text,
     marshal_bonds bonds = Ok text -> is_Some (unmarshalBonds text)) ->
  GetAllServers query_err scan_err (registered calls) = Ok servers ->
  server ∈ servers ->
  targets_for (build_allTargets servers) server !! Hostname server = None /\
  (forall other,
     other ∈ servers -> Hostname other <> Hostname server ->
     exists call bonds,
       call ∈ calls /\ reg_hostname call = Hostname other /\
       marshal_bonds (reg_bonds call) = Ok (Bonds other) /\
       unmarshalBonds (Bonds other) = Some bonds /\
       targets_for (build_allTargets servers) server !! Hostname other =
       Some {| Links := bonds |}) /\
  (forall call info text,
     call ∈ calls ->
     marshal_info (reg_systemInfo call) = Ok info ->
     marshal_bonds (reg_bonds call) = Ok text ->
     reg_exec_err call = None ->
     reg_hostname call <> Hostname server ->
     is_Some (targets_for (build_allTargets servers) server
                !! reg_hostname call)) /\
  (forall h,
     is_Some (targets_for (build_allTargets servers) server !! h) ->
     h <> Hostname server /\ h ∈ Hostname <$> servers) /\
  dispatch servers (build_allTargets servers) =
    map (fun server =>
           trigger http_post
             ("http://" +:+ IPAddress server +:+ ":8080/api/run-tests")
             (Hostname server) (IPAddress server)
             {| Targets := targets_for (build_allTargets servers) server |})
      servers.
Proof.
  intros Hcodec Hget Hserver.
  apply GetAllServers_registered in Hget as (Hnd & Htext & Hhosts).
  destruct (target_sets_of_rows unmarshalBonds http_post servers server
              Hnd) as (Hself & Hother & Hkeys & Hdispatch).
  assert (Hentry : forall other,
     other ∈ servers -> Hostname other <> Hostname server ->
     exists call bonds,
       call ∈ calls /\ reg_hostname call = Hostname other /\
       marshal_bonds (reg_bonds call) = Ok (Bonds other) /\
       unmarshalBonds (Bonds other) = Some bonds /\
       targets_for (build_allTargets servers) server !! Hostname other =
       Some {| Links := bonds |}).
  { intros other Hin Hne.
    destruct (Htext other Hin) as (call & Hcall & Hname & Hmarshal).
    destruct (Hcodec _ _ Hmarshal) as [bonds Hbonds].
    exists call, bonds. repeat (split; [done|]).
    rewrite (Hother other Hin Hne), Hbonds. done. }
  split; [exact Hself|]. split; [exact Hentry|].
  split; [|split; [exact Hkeys|exact Hdispatch]].
  intros call info text Hcall Hinfo Htext' Hexec Hne.
  apply (Hhosts call info text Hcall Hinfo Htext') in Hexec.
  apply list_elem_of_fmap in Hexec as (other & Hname & Hin).
  rewrite Hname in Hne |- *.
  destruct (Hentry other Hin Hne) as (_ & bonds & _ & _ & _ & _ & ->).
  by eexists.
Qed.

End Registry.

Section RegistryExamples.
Import Agent Aggregator Database Examples DatabaseExamples.

Lemma encode_braces_decodes (bonds : gmap string (list string)) (text : string) :
  encode_braces bonds = Ok text -> is_Some (decode_braces text).
Proof.
  unfold encode_braces. destruct (map_to_list bonds); [|done].
  intros [= <-]. by eexists.
Qed.

Lemma three_registrations_rows :
  GetAllServers None None
    (registered encode_unit encode_braces three_registrations)
  = Ok [server_a; server_b; server_c].
Proof. vm_compute. reflexivity. Qed.

Lemma target_sets_exclude_self_witness :
  (forall bonds text,
     encode_braces bonds = Ok text -> is_Some (decode_braces text)) /\
  GetAllServers None None
    (registered encode_unit encode_braces three_registrations)
  = Ok [server_a; server_b; server_c] /\
  server_a ∈ [server_a; server_b; server_c] /\
  targets_for (build_allTargets decode_braces [server_a; server_b; server_c])
    server_a !! "server-a"%string = None /\
  is_Some
    (targets_for (build_allTargets decode_braces [server_a; server_b; server_c])
       server_a !! "server-b"%string).
Proof.
  assert (Hin : server_a ∈ [server_a; server_b; server_c])
    by apply list_elem_of_here.
  destruct (target_sets_exclude_self encode_unit encode_braces decode_braces
              all_accept three_registrations None None
              [server_a; server_b; server_c] server_a
              encode_braces_decodes three_registrations_rows Hin)
    as (Hself & Hother & _).
  split; [exact encode_braces_decodes|].
  split; [exact three_registrations_rows|]. split; [exact Hin|].
  split; [exact Hself|].
  destruct (Hother server_b) as (call & bonds & _ & _ & _ & _ & Hentry).
  - apply list_elem_of_further, list_elem_of_here.
  - simpl. discriminate.
  - simpl in Hentry. rewrite Hentry. by eexists.
Defined.

End RegistryExamples.

(** ** IPv4 prefixes *)

Section Prefix.
Import Bytes GoNet Reference.

Lemma land_mask_byte (x c : Z) :
  0 <= x <= 255 ->
  c ∈ [0; 128; 192; 224; 240; 248; 252; 254; 255] ->
  Z.land x c = (256 - c) * (x / (256 - c)).
Proof.
  intros Hx Hc.
  assert (forallb (fun c =>
            forallb (fun x => Z.land x c =? (256 - c) * (x / (256 - c)))
              (Z.of_nat <$> seq 0 256))
            [0; 128; 192; 224; 240; 248; 252; 254; 255] = true) as Hall
    by (vm_compute; reflexivity).
  rewrite forallb_forall in Hall.
  specialize (Hall c). rewrite <- list_elem_of_In in Hall.
  specialize (Hall Hc). rewrite forallb_forall in Hall.
  apply Z.eqb_eq, Hall, list_elem_of_In, list_elem_of_fmap.
  exists (Z.to_nat x). split; [lia|]. apply elem_of_seq. lia.
Qed.

Lemma list4_eq (a b c d a' b' c' d' : Z) :
  [a; b; c; d] = [a'; b'; c'; d'] <-> a = a' /\ b = b' /\ c = c' /\ d = d'.
Proof.
  split; [intros Heq; by inversion Heq|]. by intros (-> & -> & -> & ->).
Qed.

Lemma CIDRMask_32_cases (n : Z) :
  0 <= n <= 32 ->
  exists c1 c2 c3 c4,
    CIDRMask n 32 = [c1; c2; c3; c4] /\
    Forall (fun c => c ∈ [0; 128; 192; 224; 240; 248; 252; 254; 255])
      [c1; c2; c3; c4].
Proof.
  intros Hn.
  assert (forallb (fun n =>
            match CIDRMask n 32 with
            | [c1; c2; c3; c4] =>
                forallb (fun c =>
                           bool_decide
                             (c ∈ [0; 128; 192; 224; 240; 248; 252; 254; 255]))
                  [c1; c2; c3; c4]
            | _ => false
            end) (Z.of_nat <$> seq 0 33) = true) as Hall
    by (vm_compute; reflexivity).
  rewrite forallb_forall in Hall. specialize (Hall n).
  rewrite <- list_elem_of_In in Hall.
  assert (n ∈ Z.of_nat <$> seq 0 33) as Hin.
  { apply list_elem_of_fmap. exists (Z.to_nat n). split; [lia|].
    apply elem_of_seq. lia. }
  specialize (Hall Hin).
  destruct (CIDRMask n 32) as [|c1 [|c2 [|c3 [|c4 [|? ?]]]]]; try done.
  exists c1, c2, c3, c4. split; [done|].
  rewrite forallb_forall in Hall. apply Forall_forall. intros c Hc.
  apply list_elem_of_In, Hall in Hc. by apply bool_decide_eq_true in Hc.
Qed.

Lemma and_bytes_prefix (n x1 x2 x3 x4 y1 y2 y3 y4 : Z) :
  0 <= n <= 32 ->
  0 <= x1 <= 255 -> 0 <= x2 <= 255 -> 0 <= x3 <= 255 -> 0 <= x4 <= 255 ->
  0 <= y1 <= 255 -> 0 <= y2 <= 255 -> 0 <= y3 <= 255 -> 0 <= y4 <= 255 ->
  and_bytes [x1; x2; x3; x4] (CIDRMask n 32) =
  and_bytes [y1; y2; y3; y4] (CIDRMask n 32)
  <-> same_prefix n [x1; x2; x3; x4] [y1; y2; y3; y4].
Proof.
  intros Hn Hx1 Hx2 Hx3 Hx4 Hy1 Hy2 Hy3 Hy4.
  unfold same_prefix, be32. simpl foldl.
  assert (n ∈ Z.of_nat <$> seq 0 33) as Hin.
  { apply list_elem_of_fmap. exists (Z.to_nat n). split; [lia|].
    apply elem_of_seq. lia. }
  simpl in Hin.
  repeat (apply elem_of_cons in Hin as [->|Hin]);
    [..|by apply elem_of_nil in Hin];
    match goal with
    | |- context [CIDRMask ?k 32] =>
        let m := eval vm_compute in (CIDRMask k 32) in
        change (CIDRMask k 32) with m
    end;
    match goal with
    | |- context [2 ^ ?e] =>
        let v := eval vm_compute in (2 ^ e) in change (2 ^ e) with v
    end;
    simpl and_bytes; rewrite list4_eq;
    rewrite !land_mask_byte
      by (first [assumption | apply (bool_decide_unpack _); vm_compute; exact I]);
    simpl Z.sub;
    Z.to_euclidean_division_equations; lia.
Qed.

Lemma digit_not_separator (c : ascii) :
  is_digit c = true ->
  Ascii.eqb c "." = false /\ Ascii.eqb c ":" = false /\
  Ascii.eqb c "%" = false /\ Ascii.eqb c "/" = false /\ 48 <= byte_of c.
Proof.
  destruct c as [[] [] [] [] [] [] [] []]; vm_compute; intros Hd;
    try discriminate Hd; repeat split; discriminate.
Qed.

Lemma parseIPv4_loop_octets (s : string) (prev : option ascii)
    (val : Z) (pos : nat) (digLen : Z) (fields r : list Z) :
  parseIPv4_loop s prev val pos digLen fields = Some r ->
  length fields = 4%nat -> Forall is_octet fields -> is_octet val ->
  length r = 4%nat /\ Forall is_octet r.
Proof.
  revert prev val pos digLen fields.
  induction s as [|c s IH]; intros prev val pos digLen fields; simpl.
  - destruct (pos <? 3)%nat; [done|]. intros [= <-] Hlen Hall Hval.
    split; [by rewrite length_insert|by apply Forall_insert].
  - destruct (is_digit c) eqn:Hd.
    + destruct ((digLen =? 1) && (val =? 0)); [done|].
      destruct (val * 10 + (byte_of c - 48) >? 255) eqn:Hgt; [done|].
      intros Hr Hlen Hall Hval. eapply IH; [exact Hr|done..|].
      apply digit_not_separator in Hd as (_ & _ & _ & _ & Hge).
      unfold is_octet in *. lia.
    + destruct (Ascii.eqb c "."); [|done].
      destruct (_ || _); [done|]. destruct (pos =? 3)%nat; [done|].
      intros Hr Hlen Hall Hval. eapply IH; [exact Hr| | |].
      * by rewrite length_insert.
      * by apply Forall_insert.
      * unfold is_octet. lia.
Qed.

Lemma parseIPv4_octets (s : string) (a : Addr) :
  parseIPv4 s = Some a ->
  exists x1 x2 x3 x4,
    a = AddrFrom4 [x1; x2; x3; x4] /\
    is_octet x1 /\ is_octet x2 /\ is_octet x3 /\ is_octet x4.
Proof.
  unfold parseIPv4.
  destruct (parseIPv4_loop s None 0 0 0 [0; 0; 0; 0]) as [r|] eqn:Hr; [|done].
  intros [= <-].
  apply parseIPv4_loop_octets in Hr as [Hlen Hall];
    [|done|repeat constructor; unfold is_octet; lia|unfold is_octet; lia].
  destruct r as [|x1 [|x2 [|x3 [|x4 [|? ?]]]]]; try done.
  exists x1, x2, x3, x4. split; [done|].
  by repeat (apply Forall_cons in Hall as [? Hall]).
Qed.

Lemma parseIPv4_loop_no_slash (s : string) (prev : option ascii)
    (val : Z) (pos : nat) (digLen : Z) (fields r : list Z) :
  parseIPv4_loop s prev val pos digLen fields = Some r ->
  index_byte "/" s = None.
Proof.
  revert prev val pos digLen fields.
  induction s as [|c s IH]; intros prev val pos digLen fields; simpl; [done|].
  destruct (is_digit c) eqn:Hd.
  - apply digit_not_separator in Hd as (_ & _ & _ & -> & _).
    destruct (_ && _); [done|]. destruct (_ >? _); [done|].
    intros Hr. by rewrite (IH _ _ _ _ _ Hr).
  - destruct (Ascii.eqb_spec c ".") as [->|]; [|done]. simpl.
    destruct (_ || _); [done|]. destruct (pos =? 3)%nat; [done|].
    intros Hr. by rewrite (IH _ _ _ _ _ Hr).
Qed.

Section WithIPv6.
Variable parseIPv6 : string -> option (list Z * string).

Lemma parseIPv4_loop_scan (whole s : string) (prev : option ascii)
    (val : Z) (pos : nat) (digLen : Z) (fields r : list Z) :
  parseIPv4_loop s prev val pos digLen fields = Some r ->
  (pos < 3)%nat ->
  ParseAddr_scan parseIPv6 whole s = parseIPv4 whole.
Proof.
  revert prev val pos digLen fields.
  induction s as [|c s IH]; intros prev val pos digLen fields; simpl.
  - intros Hr Hpos. apply Nat.ltb_lt in Hpos. by rewrite Hpos in Hr.
  - destruct (is_digit c) eqn:Hd.
    + apply digit_not_separator in Hd as (-> & -> & -> & _).
      destruct (_ && _); [done|]. destruct (_ >? _); [done|].
      intros Hr Hpos. by eapply IH.
    + destruct (Ascii.eqb c "."); done.
Qed.

Lemma ParseAddr_v4 (s : string) (a : Addr) :
  parseIPv4 s = Some a -> ParseAddr parseIPv6 s = Some a.
Proof.
  intros Ha. unfold ParseAddr. rewrite <- Ha. unfold parseIPv4 in Ha.
  destruct (parseIPv4_loop s None 0 0 0 [0; 0; 0; 0]) as [r|] eqn:Hr; [|done].
  eapply parseIPv4_loop_scan; [exact Hr|lia].
Qed.

Lemma parseIPv4_no_slash (s : string) (a : Addr) :
  parseIPv4 s = Some a -> index_byte "/" s = None.
Proof.
  unfold parseIPv4.
  destruct (parseIPv4_loop s None 0 0 0 [0; 0; 0; 0]) as [r|] eqn:Hr; [|done].
  intros _. by eapply parseIPv4_loop_no_slash.
Qed.

Lemma drop_bytes_app (p q : string) (c : ascii) :
  drop_bytes (S (String.length p)) (p +:+ String c q) = q.
Proof. induction p as [|x p IH]; simpl; [done|exact IH]. Qed.

Lemma dtoi_loop_nonneg (s : string) (n0 : Z) (i0 : nat) (n : Z) (i : nat) (ok : bool) :
  dtoi_loop s n0 i0 = (n, i, ok) -> 0 <= n0 -> 0 <= n.
Proof.
  revert n0 i0. induction s as [|c s IH]; intros n0 i0; simpl.
  - destruct (i0 =? 0)%nat; intros [= <- _ _]; lia.
  - destruct (is_digit c) eqn:Hd.
    + destruct (_ >=? big); [intros [= <- _ _]; unfold big; lia|].
      intros Hr Hn0. eapply IH; [exact Hr|].
      apply digit_not_separator in Hd as (_ & _ & _ & _ & Hge). lia.
    + destruct (i0 =? 0)%nat; intros [= <- _ _]; lia.
Qed.

Lemma ParseCIDR_v4 (t m : string) (n x1 x2 x3 x4 : Z) :
  parseIPv4 t = Some (AddrFrom4 [x1; x2; x3; x4]) ->
  dtoi m = (n, String.length m, true) ->
  n <= 32 ->
  0 <= n /\
  ParseCIDR parseIPv6 (t +:+ String "/" m) =
  Some (v4InV6Prefix ++ [x1; x2; x3; x4],
        mkIPNet (and_bytes [x1; x2; x3; x4] (CIDRMask n 32)) (CIDRMask n 32)).
Proof.
  intros Ht Hm Hn.
  assert (0 <= n) as Hn0 by (eapply dtoi_loop_nonneg; [exact Hm|lia]).
  split; [exact Hn0|].
  unfold ParseCIDR.
  rewrite (index_byte_app _ _ _ (parseIPv4_no_slash _ _ Ht)).
  rewrite take_bytes_app, drop_bytes_app, (ParseAddr_v4 _ _ Ht), Hm.
  rewrite Nat.eqb_refl.
  change (BitLen (AddrFrom4 [x1; x2; x3; x4])) with 32.
  change (String.eqb (Zone (AddrFrom4 [x1; x2; x3; x4])) EmptyString) with true.
  replace (n <? 0) with false by (symmetry; apply Z.ltb_ge; lia).
  replace (n >? 32) with false
    by (symmetry; rewrite Z.gtb_ltb; apply Z.ltb_ge; lia).
  simpl negb. simpl orb. cbv iota. do 3 f_equal.
  destruct (CIDRMask_32_cases n) as (c1 & c2 & c3 & c4 & -> & _); [lia|].
  reflexivity.
Qed.

Lemma ParseIP_v4 (s : string) (y : list Z) :
  parseIPv4 s = Some (AddrFrom4 y) ->
  ParseIP parseIPv6 s = Some (v4InV6Prefix ++ y).
Proof. intros Hs. unfold ParseIP. by rewrite (ParseAddr_v4 _ _ Hs). Qed.

Lemma Contains_v4 (n x1 x2 x3 x4 y1 y2 y3 y4 : Z) :
  0 <= n <= 32 ->
  Contains
    (mkIPNet (and_bytes [x1; x2; x3; x4] (CIDRMask n 32)) (CIDRMask n 32))
    (v4InV6Prefix ++ [y1; y2; y3; y4]) = true
  <-> and_bytes [x1; x2; x3; x4] (CIDRMask n 32) =
      and_bytes [y1; y2; y3; y4] (CIDRMask n 32).
Proof.
  intros Hn.
  destruct (CIDRMask_32_cases n) as (c1 & c2 & c3 & c4 & -> & _); [lia|].
  unfold Contains, networkNumberAndMask, To4, bytes_eqb. simpl.
  rewrite bool_decide_eq_true.
  by rewrite <- !Z.land_assoc, !Z.land_diag.
Qed.

(** On dotted-quad text the matcher compares network prefixes. *)
Lemma InSameSubnet_v4 (t m ip2 : string) (n x1 x2 x3 x4 y1 y2 y3 y4 : Z) :
  parseIPv4 t = Some (AddrFrom4 [x1; x2; x3; x4]) ->
  dtoi m = (n, String.length m, true) ->
  n <= 32 ->
  parseIPv4 (Netplan.stripCIDR ip2) = Some (AddrFrom4 [y1; y2; y3; y4]) ->
  Netplan.InSameSubnet parseIPv6 (t +:+ String "/" m) ip2 = true
  <-> same_prefix n [x1; x2; x3; x4] [y1; y2; y3; y4].
Proof.
  intros Ht Hm Hn Hip2.
  destruct (ParseCIDR_v4 _ _ _ _ _ _ _ Ht Hm Hn) as [Hn0 Hcidr].
  unfold Netplan.InSameSubnet. rewrite Hcidr, (ParseIP_v4 _ _ Hip2).
  rewrite Contains_v4 by lia.
  apply parseIPv4_octets in Ht as (a1 & a2 & a3 & a4 & Ha & ? & ? & ? & ?).
  apply parseIPv4_octets in Hip2 as (b1 & b2 & b3 & b4 & Hb & ? & ? & ? & ?).
  unfold AddrFrom4 in Ha, Hb. inversion Ha; inversion Hb; subst.
  by apply and_bytes_prefix.
Qed.

End WithIPv6.

End Prefix.

Section MatcherSpec.
Import Bytes Netplan.
Variable parseIPv6 : string -> option (list Z * string).

(** C2: [InSameSubnet] parses its first argument as network and mask, cuts
    the second argument at its first ['/'] before parsing it as a bare
    address, answers [true] exactly when both parse and the network
    contains the address, answers [false] when either parse fails, and
    gives [true] for 10.150.3.253 and [false] for 10.150.4.1 against
    10.150.0.1/22.  For dotted-quad text and a prefix length [n] of at
    most 32 the answer is [true] exactly when the two addresses agree on
    their first [n] bits. *)
Theorem InSameSubnet_spec :
  (forall p q, index_byte "/" p = None ->
     stripCIDR (p +:+ String "/" q) = p /\ stripCIDR p = p) /\
  (forall ip1CIDR ip2,
     InSameSubnet parseIPv6 ip1CIDR ip2 = true <->
     exists ip ipNet1 ip2Addr,
       GoNet.ParseCIDR parseIPv6 ip1CIDR = Some (ip, ipNet1) /\
       GoNet.ParseIP parseIPv6 (stripCIDR ip2) = Some ip2Addr /\
       GoNet.Contains ipNet1 ip2Addr = true) /\
  (forall ip1CIDR ip2,
     GoNet.ParseCIDR parseIPv6 ip1CIDR = None \/
     GoNet.ParseIP parseIPv6 (stripCIDR ip2) = None ->
     InSameSubnet parseIPv6 ip1CIDR ip2 = false) /\
  (forall t m ip2 n x1 x2 x3 x4 y1 y2 y3 y4,
     GoNet.parseIPv4 t = Some (GoNet.AddrFrom4 [x1; x2; x3; x4]) ->
     GoNet.dtoi m = (n, String.length m, true) ->
     n <= 32 ->
     GoNet.parseIPv4 (stripCIDR ip2) = Some (GoNet.AddrFrom4 [y1; y2; y3; y4]) ->
     InSameSubnet parseIPv6 (t +:+ String "/" m) ip2 = true <->
     Reference.same_prefix n [x1; x2; x3; x4] [y1; y2; y3; y4]) /\
  InSameSubnet parseIPv6 "10.150.0.1/22" "10.150.3.253" = true /\
  InSameSubnet parseIPv6 "10.150.0.1/22" "10.150.4.1" = false.
Proof.
  split; [|split; [|split; [|split; [|split]]]].
  - intros p q Hp. split; [by apply stripCIDR_mask|by apply stripCIDR_bare].
  - apply InSameSubnet_true.
  - intros ip1CIDR ip2 [Hf|Hf]; unfold InSameSubnet; rewrite Hf; [done|].
    by destruct (GoNet.ParseCIDR parseIPv6 ip1CIDR) as [[? ?]|].
  - intros *. apply InSameSubnet_v4.
  - vm_compute. reflexivity.
  - vm_compute. reflexivity.
Qed.

End MatcherSpec.

(** * Further properties *)

(** ** The subnet matcher on dotted-quad text *)

Section MatcherLaws.
Import Bytes GoNet Reference.
Variable parseIPv6 : string -> option (list Z * string).

Local Abbreviation InSameSubnet := (Netplan.InSameSubnet parseIPv6).

Lemma index_byte_take (c : ascii) (s : string) (i : nat) :
  index_byte c s = Some i -> index_byte c (take_bytes i s) = None.
Proof.
  revert i. induction s as [|x s IH]; intros i; simpl; [done|].
  destruct (Ascii.eqb x c) eqn:Hx.
  - by intros [= <-].
  - destruct (index_byte c s) as [j|] eqn:Hj; [|done].
    intros [= <-]. simpl. by rewrite Hx, (IH j).
Qed.

(** X1: [stripCIDR] returns text without ['/'], so stripping twice is
    stripping once, and [InSameSubnet] ignores whatever follows the first
    ['/'] of its second argument. *)
Theorem stripCIDR_idempotent (s ip1CIDR : string) :
  index_byte "/" (Netplan.stripCIDR s) = None /\
  Netplan.stripCIDR (Netplan.stripCIDR s) = Netplan.stripCIDR s /\
  InSameSubnet ip1CIDR (Netplan.stripCIDR s) = InSameSubnet ip1CIDR s.
Proof.
  assert (index_byte "/" (Netplan.stripCIDR s) = None) as Hno.
  { unfold Netplan.stripCIDR.
    destruct (index_byte "/" s) as [i|] eqn:Hi; [by apply index_byte_take|done]. }
  assert (Netplan.stripCIDR (Netplan.stripCIDR s) = Netplan.stripCIDR s) as Hid.
  { unfold Netplan.stripCIDR at 1. by rewrite Hno. }
  split; [exact Hno|]. split; [exact Hid|].
  unfold Netplan.InSameSubnet. by rewrite Hid.
Qed.

(** X2: a first argument without ['/'] never matches, whatever the second
    argument is. *)
Theorem InSameSubnet_needs_mask (ip1CIDR ip2 : string) :
  index_byte "/" ip1CIDR = None -> InSameSubnet ip1CIDR ip2 = false.
Proof.
  intros Hno. unfold Netplan.InSameSubnet, ParseCIDR. by rewrite Hno.
Qed.

Lemma same_prefix_refl (n : Z) (x : list Z) : same_prefix n x x.
Proof. reflexivity. Qed.

Lemma same_prefix_sym (n : Z) (x y : list Z) :
  same_prefix n x y <-> same_prefix n y x.
Proof. unfold same_prefix. split; intros ->; reflexivity. Qed.

Lemma same_prefix_shorter (n n' : Z) (x y : list Z) :
  0 <= n' <= n -> n <= 32 -> same_prefix n x y -> same_prefix n' x y.
Proof.
  unfold same_prefix. intros Hn' Hn Heq.
  replace (32 - n') with ((32 - n) + (n - n')) by lia.
  rewrite Z.pow_add_r by lia.
  rewrite <- !Zdiv.Zdiv_Zdiv by (apply Z.pow_nonneg; lia).
  by rewrite Heq.
Qed.

Lemma be32_bound (x1 x2 x3 x4 : Z) :
  is_octet x1 -> is_octet x2 -> is_octet x3 -> is_octet x4 ->
  0 <= be32 [x1; x2; x3; x4] < 2 ^ 32.
Proof.
  unfold is_octet, be32. simpl. change (2 ^ 32) with 4294967296. lia.
Qed.

Lemma be32_inj (x1 x2 x3 x4 y1 y2 y3 y4 : Z) :
  is_octet x1 -> is_octet x2 -> is_octet x3 -> is_octet x4 ->
  is_octet y1 -> is_octet y2 -> is_octet y3 -> is_octet y4 ->
  be32 [x1; x2; x3; x4] = be32 [y1; y2; y3; y4] ->
  [x1; x2; x3; x4] = [y1; y2; y3; y4].
Proof.
  unfold is_octet, be32. simpl. intros. repeat f_equal; lia.
Qed.

(** The octets of a dotted quad, with the facts the laws below need. *)
Lemma parsed_v4 (t : string) :
  is_Some (parseIPv4 t) ->
  exists x1 x2 x3 x4,
    parseIPv4 t = Some (AddrFrom4 [x1; x2; x3; x4]) /\
    is_octet x1 /\ is_octet x2 /\ is_octet x3 /\ is_octet x4 /\
    Netplan.stripCIDR t = t.
Proof.
  intros [a Ha].
  destruct (parseIPv4_octets _ _ Ha) as (x1 & x2 & x3 & x4 & -> & ? & ? & ? & ?).
  exists x1, x2, x3, x4. repeat (split; [done|]).
  apply stripCIDR_bare. by eapply parseIPv4_no_slash.
Qed.

(** X3: an IPv4 address lies in its own network: [a/n] matches [a], with or
    without the mask on the second argument. *)
Theorem InSameSubnet_v4_reflexive (t m : string) (n : Z) :
  is_Some (parseIPv4 t) ->
  dtoi m = (n, String.length m, true) ->
  n <= 32 ->
  InSameSubnet (t +:+ String "/" m) t = true /\
  InSameSubnet (t +:+ String "/" m) (t +:+ String "/" m) = true.
Proof.
  intros Ht Hm Hn.
  destruct (parsed_v4 t Ht) as (x1 & x2 & x3 & x4 & Hp & _ & _ & _ & _ & Hs).
  assert (InSameSubnet (t +:+ String "/" m) t = true) as Hrefl.
  { eapply InSameSubnet_v4; [exact Hp|exact Hm|exact Hn| |apply same_prefix_refl].
    by rewrite Hs. }
  split; [exact Hrefl|].
  transitivity (InSameSubnet (t +:+ String "/" m) t); [|exact Hrefl].
  unfold Netplan.InSameSubnet.
  rewrite (stripCIDR_mask t m) by (eapply parseIPv4_no_slash; exact Hp).
  by rewrite Hs.
Qed.

(** X4: at one prefix length the match is symmetric: [a/n] matches [b]
    exactly when [b/n] matches [a]. *)
Theorem InSameSubnet_v4_symmetric (t1 t2 m : string) (n : Z) :
  is_Some (parseIPv4 t1) -> is_Some (parseIPv4 t2) ->
  dtoi m = (n, String.length m, true) ->
  n <= 32 ->
  InSameSubnet (t1 +:+ String "/" m) t2 = InSameSubnet (t2 +:+ String "/" m) t1.
Proof.
  intros Ht1 Ht2 Hm Hn.
  destruct (parsed_v4 t1 Ht1) as (x1 & x2 & x3 & x4 & Hp1 & _ & _ & _ & _ & Hs1).
  destruct (parsed_v4 t2 Ht2) as (y1 & y2 & y3 & y4 & Hp2 & _ & _ & _ & _ & Hs2).
  apply eq_true_iff_eq.
  rewrite (InSameSubnet_v4 parseIPv6 t1 m t2 n x1 x2 x3 x4 y1 y2 y3 y4 Hp1 Hm Hn)
    by (by rewrite Hs2).
  rewrite (InSameSubnet_v4 parseIPv6 t2 m t1 n y1 y2 y3 y4 x1 x2 x3 x4 Hp2 Hm Hn)
    by (by rewrite Hs1).
  apply same_prefix_sym.
Qed.

(** X5: a shorter prefix matches at least as much: what [a/n] matches,
    [a/n'] matches for every [n' <= n]. *)
Theorem InSameSubnet_v4_shorter_prefix (t1 t2 m m' : string) (n n' : Z) :
  is_Some (parseIPv4 t1) -> is_Some (parseIPv4 t2) ->
  dtoi m = (n, String.length m, true) ->
  dtoi m' = (n', String.length m', true) ->
  n' <= n -> n <= 32 ->
  InSameSubnet (t1 +:+ String "/" m) t2 = true ->
  InSameSubnet (t1 +:+ String "/" m') t2 = true.
Proof.
  intros Ht1 Ht2 Hm Hm' Hle Hn.
  destruct (parsed_v4 t1 Ht1) as (x1 & x2 & x3 & x4 & Hp1 & _ & _ & _ & _ & Hs1).
  destruct (parsed_v4 t2 Ht2) as (y1 & y2 & y3 & y4 & Hp2 & _ & _ & _ & _ & Hs2).
  assert (0 <= n') as Hn0 by (eapply dtoi_loop_nonneg; [exact Hm'|lia]).
  rewrite (InSameSubnet_v4 parseIPv6 t1 m t2 n x1 x2 x3 x4 y1 y2 y3 y4 Hp1 Hm Hn)
    by (by rewrite Hs2).
  rewrite (InSameSubnet_v4 parseIPv6 t1 m' t2 n' x1 x2 x3 x4 y1 y2 y3 y4 Hp1 Hm')
    by (lia || by rewrite Hs2).
  apply same_prefix_shorter; lia.
Qed.

(** X6: the two ends of the range of prefix lengths: [a/0] matches every
    IPv4 address and [a/32] matches [a] alone. *)
Theorem InSameSubnet_v4_extremes (t1 t2 : string) :
  is_Some (parseIPv4 t1) -> is_Some (parseIPv4 t2) ->
  InSameSubnet (t1 +:+ "/0") t2 = true /\
  (InSameSubnet (t1 +:+ "/32") t2 = true <-> parseIPv4 t1 = parseIPv4 t2).
Proof.
  intros Ht1 Ht2.
  destruct (parsed_v4 t1 Ht1)
    as (x1 & x2 & x3 & x4 & Hp1 & Hx1 & Hx2 & Hx3 & Hx4 & Hs1).
  destruct (parsed_v4 t2 Ht2)
    as (y1 & y2 & y3 & y4 & Hp2 & Hy1 & Hy2 & Hy3 & Hy4 & Hs2).
  split.
  - apply (InSameSubnet_v4 parseIPv6 t1 "0" t2 0 x1 x2 x3 x4 y1 y2 y3 y4 Hp1);
      [reflexivity|lia|by rewrite Hs2|].
    unfold same_prefix. change (2 ^ (32 - 0)) with (2 ^ 32).
    pose proof (be32_bound _ _ _ _ Hx1 Hx2 Hx3 Hx4).
    pose proof (be32_bound _ _ _ _ Hy1 Hy2 Hy3 Hy4).
    by rewrite !Z.div_small.
  - rewrite (InSameSubnet_v4 parseIPv6 t1 "32" t2 32 x1 x2 x3 x4 y1 y2 y3 y4 Hp1)
      by (reflexivity || lia || by rewrite Hs2).
    unfold same_prefix. change (2 ^ (32 - 32)) with 1. rewrite !Z.div_1_r.
    rewrite Hp1, Hp2. split.
    + intros Heq. by rewrite (be32_inj _ _ _ _ _ _ _ _ Hx1 Hx2 Hx3 Hx4
                                Hy1 Hy2 Hy3 Hy4 Heq).
    + intros [= -> -> -> ->]. reflexivity.
Qed.

End MatcherLaws.

Section MatcherLawsWitnesses.
Import Bytes GoNet Examples.

Lemma InSameSubnet_needs_mask_witness :
  index_byte "/" "10.150.0.1" = None /\
  Netplan.InSameSubnet no_parseIPv6 "10.150.0.1" "10.150.0.2" = false.
Proof.
  split; [reflexivity|].
  apply (InSameSubnet_needs_mask no_parseIPv6 "10.150.0.1" "10.150.0.2").
  reflexivity.
Defined.

Lemma InSameSubnet_v4_reflexive_witness :
  is_Some (parseIPv4 "192.168.1.10") /\
  dtoi "24" = (24, String.length "24", true) /\
  24 <= 32 /\
  Netplan.InSameSubnet no_parseIPv6 "192.168.1.10/24" "192.168.1.10" = true.
Proof.
  assert (is_Some (parseIPv4 "192.168.1.10")) as Ht by (eexists; reflexivity).
  assert (24 <= 32) as Hn by lia.
  split; [exact Ht|]. split; [reflexivity|]. split; [exact Hn|].
  exact (proj1 (InSameSubnet_v4_reflexive no_parseIPv6 "192.168.1.10" "24" 24
                  Ht eq_refl Hn)).
Defined.

Lemma InSameSubnet_v4_symmetric_witness :
  is_Some (parseIPv4 "10.150.0.1") /\ is_Some (parseIPv4 "10.150.3.253") /\
  dtoi "22" = (22, String.length "22", true) /\ 22 <= 32 /\
  Netplan.InSameSubnet no_parseIPv6 "10.150.0.1/22" "10.150.3.253" =
  Netplan.InSameSubnet no_parseIPv6 "10.150.3.253/22" "10.150.0.1".
Proof.
  assert (is_Some (parseIPv4 "10.150.0.1")) as Ht1 by (eexists; reflexivity).
  assert (is_Some (parseIPv4 "10.150.3.253")) as Ht2 by (eexists; reflexivity).
  assert (22 <= 32) as Hn by lia.
  split; [exact Ht1|]. split; [exact Ht2|]. split; [reflexivity|].
  split; [exact Hn|].
  exact (InSameSubnet_v4_symmetric no_parseIPv6 "10.150.0.1" "10.150.3.253"
           "22" 22 Ht1 Ht2 eq_refl Hn).
Defined.

Lemma InSameSubnet_v4_shorter_prefix_witness :
  is_Some (parseIPv4 "10.150.0.1") /\ is_Some (parseIPv4 "10.150.3.253") /\
  dtoi "22" = (22, String.length "22", true) /\
  dtoi "16" = (16, String.length "16", true) /\
  16 <= 22 /\ 22 <= 32 /\
  Netplan.InSameSubnet no_parseIPv6 "10.150.0.1/22" "10.150.3.253" = true /\
  Netplan.InSameSubnet no_parseIPv6 "10.150.0.1/16" "10.150.3.253" = true.
Proof.
  assert (is_Some (parseIPv4 "10.150.0.1")) as Ht1 by (eexists; reflexivity).
  assert (is_Some (parseIPv4 "10.150.3.253")) as Ht2 by (eexists; reflexivity).
  assert (16 <= 22) as Hle by lia.
  assert (22 <= 32) as Hn by lia.
  assert (Netplan.InSameSubnet no_parseIPv6 "10.150.0.1/22" "10.150.3.253"
          = true) as Hin by (vm_compute; reflexivity).
  split; [exact Ht1|]. split; [exact Ht2|]. split; [reflexivity|].
  split; [reflexivity|]. split; [exact Hle|]. split; [exact Hn|].
  split; [exact Hin|].
  exact (InSameSubnet_v4_shorter_prefix no_parseIPv6 "10.150.0.1"
           "10.150.3.253" "22" "16" 22 16 Ht1 Ht2 eq_refl eq_refl Hle Hn Hin).
Defined.

Lemma InSameSubnet_v4_extremes_witness :
  is_Some (parseIPv4 "10.150.0.1") /\ is_Some (parseIPv4 "8.8.8.8") /\
  Netplan.InSameSubnet no_parseIPv6 "10.150.0.1/0" "8.8.8.8" = true.
Proof.
  assert (is_Some (parseIPv4 "10.150.0.1")) as Ht1 by (eexists; reflexivity).
  assert (is_Some (parseIPv4 "8.8.8.8")) as Ht2 by (eexists; reflexivity).
  split; [exact Ht1|]. split; [exact Ht2|].
  exact (proj1 (InSameSubnet_v4_extremes no_parseIPv6 "10.150.0.1" "8.8.8.8"
                  Ht1 Ht2)).
Defined.

End MatcherLawsWitnesses.

(** ** The resolver without masks *)

Section Unmasked.
Import Netplan Reference.
Context `{RangeOrder}.

(** The addresses a result map holds for [x]; a missing key holds none. *)
Local Abbreviation held result x := (default [] (result !! x)).

Lemma append_stripped_elem (name : string) (addrs : list string)
    (result : gmap string (list string)) (x ip : string) :
  ip ∈ held (append_stripped name addrs result) x <->
  ip ∈ held result x \/
  (x = name /\ exists addr, addr ∈ addrs /\ ip = stripCIDR addr).
Proof.
  unfold append_stripped, for_each. revert result.
  induction addrs as [|a addrs IH]; intros result; simpl.
  - split; [by left|]. intros [?|(_ & addr & Hin & _)]; [done|].
    by apply elem_of_nil in Hin.
  - rewrite IH. destruct (decide (x = name)) as [->|Hne].
    + rewrite lookup_insert_eq. simpl. rewrite elem_of_app, list_elem_of_singleton.
      split.
      * intros [[? | ->]|(_ & addr & Hin & ->)]; [by left| |].
        -- right. split; [done|]. exists a. split; [by left|done].
        -- right. split; [done|]. exists addr. split; [by right|done].
      * intros [?|(_ & addr & Hin & ->)]; [by left; left|].
        apply elem_of_cons in Hin as [->|Hin]; [by left; right|].
        right. eauto.
    + rewrite lookup_insert_ne by done. split.
      * intros [?|(? & _)]; [by left|done].
      * intros [?|(? & _)]; [by left|done].
Qed.

Lemma append_stripped_nonempty (name : string) (addrs : list string)
    (result : gmap string (list string)) :
  (forall x l, result !! x = Some l -> l <> []) ->
  forall x l, append_stripped name addrs result !! x = Some l -> l <> [].
Proof.
  unfold append_stripped, for_each. revert result.
  induction addrs as [|a addrs IH]; intros result Hinv; simpl; [done|].
  apply IH. intros x l. destruct (decide (x = name)) as [->|Hne].
  - rewrite lookup_insert_eq. intros [= <-]. by destruct (default [] _).
  - rewrite lookup_insert_ne by done. apply Hinv.
Qed.

Lemma for_range_elem {V : Type} (m : gmap string V)
    (body : string -> V -> gmap string (list string) -> gmap string (list string))
    (P : string -> V -> Prop) (result : gmap string (list string))
    (x ip : string) :
  (forall k v s, ip ∈ held (body k v s) x <-> ip ∈ held s x \/ P k v) ->
  ip ∈ held (for_range m body result) x <->
  ip ∈ held result x \/ exists k v, m !! k = Some v /\ P k v.
Proof.
  intros Hbody. unfold for_range.
  assert (forall l s,
            ip ∈ held (foldl (fun s kv => body kv.1 kv.2 s) s l) x <->
            ip ∈ held s x \/ exists k v, (k, v) ∈ l /\ P k v) as Hfold.
  { induction l as [|[k v] l IH]; intros s; simpl.
    - split; [by left|]. intros [?|(k & v & Hin & _)]; [done|].
      by apply elem_of_nil in Hin.
    - rewrite IH, Hbody. split.
      + intros [[?|?]|(k' & v' & Hin & HP)]; [by left| |].
        * right. exists k, v. split; [by left|done].
        * right. exists k', v'. split; [by right|done].
      + intros [?|(k' & v' & Hin & HP)]; [by left; left|].
        apply elem_of_cons in Hin as [[= -> ->]|Hin]; [by left; right|].
        right. eauto. }
  rewrite Hfold. split.
  - intros [?|(k & v & Hin & HP)]; [by left|]. right. exists k, v.
    split; [by apply elem_of_range|done].
  - intros [?|(k & v & Hin & HP)]; [by left|]. right. exists k, v.
    split; [by apply elem_of_range|done].
Qed.

Lemma for_range_nonempty {V : Type} (m : gmap string V)
    (body : string -> V -> gmap string (list string) -> gmap string (list string))
    (result : gmap string (list string)) :
  (forall k v s, (forall x l, s !! x = Some l -> l <> []) ->
                 forall x l, body k v s !! x = Some l -> l <> []) ->
  (forall x l, result !! x = Some l -> l <> []) ->
  forall x l, for_range m body result !! x = Some l -> l <> [].
Proof.
  intros Hbody. unfold for_range. revert result.
  induction (range m) as [|[k v] l IH]; intros result Hinv; simpl; [done|].
  apply IH. by apply Hbody.
Qed.

Lemma existsb_guarded (l : list string) (b : string) (n : nat) :
  existsb (fun iface => String.eqb iface b && (0 <? n)%nat) l = true <->
  b ∈ l /\ (0 < n)%nat.
Proof.
  rewrite existsb_exists. split.
  - intros (i & Hin & Hc). apply andb_true_iff in Hc as [Heq Hn].
    apply String.eqb_eq in Heq as ->. apply Nat.ltb_lt in Hn.
    split; [by apply list_elem_of_In|done].
  - intros [Hin Hn]. exists b. split; [by apply list_elem_of_In|].
    rewrite String.eqb_refl. simpl. by apply Nat.ltb_lt.
Qed.

Lemma elem_length_pos {A : Type} (a : A) (l : list A) : a ∈ l -> (0 < length l)%nat.
Proof. destruct l; [by intros ?%elem_of_nil|simpl; lia]. Qed.

Lemma existsb_vlan_on_bond (c : Config) (bondName : string) (n : nat)
    (l : list string) :
  existsb (fun iface =>
             match VLANs (Net c) !! iface with
             | Some vlan => String.eqb (VLAN_Link vlan) bondName && (0 <? n)%nat
             | None => false
             end) l = true <->
  (exists member, member ∈ l /\ vlan_on_bond c bondName member) /\ (0 < n)%nat.
Proof.
  rewrite existsb_exists. unfold vlan_on_bond. split.
  - intros (member & Hin & Hc).
    destruct (VLANs (Net c) !! member) as [vlan|] eqn:Hv; [|done].
    apply andb_true_iff in Hc as [Hl Hn]. apply String.eqb_eq in Hl.
    apply Nat.ltb_lt in Hn. split; [|done].
    exists member. split; [by apply list_elem_of_In|eauto].
  - intros [(member & Hin & vlan & Hv & Hl) Hn]. exists member.
    split; [by apply list_elem_of_In|]. rewrite Hv, Hl, String.eqb_refl.
    simpl. by apply Nat.ltb_lt.
Qed.

(** What one step adds for owner [x], as a statement about address [ip]. *)
Local Abbreviation adds x ip k addrs :=
  (x = k /\ exists addr, addr ∈ addrs /\ ip = stripCIDR addr).

Lemma guarded_append_elem (guard : bool) (cond : Prop) (name : string)
    (addrs : list string) (s : gmap string (list string)) (x ip : string) :
  (guard = true <-> cond /\ (0 < length addrs)%nat) ->
  ip ∈ held (if guard then append_stripped name addrs s else s) x <->
  ip ∈ held s x \/ (cond /\ adds x ip name addrs).
Proof.
  intros Hguard. destruct guard.
  - rewrite append_stripped_elem.
    destruct (proj1 Hguard eq_refl) as [Hcond _]. tauto.
  - split; [by left|]. intros [?|(Hcond & _ & addr & Hin & _)]; [done|].
    apply elem_length_pos in Hin.
    discriminate (proj2 Hguard (conj Hcond Hin)).
Qed.

Lemma elem_of_GetBondIPAddresses (c : Config) (bondName x ip : string) :
  is_Some (Bonds (Net c) !! bondName) ->
  ip ∈ held (GetBondIPAddresses c bondName) x <->
  exists addr, owns c bondName x addr /\ ip = stripCIDR addr.
Proof.
  intros [bond Hbond]. unfold GetBondIPAddresses. rewrite Hbond.
  (* 6. tunnels *)
  rewrite (for_range_elem _ _
             (fun k tunnel =>
                bond_related c bondName k /\
                adds x ip k (Addresses (Tunnel_Common tunnel)))).
  2:{ intros k v s.
      rewrite <- (guarded_append_elem
                    ((0 <? length (Addresses (Tunnel_Common v)))%nat
                     && isBondRelated c bondName k));
        [by destruct (_ <? _)%nat, (isBondRelated _ _ _)|].
      rewrite andb_true_iff, Nat.ltb_lt, isBondRelated_spec. tauto. }
  (* 5. bridges that include a VLAN on the bond *)
  rewrite (for_range_elem _ _
             (fun k bridge =>
                (exists member, member ∈ Bridge_Interfaces bridge /\
                                vlan_on_bond c bondName member) /\
                adds x ip k (Addresses (Bridge_Common bridge)))).
  2:{ intros k v s. rewrite for_break_existsb.
      apply guarded_append_elem, existsb_vlan_on_bond. }
  (* 4. VLANs on bridges that include the bond *)
  rewrite (for_range_elem _ _
             (fun k vlan =>
                bridge_with_bond c bondName (VLAN_Link vlan) /\
                adds x ip k (Addresses (VLAN_Common vlan)))).
  2:{ intros k v s. unfold bridge_with_bond.
      destruct (Bridges (Net c) !! VLAN_Link v) as [bridge|] eqn:Hb.
      - rewrite for_break_existsb.
        rewrite (guarded_append_elem _ (bondName ∈ Bridge_Interfaces bridge))
          by apply existsb_guarded.
        split; (intros [?|[Hc ?]]; [by left|right]); (split; [|done]).
        + eauto.
        + destruct Hc as (bridge' & [= <-] & ?). done.
      - split; [by left|]. by intros [?|[(? & ? & _) _]]. }
  (* 3. bridges that include the bond *)
  rewrite (for_range_elem _ _
             (fun k bridge =>
                bondName ∈ Bridge_Interfaces bridge /\
                adds x ip k (Addresses (Bridge_Common bridge)))).
  2:{ intros k v s. rewrite for_break_existsb.
      apply guarded_append_elem, existsb_guarded. }
  (* 2. VLANs on the bond *)
  rewrite (for_range_elem _ _
             (fun k vlan =>
                VLAN_Link vlan = bondName /\
                adds x ip k (Addresses (VLAN_Common vlan)))).
  2:{ intros k v s. apply guarded_append_elem.
      by rewrite andb_true_iff, String.eqb_eq, Nat.ltb_lt. }
  (* 1. the bond *)
  rewrite (guarded_append_elem _ True) by (rewrite Nat.ltb_lt; tauto).
  rewrite lookup_empty. simpl. rewrite elem_of_nil.
  unfold owns, bridge_with_vlan_on_bond. split.
  - intros [[[[[[[]|(_ & -> & addr & Hin & ->)]
      |(k & vlan & Hv & Hl & -> & addr & Hin & ->)]
      |(k & bridge & Hb & Hm & -> & addr & Hin & ->)]
      |(k & vlan & Hv & Hbr & -> & addr & Hin & ->)]
      |(k & bridge & Hb & (member & Hm & Hvl) & -> & addr & Hin & ->)]
      |(k & tunnel & Ht & Hrel & -> & addr & Hin & ->)];
      exists addr; (split; [|done]).
    + left. eauto.
    + right; left. eauto 6.
    + right; right; left. eauto 6.
    + right; left. eauto 6.
    + right; right; left. exists bridge. split; [done|]. split; [done|].
      right. eauto.
    + right; right; right. eauto.
  - intros (addr & Hown & ->).
    destruct Hown as [(-> & bond' & Hb' & Hin)
                     |[(vlan & Hv & Hin & [Hl|Hbr])
                     |[(bridge & Hb & Hin & [Hmem|(bridge' & member & Hb' & Hmem & Hvl)])
                     |(tunnel & Ht & Hin & Hr)]]].
    + do 5 left. right. rewrite Hbond in Hb'. inversion Hb'; subst. eauto.
    + do 4 left. right. exists x, vlan. eauto 6.
    + do 2 left. right. exists x, vlan. eauto 6.
    + do 3 left. right. exists x, bridge. eauto 6.
    + left. right. exists x, bridge. rewrite Hb in Hb'. inversion Hb'; subst.
      eauto 8.
    + right. exists x, tunnel. eauto 6.
Qed.

Lemma GetBondIPAddresses_values_nonempty (c : Config) (bondName x : string)
    (l : list string) :
  GetBondIPAddresses c bondName !! x = Some l -> l <> [].
Proof.
  unfold GetBondIPAddresses.
  destruct (Bonds (Net c) !! bondName) as [bond|]; [|by rewrite lookup_empty].
  revert x l.
  repeat (apply for_range_nonempty;
          [intros k v s Hs;
           repeat (rewrite for_break_existsb || case_match);
           try exact Hs; by apply append_stripped_nonempty|]).
  destruct (0 <? length (Addresses (Bond_Common bond)))%nat.
  - apply append_stripped_nonempty. intros x l. by rewrite lookup_empty.
  - intros x l. by rewrite lookup_empty.
Qed.

(** X7: for a bond of the document, [GetBondIPAddresses] maps an owner to
    exactly the stripped addresses of the cases of the resolver: the bond,
    the VLANs on it or on a bridge that includes it, the bridges that
    include it or a VLAN on it, and the tunnels whose name is one of
    these.  No key of the result holds an empty list. *)
Theorem GetBondIPAddresses_entries (c : Config) (bondName : string) :
  is_Some (Bonds (Net c) !! bondName) ->
  (forall x ip,
     ip ∈ default [] (GetBondIPAddresses c bondName !! x) <->
     exists addr, owns c bondName x addr /\ ip = stripCIDR addr) /\
  (forall x l, GetBondIPAddresses c bondName !! x = Some l -> l <> []).
Proof.
  intros Hbond. split.
  - intros x ip. by apply elem_of_GetBondIPAddresses.
  - apply GetBondIPAddresses_values_nonempty.
Qed.

End Unmasked.

Section MaskedUnmasked.
Import Netplan Reference.
Context `{RangeOrder}.
Variable parseIPv6 : string -> option (list Z * string).

(** X8: the two resolvers agree: every masked address is also reported
    without its mask under the same owner, and an address reported
    without mask is missing from the masked list only when it does not
    parse as CIDR. *)
Theorem masked_and_unmasked_agree (c : Config) (bondName : string) :
  is_Some (Bonds (Net c) !! bondName) ->
  (forall e,
     e ∈ GetBondIPAddressesWithMask parseIPv6 c bondName ->
     IP e ∈ default [] (GetBondIPAddresses c bondName !! BondName e)) /\
  (forall x ip,
     ip ∈ default [] (GetBondIPAddresses c bondName !! x) ->
     exists addr,
       ip = stripCIDR addr /\
       (GoNet.ParseCIDR parseIPv6 addr = None \/
        exists e, e ∈ GetBondIPAddressesWithMask parseIPv6 c bondName /\
                  CIDR e = addr /\ IP e = ip /\ BondName e = x)).
Proof.
  intros Hbond. split.
  - intros e He.
    apply elem_of_GetBondIPAddressesWithMask in He
      as (x & addr & ip & ipNet & Hown & _ & ->); [|done].
    simpl. apply elem_of_GetBondIPAddresses; [done|]. eauto.
  - intros x ip Hip.
    apply elem_of_GetBondIPAddresses in Hip as (addr & Hown & ->); [|done].
    exists addr. split; [done|].
    destruct (GoNet.ParseCIDR parseIPv6 addr) as [[ip ipNet]|] eqn:Hp;
      [right|by left].
    exists {| IP := stripCIDR addr; CIDR := addr; IPNet := ipNet; BondName := x |}.
    split; [|done]. apply elem_of_GetBondIPAddressesWithMask; [done|]. eauto 8.
Qed.

(** X9: no entry of the masked list comes from an address without ['/']:
    the addresses validation flags as lacking a mask are the ones the
    matcher could never use. *)
Theorem masked_entries_have_mask (c : Config) (bondName : string) (e : IPWithMask) :
  e ∈ GetBondIPAddressesWithMask parseIPv6 c bondName ->
  Bytes.contains_byte "/" (CIDR e) = true /\ IP e = stripCIDR (CIDR e) /\
  exists ip, GoNet.ParseCIDR parseIPv6 (CIDR e) = Some (ip, IPNet e).
Proof.
  intros He.
  destruct (Bonds (Net c) !! bondName) as [bond|] eqn:Hbond.
  - apply elem_of_GetBondIPAddressesWithMask in He
      as (x & addr & ip & ipNet & _ & Hp & ->); [|by eexists].
    simpl. split; [|split; [done|by exists ip]].
    unfold GoNet.ParseCIDR in Hp. unfold Bytes.contains_byte.
    by destruct (Bytes.index_byte "/" addr).
  - unfold GetBondIPAddressesWithMask in He. rewrite Hbond in He.
    by apply elem_of_nil in He.
Qed.

End MaskedUnmasked.

Section UnmaskedWitnesses.
Import Netplan Reference Examples.

Lemma GetBondIPAddresses_entries_witness :
  is_Some (Bonds (Net three_interfaces) !! "bond0"%string) /\
  (forall x l, GetBondIPAddresses three_interfaces "bond0" !! x = Some l ->
               l <> []).
Proof.
  assert (is_Some (Bonds (Net three_interfaces) !! "bond0"%string)) as Hbond
    by (eexists; reflexivity).
  split; [exact Hbond|].
  exact (proj2 (GetBondIPAddresses_entries three_interfaces "bond0" Hbond)).
Defined.

Lemma masked_and_unmasked_agree_witness :
  is_Some (Bonds (Net three_interfaces) !! "bond0"%string) /\
  (forall e,
     e ∈ GetBondIPAddressesWithMask no_parseIPv6 three_interfaces "bond0" ->
     IP e ∈ default [] (GetBondIPAddresses three_interfaces "bond0"
                          !! BondName e)).
Proof.
  assert (is_Some (Bonds (Net three_interfaces) !! "bond0"%string)) as Hbond
    by (eexists; reflexivity).
  split; [exact Hbond|].
  exact (proj1 (masked_and_unmasked_agree no_parseIPv6 three_interfaces
                  "bond0" Hbond)).
Defined.

Lemma masked_entries_have_mask_witness :
  {| IP := "172.16.1.1"; CIDR := "172.16.1.1/24";
     IPNet := GoNet.mkIPNet [172; 16; 1; 0] [255; 255; 255; 0];
     BondName := "br0" |}
    ∈ GetBondIPAddressesWithMask no_parseIPv6 three_interfaces "bond0" /\
  Bytes.contains_byte "/" "172.16.1.1/24" = true.
Proof.
  assert ({| IP := "172.16.1.1"; CIDR := "172.16.1.1/24";
             IPNet := GoNet.mkIPNet [172; 16; 1; 0] [255; 255; 255; 0];
             BondName := "br0" |}
            ∈ GetBondIPAddressesWithMask no_parseIPv6 three_interfaces "bond0")
    as Hin.
  { vm_compute. do 2 apply list_elem_of_further. apply list_elem_of_here. }
  split; [exact Hin|].
  exact (proj1 (masked_entries_have_mask no_parseIPv6 three_interfaces "bond0"
                  _ Hin)).
Defined.

End UnmaskedWitnesses.

(** ** The loader reports the first document that fails *)

Section LoaderErrors.
Import Netplan Reference.

Lemma load_files_first_failure (fs : FileSystem) (good rest : list string)
    (bad e : string) (acc : list Config) :
  Forall (fun file => exists config, LoadConfig fs file = Ok config) good ->
  LoadConfig fs bad = Err e ->
  load_files fs (good ++ bad :: rest) acc =
  Err ("failed to load config from " +:+ bad +:+ ": " +:+ e).
Proof.
  intros Hgood Hbad. revert acc.
  induction Hgood as [|file good [config Hc] _ IH]; intros acc; simpl.
  - by rewrite Hbad.
  - rewrite Hc. apply IH.
Qed.

(** X10: when both enumerations of a directory succeed, the error of
    [LoadNetplanConfigsFromDir] names the first document, in the order
    [*.yaml] then [*.yml], that does not load, and carries the error of
    that document; what comes after it is not looked at. *)
Theorem LoadNetplanConfigsFromDir_first_failure (fs : FileSystem)
    (dir : string) (files ymlFiles good rest : list string) (bad e : string) :
  Glob fs (Join dir "*.yaml") = Ok files ->
  Glob fs (Join dir "*.yml") = Ok ymlFiles ->
  files ++ ymlFiles = good ++ bad :: rest ->
  Forall (fun file => exists config, LoadConfig fs file = Ok config) good ->
  LoadConfig fs bad = Err e ->
  LoadNetplanConfigsFromDir fs dir =
  Err ("failed to load config from " +:+ bad +:+ ": " +:+ e).
Proof.
  intros Hyaml Hyml Hsplit Hgood Hbad. unfold LoadNetplanConfigsFromDir.
  rewrite Hyaml, Hyml, Hsplit. by apply load_files_first_failure.
Qed.

End LoaderErrors.

Section LoaderErrorsWitnesses.
Import Netplan Examples.

Lemma LoadNetplanConfigsFromDir_first_failure_witness :
  Glob good_and_bad (Join "/etc/netplan" "*.yaml") =
    Ok ["/etc/netplan/01-good.yaml"; "/etc/netplan/02-bad.yaml"]%string /\
  Glob good_and_bad (Join "/etc/netplan" "*.yml") = Ok [] /\
  LoadNetplanConfigsFromDir good_and_bad "/etc/netplan" =
  Err ("failed to load config from /etc/netplan/02-bad.yaml: "
       +:+ "failed to unmarshal YAML: yaml: line 1: did not find expected key").
Proof.
  split; [reflexivity|]. split; [reflexivity|].
  apply (LoadNetplanConfigsFromDir_first_failure good_and_bad "/etc/netplan"
           ["/etc/netplan/01-good.yaml"; "/etc/netplan/02-bad.yaml"]%string []
           ["/etc/netplan/01-good.yaml"%string] []
           "/etc/netplan/02-bad.yaml").
  - reflexivity.
  - reflexivity.
  - reflexivity.
  - constructor; [|constructor]. exists three_interfaces. reflexivity.
  - reflexivity.
Defined.

End LoaderErrorsWitnesses.

(** ** Documents without findings, and the list of interface names *)

Section ValidDocuments.
Import Bytes Netplan Validity.
Context `{RangeOrder}.

Lemma bind_eq_nil {A B : Type} (f : A -> list B) (l : list A) :
  l ≫= f = [] <-> Forall (fun x => f x = []) l.
Proof.
  induction l as [|x l IH]; [by split; [constructor|]|].
  rewrite bind_cons, Forall_cons. split.
  - intros Happ. apply app_eq_nil in Happ as [Hx Hl]. split; [done|].
    by apply IH.
  - intros [Hx Hl]. rewrite Hx. simpl. by apply IH.
Qed.

Lemma range_bind_nil {V B : Type} (m : gmap string V)
    (g : string * V -> list B) :
  range m ≫= g = [] <-> forall k v, m !! k = Some v -> g (k, v) = [].
Proof.
  rewrite bind_eq_nil, Forall_forall. split.
  - intros Hall k v Hkv. apply (Hall (k, v)). by apply elem_of_range.
  - intros Hall [k v] Hkv. apply Hall. by apply elem_of_range.
Qed.

Lemma validateInterfaceName_None (name : string) :
  validateInterfaceName name = None <-> valid_name name.
Proof.
  unfold validateInterfaceName, valid_name.
  destruct (String.eqb_spec name ""); [split; [done|tauto]|].
  destruct (Nat.ltb_spec 15 (String.length name)).
  - split; [done|]. intros [_ Hlen]. lia.
  - split; [|done]. intros _. split; [done|lia].
Qed.

Lemma validateCommonInterface_nil (iface : CommonInterface) :
  validateCommonInterface iface = [] <-> valid_common iface.
Proof.
  unfold validateCommonInterface, valid_common.
  rewrite (for_each_app
             (fun addr => if negb (contains_byte "/" addr)
                          then [AddressWithoutMask addr] else []))
    by (intros addr s; destruct (negb _); by rewrite ?app_nil_r).
  rewrite app_nil_l.
  assert (Haddr : (Addresses iface ≫=
                     (fun addr => if negb (contains_byte "/" addr)
                                  then [AddressWithoutMask addr] else [])) = []
                  <-> Forall (fun addr => contains_byte "/" addr = true)
                        (Addresses iface)).
  { rewrite bind_eq_nil. apply Forall_iff. intros addr.
    destruct (contains_byte "/" addr); simpl; split; done. }
  destruct (negb (MTU iface =? 0) && ((MTU iface <? 68) || (MTU iface >? 65536)))
    eqn:Hmtu.
  - split.
    + intros Hnil. by apply app_eq_nil in Hnil as [_ ?].
    + intros [_ Hm]. exfalso.
      apply andb_true_iff in Hmtu as [Hz Hr].
      apply negb_true_iff, Z.eqb_neq in Hz.
      apply orb_true_iff in Hr as [Hr|Hr]; [apply Z.ltb_lt in Hr|
        rewrite Z.gtb_ltb in Hr; apply Z.ltb_lt in Hr]; lia.
  - rewrite Haddr. split; [|tauto]. intros Ha. split; [done|].
    apply andb_false_iff in Hmtu as [Hz|Hr].
    + apply negb_false_iff, Z.eqb_eq in Hz. by left.
    + apply orb_false_iff in Hr as [Hlo Hhi]. right.
      apply Z.ltb_ge in Hlo. rewrite Z.gtb_ltb in Hhi. apply Z.ltb_ge in Hhi.
      lia.
Qed.

Lemma validate_entry_nil (kind name : string) (common : CommonInterface) :
  validate_entry kind name common [] = [] <->
  valid_name name /\ valid_common common.
Proof.
  rewrite <- validateInterfaceName_None, <- validateCommonInterface_nil.
  unfold validate_entry.
  destruct (validateInterfaceName name) as [err|].
  - split; [|by intros [? _]].
    destruct (0 <? length (validateCommonInterface common))%nat.
    + rewrite (for_each_app (fun err => [Wrapped kind name err])) by done.
      intros Hnil. by apply app_eq_nil in Hnil as [? _].
    + done.
  - destruct (validateCommonInterface common) as [|err errs]; [done|].
    simpl. rewrite (for_each_app (fun err => [Wrapped kind name err])) by done.
    split; [done|]. by intros [_ ?].
Qed.

Lemma validate_vlan_nil (name : string) (vlan : VLAN) :
  validate_vlan name vlan [] = [] <-> valid_vlan name vlan.
Proof.
  unfold valid_vlan. rewrite <- validateInterfaceName_None.
  unfold validate_vlan.
  destruct (validateInterfaceName name) as [err|].
  - split; [|by intros [? _]].
    destruct ((VLAN_ID vlan <? 1) || (VLAN_ID vlan >? 4094));
      destruct (String.eqb (VLAN_Link vlan) ""); done.
  - destruct ((VLAN_ID vlan <? 1) || (VLAN_ID vlan >? 4094)) eqn:Hid.
    + split.
      * destruct (String.eqb (VLAN_Link vlan) ""); done.
      * intros (_ & Hr & _). exfalso.
        apply orb_true_iff in Hid as [Hid|Hid]; [apply Z.ltb_lt in Hid|
          rewrite Z.gtb_ltb in Hid; apply Z.ltb_lt in Hid]; lia.
    + apply orb_false_iff in Hid as [Hlo Hhi].
      apply Z.ltb_ge in Hlo. rewrite Z.gtb_ltb in Hhi. apply Z.ltb_ge in Hhi.
      destruct (String.eqb_spec (VLAN_Link vlan) "") as [Hl|Hl].
      * split; [done|]. by intros (_ & _ & ?).
      * split; [|done]. intros _. split; [done|]. split; [lia|done].
Qed.

Lemma renderer_accepted (renderer : string) :
  (if negb (String.eqb renderer "") then
     if negb (for_break validRenderers
                (fun r => String.eqb renderer r) (fun _ => true) false)
     then [InvalidRenderer renderer] else []
   else []) = [] <->
  renderer ∈ [""; "networkd"; "NetworkManager"]%string.
Proof.
  rewrite for_break_existsb. unfold validRenderers. simpl.
  rewrite !elem_of_cons, elem_of_nil.
  destruct (String.eqb_spec renderer ""); simpl; [tauto|].
  destruct (String.eqb_spec renderer "networkd"); simpl; [tauto|].
  destruct (String.eqb_spec renderer "NetworkManager"); simpl; [tauto|].
  split; [done|]. intros [?|[?|[?|[]]]]; done.
Qed.

Lemma Validate_nil_sections (c : Config) :
  Validate c = [] <->
  Version (Net c) = 2 /\
  Renderer (Net c) ∈ [""; "networkd"; "NetworkManager"]%string /\
  (forall k v, Ethernets (Net c) !! k = Some v ->
               validate_entry "ethernet" k (Ethernet_Common v) [] = []) /\
  (forall k v, Wifis (Net c) !! k = Some v ->
               validate_entry "wifi" k (Wifi_Common v) [] = []) /\
  (forall k v, Bridges (Net c) !! k = Some v ->
               validate_entry "bridge" k (Bridge_Common v) [] = []) /\
  (forall k v, Bonds (Net c) !! k = Some v ->
               validate_entry "bond" k (Bond_Common v) [] = []) /\
  (forall k v, VLANs (Net c) !! k = Some v -> validate_vlan k v [] = []).
Proof.
  rewrite Validate_parts.
  rewrite !app_nil, renderer_accepted, !range_bind_nil. simpl.
  assert (Hver : (if negb (Version (Net c) =? 2)
                  then [UnsupportedVersion (Version (Net c))] else []) = []
                 <-> Version (Net c) = 2).
  { destruct (Z.eqb_spec (Version (Net c)) 2); simpl; split; done. }
  rewrite Hver. reflexivity.
Qed.

Lemma valid_section_entries {V : Type} (kind : string)
    (common : V -> CommonInterface) (m : gmap string V) :
  (forall k v, m !! k = Some v -> validate_entry kind k (common v) [] = [])
  <-> valid_section common m.
Proof.
  unfold valid_section.
  split; intros Hall k v Hkv; apply (validate_entry_nil kind); by apply Hall.
Qed.

Lemma valid_vlan_entries (m : gmap string VLAN) :
  (forall k v, m !! k = Some v -> validate_vlan k v [] = [])
  <-> (forall name vlan, m !! name = Some vlan -> valid_vlan name vlan).
Proof.
  split; intros Hall k v Hkv; apply validate_vlan_nil; by apply Hall.
Qed.

(** X11: [Validate] has no finding exactly for the documents that have
    version 2, a renderer that is empty, [networkd] or [NetworkManager],
    in the ethernet, wifi, bridge and bond sections only names of 1 to 15
    bytes, addresses that contain a [/] and an MTU that is 0 or within
    68..65536, and in the VLAN section only names of 1 to 15 bytes, ids
    within 1..4094 and a non-empty link.  The addresses and the MTU of a
    VLAN, and the tunnel, VRF and modem sections, are not looked at. *)
Theorem Validate_nil_iff (c : Config) :
  Validate c = [] <-> valid_document c.
Proof.
  rewrite Validate_nil_sections. unfold valid_document.
  rewrite (valid_section_entries "ethernet" Ethernet_Common),
    (valid_section_entries "wifi" Wifi_Common),
    (valid_section_entries "bridge" Bridge_Common),
    (valid_section_entries "bond" Bond_Common), valid_vlan_entries.
  reflexivity.
Qed.

Lemma length_range {V : Type} (m : gmap string V) :
  length (range m) = size m.
Proof. rewrite range_perm. apply length_map_to_list. Qed.

Lemma length_append_keys {V : Type} (m : gmap string V) (names : list string) :
  length (append_keys m names) = (length names + size m)%nat.
Proof.
  unfold append_keys.
  rewrite (for_range_app (fun name _ => [name])) by done.
  rewrite length_app. f_equal. rewrite <- length_range.
  induction (range m) as [|kv l IH]; [done|]. rewrite bind_cons. simpl.
  by rewrite IH.
Qed.

(** X12: [GetInterfaceNames] lists one name per entry of the eight
    sections: its length is the sum of their sizes, so a name that is
    defined in two sections is listed twice. *)
Theorem GetInterfaceNames_length (c : Config) :
  length (GetInterfaceNames c) =
  (size (Ethernets (Net c)) + size (Wifis (Net c)) + size (Bridges (Net c))
   + size (Bonds (Net c)) + size (VLANs (Net c)) + size (Tunnels (Net c))
   + size (VRFs (Net c)) + size (Modems (Net c)))%nat.
Proof.
  unfold GetInterfaceNames. rewrite !length_append_keys. simpl. lia.
Qed.

End ValidDocuments.

(** ** What a run of the connectivity tests can count *)

Section RunBounds.
Import Netplan Agent Reference.
Context `{RangeOrder}.
Context {W : Type}.
Variable parseIPv6 : string -> option (list Z * string).
Variable run_arping : string -> string -> W -> option string * Z * W.
Variable http_get : string -> W -> result Z * Z * W.
Variable http_post : string -> TestResultPayload -> W -> result Z * W.
Variable time_now : W -> Z.

Local Abbreviation testConnectivity := (testConnectivity run_arping http_get).
Local Abbreviation SubmitSingleTestResult :=
  (SubmitSingleTestResult http_post time_now).
Local Abbreviation test_target :=
  (test_target parseIPv6 run_arping http_get http_post time_now).
Local Abbreviation RunConnectivityTests :=
  (RunConnectivityTests parseIPv6 run_arping http_get http_post time_now).

Lemma testConnectivity_length (a : Agent)
    (targetHostname targetIP bondName sourceIP sourceInterface : string)
    (w : W) :
  length (testConnectivity a targetHostname targetIP bondName sourceIP
            sourceInterface w).1 = 2%nat.
Proof.
  unfold Agent.testConnectivity.
  destruct (run_arping sourceInterface targetIP w) as [[arpErr arpElapsed] w1].
  destruct (http_get _ w1) as [[resp httpElapsed] w2]. done.
Qed.

Lemma submit_loop_bound (a : Agent) (results : list TestResult) (st : Z * W) :
  st.1 <=
  (for_each results
     (fun result '(testCount, w) =>
        match SubmitSingleTestResult a result w with
        | (Some _, w) => (testCount, w)
        | (None, w) => (testCount + 1, w)
        end) st).1
  <= st.1 + Z.of_nat (length results).
Proof.
  unfold for_each. revert st.
  induction results as [|r results IH]; intros [n w]; simpl; [lia|].
  destruct (SubmitSingleTestResult a r w) as [[e|] w'].
  - specialize (IH (n, w')). simpl in IH. lia.
  - specialize (IH (n + 1, w')). simpl in IH. lia.
Qed.

Lemma test_target_bound (a : Agent) (myIPs : list IPWithMask)
    (targetHostname bondName targetIP : string) (st : Z * W) :
  st.1 <= (test_target a myIPs targetHostname bondName targetIP st).1
       <= st.1 + 2.
Proof.
  unfold Agent.test_target.
  destruct (find_local parseIPv6 myIPs targetIP) as [[inSame ip] iface].
  destruct inSame; simpl; [|lia].
  pose proof (testConnectivity_length a targetHostname targetIP bondName ip
                iface st.2) as Hlen.
  destruct (testConnectivity a targetHostname targetIP bondName ip iface st.2)
    as [results w]. simpl in Hlen.
  pose proof (submit_loop_bound a results (st.1, w)) as Hb. simpl in Hb.
  rewrite Hlen in Hb. exact Hb.
Qed.

(** X13: the count that [RunConnectivityTests] returns is never negative
    and never more than twice the number of target addresses of the
    request: each address adds at most its two probes. *)
Theorem RunConnectivityTests_count_bound (a : Agent) (fs : FileSystem)
    (targets : gmap string TargetInfo) (w : W) :
  0 <= (RunConnectivityTests a fs targets w).1
    <= 2 * Z.of_nat (length (target_triples targets)).
Proof.
  rewrite (RunConnectivityTests_triples parseIPv6 run_arping http_get
             http_post time_now).
  generalize (getBondIPAddressesWithMask parseIPv6 fs). intros myIPs.
  assert (Hgen : forall triples (st : Z * W),
             st.1 <= (foldl (fun st t => test_target a myIPs t.1.1 t.1.2 t.2 st)
                        st triples).1
                  <= st.1 + 2 * Z.of_nat (length triples)).
  { induction triples as [|t triples IH]; intros st; simpl foldl; [simpl; lia|].
    pose proof (test_target_bound a myIPs t.1.1 t.1.2 t.2 st) as Hb.
    specialize (IH (test_target a myIPs t.1.1 t.1.2 t.2 st)).
    simpl length. lia. }
  specialize (Hgen (target_triples targets) (0, w)). simpl in Hgen. lia.
Qed.

Lemma test_target_no_local (a : Agent) (myIPs : list IPWithMask)
    (targetHostname bondName targetIP : string) (st : Z * W) :
  Forall (fun my => InSameSubnet parseIPv6 (CIDR my) targetIP = false) myIPs ->
  test_target a myIPs targetHostname bondName targetIP st = st.
Proof.
  intros Hall. unfold Agent.test_target.
  by rewrite (find_local_none parseIPv6 myIPs targetIP Hall).
Qed.

(** X14: a run in which no target address of the request lies in the
    subnet of a local bond-related address probes nothing and submits
    nothing: the count is 0 and the world is left as it was.  This is so
    in particular when the load of [/etc/netplan] fails. *)
Theorem RunConnectivityTests_nothing_reachable (a : Agent) (fs : FileSystem)
    (targets : gmap string TargetInfo) (w : W) :
  (forall h info b ips ip my,
     targets !! h = Some info -> Links info !! b = Some ips -> ip ∈ ips ->
     my ∈ getBondIPAddressesWithMask parseIPv6 fs ->
     InSameSubnet parseIPv6 (CIDR my) ip = false) ->
  RunConnectivityTests a fs targets w = (0, w).
Proof.
  intros Hfar.
  rewrite (RunConnectivityTests_triples parseIPv6 run_arping http_get
             http_post time_now).
  assert (Hall : forall t, t ∈ target_triples targets ->
             Forall (fun my => InSameSubnet parseIPv6 (CIDR my) t.2 = false)
               (getBondIPAddressesWithMask parseIPv6 fs)).
  { intros [[h b] ip] Ht. apply elem_of_target_triples in Ht
      as (info & ips & Hh & Hb & Hip).
    apply Forall_forall. intros my Hmy. simpl. eauto. }
  revert Hall. generalize (target_triples targets). intros triples.
  induction triples as [|t triples IH]; intros Hall; [done|]. simpl.
  rewrite test_target_no_local by (apply Hall; apply list_elem_of_here).
  apply IH. intros t' Ht'. apply Hall. by apply list_elem_of_further.
Qed.

(** X15: when the load of [/etc/netplan] fails, or the request has no
    targets, [RunConnectivityTests] returns 0 and touches nothing. *)
Theorem RunConnectivityTests_without_addresses (a : Agent) (fs : FileSystem)
    (targets : gmap string TargetInfo) (w : W) :
  (exists e, LoadNetplanConfigsFromDir fs "/etc/netplan" = Err e) \/
  targets = ∅ ->
  RunConnectivityTests a fs targets w = (0, w).
Proof.
  intros [[e He]| ->].
  - rewrite (RunConnectivityTests_triples parseIPv6 run_arping http_get
               http_post time_now).
    unfold getBondIPAddressesWithMask. rewrite He.
    induction (target_triples targets) as [|t triples IH]; [done|]. simpl.
    by rewrite test_target_no_local by constructor.
  - unfold Agent.RunConnectivityTests, for_range. by rewrite range_empty.
Qed.

End RunBounds.

Section RunBoundsWitnesses.
Import Netplan Agent Examples.

Lemma RunConnectivityTests_nothing_reachable_witness :
  (forall h info b ips ip my,
     ({["server-c"%string :=
          {| Links := {["bond0"%string := ["10.0.0.5"%string]]} |}]}
        : gmap string TargetInfo) !! h = Some info ->
     Links info !! b = Some ips -> ip ∈ ips ->
     my ∈ getBondIPAddressesWithMask no_parseIPv6 agent_fs ->
     InSameSubnet no_parseIPv6 (CIDR my) ip = false) /\
  RunConnectivityTests (W := unit) no_parseIPv6
    (fun _ _ w => (None, 3, w)) (fun _ w => (Ok 200, 5, w))
    (fun _ _ w => (Ok 201, w)) (fun _ => 0)
    {| aggregatorURL := "http://aggregator:8080"; hostname := "server-a" |}
    agent_fs
    {["server-c"%string :=
        {| Links := {["bond0"%string := ["10.0.0.5"%string]]} |}]} tt
  = (0, tt).
Proof.
  assert (Hfar : forall h info b ips ip my,
     ({["server-c"%string :=
          {| Links := {["bond0"%string := ["10.0.0.5"%string]]} |}]}
        : gmap string TargetInfo) !! h = Some info ->
     Links info !! b = Some ips -> ip ∈ ips ->
     my ∈ getBondIPAddressesWithMask no_parseIPv6 agent_fs ->
     InSameSubnet no_parseIPv6 (CIDR my) ip = false).
  { intros h info b ips ip my Hh Hb Hip Hmy.
    apply lookup_singleton_Some in Hh as [_ <-]. simpl in Hb.
    apply lookup_singleton_Some in Hb as [_ <-].
    apply list_elem_of_singleton in Hip as ->.
    rewrite agent_fs_addresses in Hmy.
    apply list_elem_of_singleton in Hmy as ->. vm_compute. reflexivity. }
  split; [exact Hfar|].
  exact (RunConnectivityTests_nothing_reachable no_parseIPv6 _ _ _ _ _ _ _ tt
           Hfar).
Defined.

Lemma RunConnectivityTests_without_addresses_witness :
  ((exists e,
      LoadNetplanConfigsFromDir
        {| Glob := fun _ => Err "permission denied";
           ReadFile := fun _ => Err "no such file";
           Unmarshal := fun _ => Err "not decoded" |} "/etc/netplan" = Err e) \/
   scenario_targets = ∅) /\
  RunConnectivityTests (W := unit) no_parseIPv6
    (fun _ _ w => (None, 3, w)) (fun _ w => (Ok 200, 5, w))
    (fun _ _ w => (Ok 201, w)) (fun _ => 0)
    {| aggregatorURL := "http://aggregator:8080"; hostname := "server-a" |}
    {| Glob := fun _ => Err "permission denied";
       ReadFile := fun _ => Err "no such file";
       Unmarshal := fun _ => Err "not decoded" |}
    scenario_targets tt
  = (0, tt).
Proof.
  assert (Hload : (exists e,
      LoadNetplanConfigsFromDir
        {| Glob := fun _ => Err "permission denied";
           ReadFile := fun _ => Err "no such file";
           Unmarshal := fun _ => Err "not decoded" |} "/etc/netplan" = Err e) \/
   scenario_targets = ∅).
  { left. eexists. reflexivity. }
  split; [exact Hload|].
  exact (RunConnectivityTests_without_addresses no_parseIPv6 _ _ _ _ _ _ _ tt
           Hload).
Defined.

End RunBoundsWitnesses.

(** ** The trigger response when agents fail or stay silent *)

Section TriggerBalance.
Import Agent Aggregator Reference.
Context `{RangeOrder}.
Variable unmarshalBonds : string -> option (gmap string (list string)).
Variable http_post : string -> TestRequest -> result Z.

Local Abbreviation handleRunTests := (handleRunTests unmarshalBonds http_post).

Ltac lookup_fields :=
  repeat (rewrite lookup_insert_ne by done);
  rewrite ?lookup_insert_eq, ?lookup_empty.

(** X16: with at least one registered agent, the trigger response always
    has status [success]; its [count] lies between 0 and the number of
    registered agents; and it has no [failed_agents] entry exactly when
    every registered agent acknowledged the trigger in time, that is,
    when [count] equals that number. *)
Theorem trigger_response_balance (db : DB) (servers : list Server)
    (arrivals : list nat) :
  GetAllServers db = Ok servers ->
  servers <> [] ->
  exists body count,
    handleRunTests db arrivals = JSON body /\
    body !! "status"%string = Some (JStr "success") /\
    body !! "count"%string = Some (JInt count) /\
    0 <= count <= Z.of_nat (length servers) /\
    (body !! "failed_agents"%string = None <->
     count = Z.of_nat (length servers)).
Proof.
  intros Hdb Hne.
  unfold Aggregator.handleRunTests. rewrite Hdb.
  destruct servers as [|s0 servers']; [done|].
  remember (s0 :: servers') as servers eqn:Hservers.
  replace (length servers =? 0)%nat with false
    by (subst servers; reflexivity).
  rewrite collect_spec.
  set (received := take (length servers) _). simpl.
  assert (length received <= length servers)%nat as Hlen
    by (unfold received; rewrite length_take; lia).
  pose proof (filter_success_length received) as Hsum.
  assert (Hcount : 0 <= acknowledged received <= Z.of_nat (length servers))
    by (unfold acknowledged; lia).
  destruct (reported_failures (length servers) received) as [|f failed] eqn:Hrep.
  - simpl. eexists _, _. split; [reflexivity|].
    split; [by lookup_fields|]. split; [by lookup_fields|]. split; [exact Hcount|].
    split; [intros _|by lookup_fields].
    unfold reported_failures in Hrep. apply app_eq_nil in Hrep as [Hf Ht].
    apply fmap_nil_inv in Hf. rewrite Hf in Hsum. simpl in Hsum.
    destruct (length received <? length servers)%nat eqn:Hlt; [done|].
    apply Nat.ltb_ge in Hlt. unfold acknowledged. lia.
  - simpl. eexists _, _. split; [reflexivity|].
    split; [by lookup_fields|]. split; [by lookup_fields|]. split; [exact Hcount|].
    split; [by lookup_fields|]. intros Hall. exfalso.
    unfold acknowledged in Hall.
    assert (Hnone : filter (fun r => tr_success r = false) received = []).
    { apply length_zero_iff_nil. lia. }
    unfold reported_failures in Hrep. rewrite Hnone in Hrep. simpl in Hrep.
    destruct (length received <? length servers)%nat eqn:Hlt; [|done].
    apply Nat.ltb_lt in Hlt. lia.
Qed.

End TriggerBalance.

Section TriggerBalanceWitnesses.
Import Agent Aggregator Examples.

Lemma trigger_response_balance_witness :
  GetAllServers three_servers = Ok [server_a; server_b; server_c] /\
  [server_a; server_b; server_c] <> [] /\
  exists body,
    handleRunTests decode_braces all_accept three_servers [0; 2; 1]%nat
      = JSON body /\
    body !! "status"%string = Some (JStr "success").
Proof.
  split; [reflexivity|]. split; [discriminate|].
  destruct (trigger_response_balance decode_braces all_accept three_servers
              [server_a; server_b; server_c] [0; 2; 1]%nat eq_refl)
    as (body & count & Hbody & Hstatus & _); [discriminate|].
  exists body. split; [exact Hbody|exact Hstatus].
Defined.

End TriggerBalanceWitnesses.

(** ** Order of arrival at the coordinator *)

Section ArrivalOrder.
Import Agent Aggregator Reference.
Context `{RangeOrder}.
Variable unmarshalBonds : string -> option (gmap string (list string)).
Variable http_post : string -> TestRequest -> result Z.

Local Abbreviation build_allTargets := (build_allTargets unmarshalBonds).
Local Abbreviation dispatch := (dispatch http_post).
Local Abbreviation handleRunTests := (handleRunTests unmarshalBonds http_post).

Ltac lookup_fields :=
  repeat (rewrite lookup_insert_ne by done);
  rewrite ?lookup_insert_eq, ?lookup_empty.

Lemma omap_Permutation {A B : Type} (f : A -> option B) (l l' : list A) :
  l ≡ₚ l' -> omap f l ≡ₚ omap f l'.
Proof.
  induction 1 as [|x l l' _ IH|x y l|l l' l'' _ IH1 _ IH2]; csimpl.
  - done.
  - destruct (f x); by rewrite IH.
  - destruct (f x), (f y); try done. apply perm_swap.
  - by etrans.
Qed.

Lemma length_omap_le {A B : Type} (f : A -> option B) (l : list A) :
  (length (omap f l) <= length l)%nat.
Proof.
  induction l as [|x l IH]; csimpl; [done|]. destruct (f x); csimpl; lia.
Qed.

(** X17: the order in which the acknowledgements reach the coordinator
    does not matter.  For two runs in which the same triggers are
    received before the timer fires, in any two orders, the response
    carries the same [count], the same [total] and the same [message],
    and the [failed_agents] lists, when there are any, have the same
    entries. *)
Theorem trigger_response_order_independent (db : DB) (servers : list Server)
    (arrivals arrivals' : list nat) :
  GetAllServers db = Ok servers ->
  servers <> [] ->
  arrivals ≡ₚ arrivals' ->
  (length arrivals <= length servers)%nat ->
  exists body body',
    handleRunTests db arrivals = JSON body /\
    handleRunTests db arrivals' = JSON body' /\
    body !! "count"%string = body' !! "count"%string /\
    body !! "total"%string = body' !! "total"%string /\
    body !! "message"%string = body' !! "message"%string /\
    match body !! "failed_agents"%string, body' !! "failed_agents"%string with
    | None, None => True
    | Some (JStrs failed), Some (JStrs failed') => failed ≡ₚ failed'
    | _, _ => False
    end.
Proof.
  intros Hdb Hne Hperm Hlen.
  unfold Aggregator.handleRunTests. rewrite Hdb.
  destruct servers as [|s0 servers']; [done|].
  remember (s0 :: servers') as servers eqn:Hservers.
  replace (length servers =? 0)%nat with false
    by (subst servers; reflexivity).
  rewrite !collect_spec.
  set (sent := dispatch servers (build_allTargets servers)).
  pose proof (omap_Permutation (fun k => sent !! k) _ _ Hperm) as Hrecv.
  pose proof (length_omap_le (fun k => sent !! k) arrivals) as Hl.
  pose proof (length_omap_le (fun k => sent !! k) arrivals') as Hl'.
  pose proof (Permutation_length Hperm) as Hsame.
  rewrite !take_ge by lia.
  set (received := omap (fun k => sent !! k) arrivals) in *.
  set (received' := omap (fun k => sent !! k) arrivals') in *.
  assert (Hack : acknowledged received = acknowledged received')
    by (unfold acknowledged; f_equal; apply Permutation_length;
        apply filter_Permutation, Hrecv).
  assert (Hrep : reported_failures (length servers) received
                 ≡ₚ reported_failures (length servers) received')
    by (unfold reported_failures; rewrite (Permutation_length Hrecv);
        apply Permutation_app; [|done];
        apply fmap_Permutation, filter_Permutation, Hrecv).
  pose proof (Permutation_length Hrep) as Hreplen.
  clearbody received received'. simpl. rewrite <- Hack.
  destruct (reported_failures (length servers) received) as [|f failed];
    destruct (reported_failures (length servers) received') as [|f' failed'];
    try done; simpl.
  - eexists _, _. split; [reflexivity|]. split; [reflexivity|].
    split; [by lookup_fields|]. split; [by lookup_fields|]. split; [by lookup_fields|]. by lookup_fields.
  - eexists _, _. split; [reflexivity|]. split; [reflexivity|].
    split; [by lookup_fields|]. split; [by lookup_fields|].
    split; [lookup_fields; simpl in Hreplen; by rewrite Hreplen|]. by lookup_fields.
Qed.

End ArrivalOrder.

Section ArrivalOrderWitnesses.
Import Agent Aggregator Examples.

Lemma trigger_response_order_independent_witness :
  GetAllServers three_servers = Ok [server_a; server_b; server_c] /\
  [server_a; server_b; server_c] <> [] /\
  [0; 2]%nat ≡ₚ [2; 0]%nat /\
  (length [0; 2]%nat <= length [server_a; server_b; server_c])%nat /\
  exists body body',
    handleRunTests decode_braces all_accept three_servers [0; 2]%nat
      = JSON body /\
    handleRunTests decode_braces all_accept three_servers [2; 0]%nat
      = JSON body' /\
    body !! "count"%string = body' !! "count"%string.
Proof.
  split; [reflexivity|]. split; [discriminate|].
  split; [apply perm_swap|]. split; [simpl; lia|].
  destruct (trigger_response_order_independent decode_braces all_accept
              three_servers [server_a; server_b; server_c] [0; 2]%nat
              [2; 0]%nat eq_refl)
    as (body & body' & Hb & Hb' & Hcount & _);
    [discriminate|apply perm_swap|simpl; lia|].
  exists body, body'. split; [exact Hb|]. split; [exact Hb'|exact Hcount].
Defined.

End ArrivalOrderWitnesses.

(** ** Owners of the returned addresses and the listing *)

Section OwnersListed.
Import Netplan Reference.
Context `{RangeOrder}.
Variable parseIPv6 : string -> option (list Z * string).

Lemma owns_listed (c : Config) (bondName x addr : string) :
  owns c bondName x addr ->
  listed c bondName x \/ bridge_with_vlan_on_bond c bondName x.
Proof.
  unfold owns, listed, vlan_on_bond, vlan_on_bridge_with_bond,
    bridge_with_bond, related_tunnel.
  intros [[-> _]|[(vlan & Hv & _ & [Hl|Hl])|[(bridge & Hb & _ & [Hm|Hm])
                 |(tunnel & Ht & _ & Hrel)]]].
  - left. by left.
  - left. right. left. eauto.
  - left. do 3 right. left. eauto.
  - left. do 2 right. left. eauto.
  - by right.
  - left. do 4 right. split; [by exists tunnel|done].
Qed.

(** X18: the two resolvers of a bond agree on the interfaces, up to one
    case.  The owner of every masked address that
    [GetBondIPAddressesWithMask] returns, and every key of the map that
    [GetBondIPAddresses] returns, is listed by
    [GetAllBondRelatedInterfaces] or is a bridge that includes a VLAN on
    the bond: the one case the listing does not have. *)
Theorem address_owners_listed (c : Config) (bondName : string) :
  is_Some (Bonds (Net c) !! bondName) ->
  (forall e, e ∈ GetBondIPAddressesWithMask parseIPv6 c bondName ->
     BondName e ∈ GetAllBondRelatedInterfaces c bondName \/
     bridge_with_vlan_on_bond c bondName (BondName e)) /\
  (forall x, is_Some (GetBondIPAddresses c bondName !! x) ->
     x ∈ GetAllBondRelatedInterfaces c bondName \/
     bridge_with_vlan_on_bond c bondName x).
Proof.
  intros Hbond. split.
  - intros e He.
    apply elem_of_GetBondIPAddressesWithMask in He
      as (x & addr & ip & ipNet & Hown & _ & ->); [|done]. simpl.
    rewrite elem_of_GetAllBondRelatedInterfaces by done.
    by eapply owns_listed.
  - intros x [l Hl].
    rewrite elem_of_GetAllBondRelatedInterfaces by done.
    pose proof (GetBondIPAddresses_values_nonempty c bondName x l Hl) as Hne.
    destruct l as [|ip l]; [done|].
    assert (Hip : ip ∈ default [] (GetBondIPAddresses c bondName !! x))
      by (rewrite Hl; apply list_elem_of_here).
    apply elem_of_GetBondIPAddresses in Hip as (addr & Hown & _); [|done].
    by eapply owns_listed.
Qed.

End OwnersListed.

Section OwnersListedWitnesses.
Import Netplan Reference Examples.

Lemma address_owners_listed_witness :
  is_Some (Bonds (Net three_interfaces) !! "bond0"%string) /\
  (forall x, is_Some (GetBondIPAddresses three_interfaces "bond0" !! x) ->
     x ∈ GetAllBondRelatedInterfaces three_interfaces "bond0" \/
     bridge_with_vlan_on_bond three_interfaces "bond0" x).
Proof.
  assert (is_Some (Bonds (Net three_interfaces) !! "bond0"%string)) as Hbond
    by (eexists; reflexivity).
  split; [exact Hbond|].
  exact (proj2 (address_owners_listed no_parseIPv6 three_interfaces "bond0"
                  Hbond)).
Defined.

End OwnersListedWitnesses.

(** ** Documents made with the builders *)

Section BuiltDocuments.
Import Bytes Netplan Builders Validity Reference.
Context `{RangeOrder}.

Lemma is_Some_insert {V : Type} (m : gmap string V) (name x : string) (v : V) :
  is_Some (<[name := v]> m !! x) <-> x = name \/ is_Some (m !! x).
Proof.
  rewrite lookup_insert_is_Some. split.
  - intros [->|[_ Hx]]; auto.
  - destruct (decide (name = x)) as [->|Hne]; [by left|].
    intros [->|Hx]; [done|]. by right.
Qed.

(** X19: adding an entry with one of the [Add...] methods adds its name,
    and nothing else, to what [GetInterfaceNames] enumerates. *)
Theorem builders_extend_names (c : Config) (name x : string) :
  (forall e, x ∈ GetInterfaceNames (AddEthernet c name e) <->
             x = name \/ x ∈ GetInterfaceNames c) /\
  (forall e, x ∈ GetInterfaceNames (AddWifi c name e) <->
             x = name \/ x ∈ GetInterfaceNames c) /\
  (forall e, x ∈ GetInterfaceNames (AddBridge c name e) <->
             x = name \/ x ∈ GetInterfaceNames c) /\
  (forall e, x ∈ GetInterfaceNames (AddBond c name e) <->
             x = name \/ x ∈ GetInterfaceNames c) /\
  (forall e, x ∈ GetInterfaceNames (AddVLAN c name e) <->
             x = name \/ x ∈ GetInterfaceNames c) /\
  (forall e, x ∈ GetInterfaceNames (AddTunnel c name e) <->
             x = name \/ x ∈ GetInterfaceNames c).
Proof.
  repeat split; intros Hx;
    rewrite ?elem_of_GetInterfaceNames in *; simpl in *;
    rewrite ?is_Some_insert in *; tauto.
Qed.

Lemma valid_section_insert {V : Type} (common : V -> CommonInterface)
    (m : gmap string V) (name : string) (e : V) :
  valid_section common m ->
  valid_section common (<[name := e]> m) <->
  valid_name name /\ valid_common (common e).
Proof.
  intros Hm. unfold valid_section. split.
  - intros Hall. apply (Hall name e). apply lookup_insert_eq.
  - intros He k v Hkv. apply lookup_insert_Some in Hkv as [[<- <-]|[_ Hkv]];
      [done|]. by eapply Hm.
Qed.

(** X20: for a document without findings, the document that results
    from adding an ethernet, wifi, bridge or bond entry has no finding
    exactly when the new name has 1 to 15 bytes, the addresses of the
    entry all carry a mask and its MTU is 0 or within 68..65536; after
    adding a VLAN, exactly when the name has 1 to 15 bytes, the id is
    within 1..4094 and the link is not empty; and adding a tunnel never
    produces a finding. *)
Theorem builders_and_validation (c : Config) (name : string) :
  Validate c = [] ->
  (forall e, Validate (AddEthernet c name e) = [] <->
             valid_name name /\ valid_common (Ethernet_Common e)) /\
  (forall e, Validate (AddWifi c name e) = [] <->
             valid_name name /\ valid_common (Wifi_Common e)) /\
  (forall e, Validate (AddBridge c name e) = [] <->
             valid_name name /\ valid_common (Bridge_Common e)) /\
  (forall e, Validate (AddBond c name e) = [] <->
             valid_name name /\ valid_common (Bond_Common e)) /\
  (forall vlan, Validate (AddVLAN c name vlan) = [] <-> valid_vlan name vlan) /\
  (forall tunnel, Validate (AddTunnel c name tunnel) = []).
Proof.
  assert (Validate_nil_valid_document :
            forall c, Validate c = [] <-> valid_document c).
  { intros c'. rewrite Validate_nil_sections. unfold valid_document.
    rewrite (valid_section_entries "ethernet" Ethernet_Common),
      (valid_section_entries "wifi" Wifi_Common),
      (valid_section_entries "bridge" Bridge_Common),
      (valid_section_entries "bond" Bond_Common), valid_vlan_entries.
    reflexivity. }
  intros Hc. apply Validate_nil_valid_document in Hc
    as (Hver & Hrend & Heth & Hwifi & Hbridge & Hbond & Hvlan).
  split; [|split; [|split; [|split; [|split]]]].
  - intros e. rewrite Validate_nil_valid_document. unfold valid_document.
    simpl. rewrite (valid_section_insert Ethernet_Common) by done. tauto.
  - intros e. rewrite Validate_nil_valid_document. unfold valid_document.
    simpl. rewrite (valid_section_insert Wifi_Common) by done. tauto.
  - intros e. rewrite Validate_nil_valid_document. unfold valid_document.
    simpl. rewrite (valid_section_insert Bridge_Common) by done. tauto.
  - intros e. rewrite Validate_nil_valid_document. unfold valid_document.
    simpl. rewrite (valid_section_insert Bond_Common) by done. tauto.
  - intros vlan. rewrite Validate_nil_valid_document. unfold valid_document.
    simpl. split.
    + intros (_ & _ & _ & _ & _ & _ & Hall). apply Hall, lookup_insert_eq.
    + intros Hv. repeat (split; [done|]). intros k v Hkv.
      apply lookup_insert_Some in Hkv as [[<- <-]|[_ Hkv]]; [done|].
      by eapply Hvlan.
  - intros tunnel. by apply Validate_nil_valid_document.
Qed.

(** X21: a VLAN added on an existing bond, and a bridge added with the
    bond among its members, are found by both resolvers: the new name is
    listed by [GetAllBondRelatedInterfaces], and every address of the new
    entry is returned, without its mask, under the new name by
    [GetBondIPAddresses]. *)
Theorem builders_and_resolver (c : Config) (bondName name : string) :
  is_Some (Bonds (Net c) !! bondName) ->
  (forall vlan,
     VLAN_Link vlan = bondName ->
     name ∈ GetAllBondRelatedInterfaces (AddVLAN c name vlan) bondName /\
     forall addr, addr ∈ Addresses (VLAN_Common vlan) ->
       stripCIDR addr ∈
         default [] (GetBondIPAddresses (AddVLAN c name vlan) bondName !! name)) /\
  (forall bridge,
     bondName ∈ Bridge_Interfaces bridge ->
     name ∈ GetAllBondRelatedInterfaces (AddBridge c name bridge) bondName /\
     forall addr, addr ∈ Addresses (Bridge_Common bridge) ->
       stripCIDR addr ∈
         default []
           (GetBondIPAddresses (AddBridge c name bridge) bondName !! name)).
Proof.
  intros Hbond. split.
  - intros vlan Hlink.
    assert (Hv : VLANs (Net (AddVLAN c name vlan)) !! name = Some vlan)
      by apply lookup_insert_eq.
    split.
    + apply elem_of_GetAllBondRelatedInterfaces; [done|].
      right. left. by exists vlan.
    + intros addr Haddr. apply elem_of_GetBondIPAddresses; [done|].
      exists addr. split; [|done]. right. left. exists vlan. auto.
  - intros bridge Hmember.
    assert (Hb : Bridges (Net (AddBridge c name bridge)) !! name = Some bridge)
      by apply lookup_insert_eq.
    split.
    + apply elem_of_GetAllBondRelatedInterfaces; [done|].
      right. right. left. by exists bridge.
    + intros addr Haddr. apply elem_of_GetBondIPAddresses; [done|].
      exists addr. split; [|done]. right. right. left. exists bridge. auto.
Qed.

End BuiltDocuments.

Section BuiltDocumentsWitnesses.
Import Bytes Netplan Builders Validity Reference Examples.

Lemma builders_and_validation_witness :
  Validate NewConfig = [] /\
  Validate (AddTunnel NewConfig "tun0"
              {| Tunnel_Common := with_addresses ["10.9.0.1"%string];
                 Tunnel_Mode := "gre"; Tunnel_Local := "10.0.0.1";
                 Tunnel_Remote := "10.0.0.2" |}) = [].
Proof.
  assert (Hnew : Validate NewConfig = []) by reflexivity.
  split; [exact Hnew|].
  destruct (builders_and_validation NewConfig "tun0" Hnew)
    as (_ & _ & _ & _ & _ & Htunnel).
  apply Htunnel.
Defined.

Lemma builders_and_resolver_witness :
  is_Some (Bonds (Net three_interfaces) !! "bond0"%string) /\
  "bond0.200"%string
    ∈ GetAllBondRelatedInterfaces
        (AddVLAN three_interfaces "bond0.200"
           {| VLAN_Common := with_addresses ["10.200.1.1/24"%string];
              VLAN_ID := 200; VLAN_Link := "bond0" |}) "bond0".
Proof.
  assert (is_Some (Bonds (Net three_interfaces) !! "bond0"%string)) as Hbond
    by (eexists; reflexivity).
  split; [exact Hbond|].
  destruct (builders_and_resolver three_interfaces "bond0" "bond0.200" Hbond)
    as [Hvlan _].
  exact (proj1 (Hvlan {| VLAN_Common := with_addresses ["10.200.1.1/24"%string];
                         VLAN_ID := 200; VLAN_Link := "bond0" |} eq_refl)).
Defined.

End BuiltDocumentsWitnesses.

(** ** The bonds of a directory of documents *)

Section DirectoryLoops.
Import Netplan.
Context `{RangeOrder}.

(** The two nested loops that [GetBondIPAddresses],
    [GetBondIPAddressesWithMask] and the agent's [getBondIPAddresses]
    share: [F config bondName] is what one bond of one document
    contributes. *)
Lemma keyed_loop_lookup {V B : Type} (F : string -> list B)
    (l : list (string * V)) (acc : gmap string (list B)) (b : string) :
  foldl (fun acc kv =>
           if (0 <? length (F kv.1))%nat then <[kv.1 := F kv.1]> acc else acc)
    acc l !! b
  = if decide (b ∈ l.*1)
    then (if (0 <? length (F b))%nat then Some (F b) else acc !! b)
    else acc !! b.
Proof.
  revert acc. induction l as [|[k v] l IH]; intros acc.
  - destruct (decide (b ∈ ([] : list (string * V)).*1)) as [Hin|_]; [|done].
    by apply elem_of_nil in Hin.
  - change (foldl ?f acc ((k, v) :: l)) with (foldl f (f acc (k, v)) l).
    rewrite IH. rewrite fmap_cons. simpl.
    destruct (decide (b ∈ l.*1)) as [Hin|Hnin];
      destruct (decide (b ∈ k :: l.*1)) as [Hin'|Hnin'].
    + destruct (0 <? length (F b))%nat eqn:Hb; [done|].
      destruct (0 <? length (F k))%nat eqn:Hk; [|done].
      rewrite lookup_insert_ne; [done|]. intros ->. by rewrite Hk in Hb.
    + exfalso. by apply Hnin', list_elem_of_further.
    + apply elem_of_cons in Hin' as [->|?]; [|done].
      destruct (0 <? length (F k))%nat; [|done]. by rewrite lookup_insert_eq.
    + destruct (0 <? length (F k))%nat; [|done].
      rewrite lookup_insert_ne; [done|]. intros ->.
      apply Hnin', list_elem_of_here.
Qed.

Lemma elem_of_range_keys {V : Type} (m : gmap string V) (b : string) :
  b ∈ (range m).*1 <-> is_Some (m !! b).
Proof.
  rewrite list_elem_of_fmap. split.
  - intros ([k v] & -> & Hkv). apply elem_of_range in Hkv. by exists v.
  - intros [v Hv]. exists (b, v). split; [done|]. by apply elem_of_range.
Qed.

Lemma bonds_loop_lookup {B : Type} (F : string -> list B) (config : Config)
    (acc : gmap string (list B)) (b : string) :
  for_range (Bonds (Net config))
    (fun bondName _ allBonds =>
       if (0 <? length (F bondName))%nat
       then <[bondName := F bondName]> allBonds else allBonds) acc !! b
  = match Bonds (Net config) !! b with
    | Some _ => if (0 <? length (F b))%nat then Some (F b) else acc !! b
    | None => acc !! b
    end.
Proof.
  unfold for_range.
  rewrite (keyed_loop_lookup F (range (Bonds (Net config))) acc b).
  destruct (decide (b ∈ (range (Bonds (Net config))).*1)) as [Hin|Hnin].
  - apply elem_of_range_keys in Hin as [bond ->]. done.
  - destruct (Bonds (Net config) !! b) as [bond|] eqn:Hb; [|done].
    exfalso. apply Hnin, elem_of_range_keys. by rewrite Hb.
Qed.

Section Documents.
Context {B : Type}.
Variable F : Config -> string -> list B.

Local Abbreviation documents_loop configs :=
  (for_each configs
     (fun config =>
        for_range (Bonds (Net config))
          (fun bondName _ allBonds =>
             if (0 <? length (F config bondName))%nat
             then <[bondName := F config bondName]> allBonds else allBonds))
     (∅ : gmap string (list B))).

(** The loop over the documents, seen from its last document. *)
Lemma documents_loop_snoc (configs : list Config) (c : Config) (b : string) :
  documents_loop (configs ++ [c]) !! b
  = match Bonds (Net c) !! b with
    | Some _ =>
        if (0 <? length (F c b))%nat then Some (F c b)
        else documents_loop configs !! b
    | None => documents_loop configs !! b
    end.
Proof.
  unfold for_each at 1. rewrite foldl_app. simpl.
  apply (bonds_loop_lookup (F c)).
Qed.

(** Where an entry of the resulting map comes from: one document, and the
    last one that contributes anything for the bond. *)
Lemma documents_loop_lookup (configs : list Config) (b : string) (l : list B) :
  documents_loop configs !! b = Some l
  <->
  exists before c after,
    configs = before ++ c :: after /\
    is_Some (Bonds (Net c) !! b) /\ F c b <> [] /\ l = F c b /\
    Forall (fun c' => is_Some (Bonds (Net c') !! b) -> F c' b = []) after.
Proof.
  induction configs as [|c configs IH] using rev_ind.
  - simpl. rewrite lookup_empty. split; [done|].
    intros (before & c & after & Heq & _). by destruct before.
  - rewrite documents_loop_snoc.
    destruct (Bonds (Net c) !! b) as [bond|] eqn:Hb.
    + destruct (F c b) as [|y ys] eqn:HF; simpl.
      * rewrite IH. split.
        -- intros (before & c' & after & -> & Hc' & Hne & -> & Hafter).
           exists before, c', (after ++ [c]). rewrite <- app_assoc. simpl.
           repeat (split; [done|]). apply Forall_app. split; [done|].
           by constructor.
        -- intros (before & c' & after & Heq & Hc' & Hne & -> & Hafter).
           destruct after as [|a after _] using rev_ind.
           { apply app_inj_tail in Heq as [_ <-]. by rewrite HF in Hne. }
           rewrite app_comm_cons, app_assoc in Heq.
           apply app_inj_tail in Heq as [-> <-].
           apply Forall_app in Hafter as [Hafter _].
           exists before, c', after. done.
      * split.
        -- intros [= <-]. exists configs, c, []. rewrite HF.
           split; [done|]. split; [by rewrite Hb|]. done.
        -- intros (before & c' & after & Heq & Hc' & Hne & -> & Hafter).
           destruct after as [|a after _] using rev_ind.
           { apply app_inj_tail in Heq as [_ <-]. by rewrite HF. }
           rewrite app_comm_cons, app_assoc in Heq.
           apply app_inj_tail in Heq as [-> <-].
           apply Forall_app in Hafter as [_ Ha].
           rewrite Forall_singleton in Ha. rewrite HF in Ha.
           discriminate Ha. by rewrite Hb.
    + rewrite IH. split.
      * intros (before & c' & after & -> & Hc' & Hne & -> & Hafter).
        exists before, c', (after ++ [c]). rewrite <- app_assoc. simpl.
        repeat (split; [done|]). apply Forall_app. split; [done|].
        constructor; [|done]. rewrite Hb. by intros [? ?].
      * intros (before & c' & after & Heq & Hc' & Hne & -> & Hafter).
        destruct after as [|a after _] using rev_ind.
        { apply app_inj_tail in Heq as [_ <-]. rewrite Hb in Hc'.
          by destruct Hc'. }
        rewrite app_comm_cons, app_assoc in Heq.
        apply app_inj_tail in Heq as [-> <-].
        apply Forall_app in Hafter as [Hafter _].
        exists before, c', after. done.
Qed.

Lemma documents_loop_is_Some (configs : list Config) (b : string) :
  is_Some (documents_loop configs !! b) <->
  exists c, c ∈ configs /\ is_Some (Bonds (Net c) !! b) /\ F c b <> [].
Proof.
  split.
  - intros [l Hl]. apply documents_loop_lookup in Hl
      as (before & c & after & -> & Hc & Hne & _).
    exists c. split; [|done]. apply elem_of_app. right. apply list_elem_of_here.
  - induction configs as [|c0 configs IH] using rev_ind.
    + intros (c & Hc & _). by apply elem_of_nil in Hc.
    + intros (c & Hc & Hb & Hne). rewrite documents_loop_snoc.
      apply elem_of_app in Hc as [Hc|Hc].
      * assert (is_Some (documents_loop configs !! b)) as Hrec
          by (apply IH; eauto).
        destruct (Bonds (Net c0) !! b); [|done].
        by destruct (0 <? length (F c0 b))%nat.
      * apply list_elem_of_singleton in Hc as ->. destruct Hb as [bond ->].
        destruct (F c0 b); [done|]. by simpl.
Qed.

End Documents.

End DirectoryLoops.

Section DirectoryBonds.
Import Netplan Reference.
Context `{RangeOrder}.

Local Abbreviation flat c b :=
  (for_range (Netplan.GetBondIPAddresses c b)
     (fun _ addrs ips => ips ++ addrs) ([] : list string)).

Lemma elem_of_flat (c : Config) (b ip : string) :
  is_Some (Bonds (Net c) !! b) ->
  ip ∈ flat c b <-> exists x addr, owns c b x addr /\ ip = stripCIDR addr.
Proof.
  intros Hb. rewrite (for_range_app (fun _ addrs => addrs)) by done.
  rewrite app_nil_l, elem_of_range_bind. simpl. split.
  - intros (x & l & Hx & Hip). exists x.
    apply (elem_of_GetBondIPAddresses c b x ip Hb). by rewrite Hx.
  - intros (x & Hown). apply (elem_of_GetBondIPAddresses c b x ip Hb) in Hown.
    destruct (Netplan.GetBondIPAddresses c b !! x) as [l|] eqn:Hx;
      [|by apply elem_of_nil in Hown].
    exists x, l. done.
Qed.

Lemma flat_nonempty (c : Config) (b : string) :
  is_Some (Bonds (Net c) !! b) ->
  flat c b <> [] <-> exists x addr, owns c b x addr.
Proof.
  intros Hb. split.
  - intros Hne. destruct (flat c b) as [|ip l] eqn:Hflat; [done|].
    assert (Hip : ip ∈ flat c b) by (rewrite Hflat; apply list_elem_of_here).
    apply elem_of_flat in Hip as (x & addr & Hown & _); eauto.
  - intros (x & addr & Hown) Hnil.
    assert (Hip : stripCIDR addr ∈ flat c b)
      by (apply elem_of_flat; eauto).
    rewrite Hnil in Hip. by apply elem_of_nil in Hip.
Qed.

(** X22: the package-level [GetBondIPAddresses] of a directory that
    loads.  A bond is a key of the result exactly when some document
    declares it and has an address for it; its value is never empty and
    comes from one document only, the last one in load order that has an
    address for the bond: the addresses, without their masks, of the
    bond and of the interfaces on it in that document.  Addresses of the
    same bond in earlier documents are dropped. *)
Theorem GetBondIPAddresses_of_directory (fs : FileSystem) (dir : string)
    (configs : list Config) :
  LoadNetplanConfigsFromDir fs dir = Ok configs ->
  exists m,
    NetplanDir.GetBondIPAddresses fs dir = Ok m /\
    (forall b, is_Some (m !! b) <->
       exists c x addr,
         c ∈ configs /\ is_Some (Bonds (Net c) !! b) /\ owns c b x addr) /\
    (forall b ips, m !! b = Some ips ->
       ips <> [] /\
       exists before c after,
         configs = before ++ c :: after /\
         is_Some (Bonds (Net c) !! b) /\
         (forall ip, ip ∈ ips <->
            exists x addr, owns c b x addr /\ ip = stripCIDR addr) /\
         Forall (fun c' => is_Some (Bonds (Net c') !! b) ->
                           ~ exists x addr, owns c' b x addr) after).
Proof.
  intros Hload. unfold NetplanDir.GetBondIPAddresses. rewrite Hload.
  eexists. split; [reflexivity|]. simpl. split.
  - intros b. rewrite (documents_loop_is_Some (fun c b => flat c b)). split.
    + intros (c & Hc & Hb & Hne). apply flat_nonempty in Hne as (x & addr & ?);
        [|done]. eauto 10.
    + intros (c & x & addr & Hc & Hb & Hown). exists c.
      split; [done|]. split; [done|]. apply flat_nonempty; eauto.
  - intros b ips Hips.
    apply (documents_loop_lookup (fun c b => flat c b)) in Hips
      as (before & c & after & -> & Hb & Hne & -> & Hafter).
    split; [done|]. exists before, c, after.
    split; [done|]. split; [done|]. split.
    + intros ip. by apply elem_of_flat.
    + eapply Forall_impl; [exact Hafter|]. intros c' Hc' Hb' Hown. simpl in Hc'.
      apply (flat_nonempty c' b Hb'); [done|]. by apply Hc'.
Qed.

Variable parseIPv6 : string -> option (list Z * string).

Lemma elem_of_agent_addresses (fs : FileSystem) (configs : list Config)
    (e : IPWithMask) :
  LoadNetplanConfigsFromDir fs "/etc/netplan" = Ok configs ->
  e ∈ Agent.getBondIPAddressesWithMask parseIPv6 fs <->
  exists c b,
    c ∈ configs /\ is_Some (Bonds (Net c) !! b) /\
    e ∈ Netplan.GetBondIPAddressesWithMask parseIPv6 c b.
Proof.
  intros Hload. unfold Agent.getBondIPAddressesWithMask. rewrite Hload.
  rewrite (for_each_app
             (fun config =>
                range (Bonds (Net config)) ≫= fun kv =>
                  Netplan.GetBondIPAddressesWithMask parseIPv6 config kv.1))
    by (intros config s;
        by rewrite (for_range_app
                      (fun bondName _ =>
                         Netplan.GetBondIPAddressesWithMask parseIPv6 config
                           bondName))).
  rewrite app_nil_l, list_elem_of_bind. split.
  - intros (c & He & Hc). apply elem_of_range_bind in He as (b & bond & Hb & He).
    exists c, b. split; [done|]. split; [by exists bond|done].
  - intros (c & b & Hc & [bond Hb] & He). exists c. split; [|done].
    apply elem_of_range_bind. exists b, bond. done.
Qed.

(** X23: the package-level [GetBondIPAddressesWithMask] of [/etc/netplan]
    and the flat list the agent builds from the same directory.  Every
    value of the map is not empty and is what the method
    [GetBondIPAddressesWithMask] returns for that bond in one of the
    documents; every entry of the map is in the agent's list; and when
    the directory holds one document the agent's list has no other
    entries. *)
Theorem GetBondIPAddressesWithMask_of_directory (fs : FileSystem)
    (configs : list Config) :
  LoadNetplanConfigsFromDir fs "/etc/netplan" = Ok configs ->
  exists m,
    NetplanDir.GetBondIPAddressesWithMask parseIPv6 fs "/etc/netplan" = Ok m /\
    (forall b l, m !! b = Some l ->
       l <> [] /\
       exists c, c ∈ configs /\ is_Some (Bonds (Net c) !! b) /\
                 l = Netplan.GetBondIPAddressesWithMask parseIPv6 c b) /\
    (forall b l e, m !! b = Some l -> e ∈ l ->
       e ∈ Agent.getBondIPAddressesWithMask parseIPv6 fs) /\
    (forall c e, configs = [c] ->
       e ∈ Agent.getBondIPAddressesWithMask parseIPv6 fs ->
       exists b l, m !! b = Some l /\ e ∈ l).
Proof.
  intros Hload. unfold NetplanDir.GetBondIPAddressesWithMask. rewrite Hload.
  eexists. split; [reflexivity|]. simpl.
  assert (Hval : forall b l,
    for_each configs
      (fun config =>
         for_range (Bonds (Net config))
           (fun bondName _ allBonds =>
              if (0 <? length (Netplan.GetBondIPAddressesWithMask parseIPv6
                                 config bondName))%nat
              then <[bondName :=
                       Netplan.GetBondIPAddressesWithMask parseIPv6 config
                         bondName]> allBonds
              else allBonds))
      (∅ : gmap string (list IPWithMask)) !! b = Some l ->
    l <> [] /\
    exists c, c ∈ configs /\ is_Some (Bonds (Net c) !! b) /\
              l = Netplan.GetBondIPAddressesWithMask parseIPv6 c b).
  { intros b l Hl.
    apply (documents_loop_lookup
             (fun c b => Netplan.GetBondIPAddressesWithMask parseIPv6 c b))
      in Hl as (before & c & after & -> & Hb & Hne & -> & _).
    split; [done|]. exists c. split; [|done].
    apply elem_of_app. right. apply list_elem_of_here. }
  split; [exact Hval|]. split.
  - intros b l e Hl He. apply Hval in Hl as (_ & c & Hc & Hb & ->).
    apply (elem_of_agent_addresses fs configs e Hload). eauto.
  - intros c e -> He.
    apply (elem_of_agent_addresses fs [c] e Hload) in He
      as (c' & b & Hc' & Hb & He).
    apply list_elem_of_singleton in Hc' as ->.
    exists b, (Netplan.GetBondIPAddressesWithMask parseIPv6 c b).
    split; [|done].
    apply (documents_loop_lookup
             (fun c b => Netplan.GetBondIPAddressesWithMask parseIPv6 c b)).
    exists [], c, []. split; [done|]. split; [done|].
    split; [|done]. intros Hnil. rewrite Hnil in He.
    by apply elem_of_nil in He.
Qed.

End DirectoryBonds.


Section DirectoryBondsWitnesses.
Import Netplan Reference Examples.

Lemma GetBondIPAddresses_of_directory_witness :
  LoadNetplanConfigsFromDir agent_fs "/etc/netplan" = Ok [agent_config] /\
  exists m,
    NetplanDir.GetBondIPAddresses agent_fs "/etc/netplan" = Ok m /\
    (forall b ips, m !! b = Some ips -> ips <> []).
Proof.
  split; [reflexivity|].
  destruct (GetBondIPAddresses_of_directory agent_fs "/etc/netplan"
              [agent_config] eq_refl) as (m & Hm & _ & Hval).
  exists m. split; [exact Hm|]. intros b ips Hips.
  exact (proj1 (Hval b ips Hips)).
Defined.

Lemma GetBondIPAddressesWithMask_of_directory_witness :
  LoadNetplanConfigsFromDir agent_fs "/etc/netplan" = Ok [agent_config] /\
  exists m,
    NetplanDir.GetBondIPAddressesWithMask no_parseIPv6 agent_fs "/etc/netplan"
      = Ok m /\
    (forall b l e, m !! b = Some l -> e ∈ l ->
       e ∈ Agent.getBondIPAddressesWithMask no_parseIPv6 agent_fs).
Proof.
  split; [reflexivity|].
  destruct (GetBondIPAddressesWithMask_of_directory no_parseIPv6 agent_fs
              [agent_config] eq_refl) as (m & Hm & _ & Hsub & _).
  exists m. split; [exact Hm|exact Hsub].
Defined.

End DirectoryBondsWitnesses.

(** ** Registration of an agent *)

Section Registering.
Import Netplan Agent Registration.
Context `{RangeOrder}.
Context {W SystemInfo : Type}.
Variable GetSystemInfo : W -> result SystemInfo.
Variable GetMainIPAddress : W -> result string.
Variable json_Marshal : RegistrationPayload SystemInfo -> result string.
Variable http_post : string -> string -> W -> result Z * W.

Local Abbreviation Register :=
  (Register GetSystemInfo GetMainIPAddress json_Marshal http_post).

Lemma agent_getBondIPAddresses_bonds (fs : FileSystem) :
  exists m,
    getBondIPAddresses fs = Ok m /\
    match NetplanDir.GetBondIPAddresses fs "/etc/netplan" with
    | Ok m' => m = m'
    | Err _ => m = ∅
    end.
Proof.
  unfold getBondIPAddresses, NetplanDir.GetBondIPAddresses.
  destruct (LoadNetplanConfigsFromDir fs "/etc/netplan") as [configs|e];
    eexists; split; reflexivity.
Qed.

(** X24: [Register] returns without error exactly when the system
    information and the main address can be read, the payload can be
    encoded, and the POST to [/api/server] of the aggregator is answered
    with status 200 or 201.  The payload carries the agent's host name,
    the main address, the system information and the bond addresses of
    [/etc/netplan], or no bonds at all when that directory does not load:
    a host without descriptor documents still registers. *)
Theorem Register_succeeds_iff (a : Agent) (fs : FileSystem) (w w' : W) :
  Register a fs w = (None, w') <->
  exists systemInfo ipAddr jsonData status,
    GetSystemInfo w = Ok systemInfo /\
    GetMainIPAddress w = Ok ipAddr /\
    json_Marshal
      {| Hostname := hostname a; IPAddress := ipAddr;
         SystemInfo_of := systemInfo;
         Bonds := match NetplanDir.GetBondIPAddresses fs "/etc/netplan" with
                  | Ok m => m
                  | Err _ => ∅
                  end |} = Ok jsonData /\
    http_post (aggregatorURL a +:+ "/api/server") jsonData w = (Ok status, w') /\
    (status = 200 \/ status = 201).
Proof.
  unfold Registration.Register.
  destruct (agent_getBondIPAddresses_bonds fs) as (m & Hm & Hbonds).
  rewrite Hm.
  destruct (GetSystemInfo w) as [systemInfo|e].
  2: { split; [done|]. by intros (? & ? & ? & ? & ? & _). }
  destruct (GetMainIPAddress w) as [ipAddr|e].
  2: { split; [done|]. by intros (? & ? & ? & ? & _ & ? & _). }
  assert (Hsame : m = match NetplanDir.GetBondIPAddresses fs "/etc/netplan" with
                      | Ok m => m
                      | Err _ => ∅
                      end)
    by (by destruct (NetplanDir.GetBondIPAddresses fs "/etc/netplan")).
  rewrite <- Hsame. clear Hsame Hbonds Hm.
  destruct (json_Marshal _) as [jsonData|e] eqn:Hjson.
  2: { split; [done|].
       intros (? & ? & ? & ? & [= <-] & [= <-] & Hj & _). congruence. }
  destruct (http_post _ jsonData w) as [resp w1] eqn:Hpost.
  destruct resp as [status|e].
  2: { split; [done|].
       intros (? & ? & ? & ? & [= <-] & [= <-] & Hj & Hp & _).
       rewrite Hjson in Hj. injection Hj as <-. congruence. }
  destruct (Z.eqb_spec status 200) as [->|H200]; simpl.
  - split.
    + intros [= <-]. exists systemInfo, ipAddr, jsonData, 200.
      repeat (split; [done|]). by left.
    + intros (? & ? & ? & ? & [= <-] & [= <-] & Hj & Hp & _).
      rewrite Hjson in Hj. injection Hj as <-. congruence.
  - destruct (Z.eqb_spec status 201) as [->|H201]; simpl.
    + split.
      * intros [= <-]. exists systemInfo, ipAddr, jsonData, 201.
        repeat (split; [done|]). by right.
      * intros (? & ? & ? & ? & [= <-] & [= <-] & Hj & Hp & _).
        rewrite Hjson in Hj. injection Hj as <-. congruence.
    + split; [done|].
      intros (? & ? & ? & status' & [= <-] & [= <-] & Hj & Hp & Hst).
      rewrite Hjson in Hj. injection Hj as <-.
      rewrite Hpost in Hp. injection Hp as <- <-. lia.
Qed.

End Registering.

(** ** The settings of the program *)

Section Settings.
Import AppConfig.
Context {W : Type}.
Variable ReadFile : string -> W -> result string.
Variable WriteFile : string -> string -> W -> option string * W.
Variable toml_Unmarshal : string -> result Config.
Variable toml_Marshal : Config -> result string.

Local Abbreviation LoadConfig := (LoadConfig ReadFile toml_Unmarshal).
Local Abbreviation GenerateDefaultConfig :=
  (GenerateDefaultConfig WriteFile toml_Marshal).

(** X25: every settings record that [LoadConfig] returns is complete: its
    mode is [aggregator] or [agent], the port, the database path, the
    listen address and the registration interval are set, and in agent
    mode the URL of the aggregator is set too. *)
Theorem LoadConfig_complete (path : string) (w : W) (cfg : Config) :
  LoadConfig path w = Ok cfg ->
  (Mode cfg = "aggregator"%string \/ Mode cfg = "agent"%string) /\
  Port (Aggregator cfg) <> 0 /\
  Database (Aggregator cfg) <> ""%string /\
  ListenAddr (Agent cfg) <> ""%string /\
  RegisterInterval (Agent cfg) <> 0 /\
  (Mode cfg = "agent"%string -> AggregatorURL (Agent cfg) <> ""%string).
Proof.
  unfold AppConfig.LoadConfig.
  destruct (ReadFile path w) as [data|e]; [|done].
  destruct (toml_Unmarshal data) as [[mode [port database] [listen url interval]]|e];
    [|done].
  simpl.
  destruct (Z.eqb_spec port 0) as [Hp|Hp]; simpl;
    destruct (String.eqb_spec database "") as [Hd|Hd]; simpl;
    destruct (String.eqb_spec listen "") as [Hl|Hl]; simpl;
    destruct (Z.eqb_spec interval 0) as [Hi|Hi]; simpl;
    destruct (String.eqb_spec mode "aggregator") as [Hm|Hm]; simpl;
    destruct (String.eqb_spec mode "agent") as [Ha|Ha]; simpl;
    try destruct (String.eqb_spec url "") as [Hu|Hu]; simpl;
    try discriminate; intros [= <-]; simpl;
    repeat split; auto; try discriminate; try congruence.
Qed.

(** X26: a settings file written by [GenerateDefaultConfig] loads.  When
    the file reads back as written and the TOML decoder inverts the
    encoder, [LoadConfig] of the generated file succeeds with the mode
    asked for ([agent] for every mode other than [aggregator]), port 8080,
    database [sysinfo.db], listen address [:8080] and interval 300; the
    URL of the aggregator is [http://localhost:8080] in agent mode and
    empty in aggregator mode. *)
Theorem generated_settings_load (path mode : string) (w w' : W) :
  GenerateDefaultConfig path mode w = (None, w') ->
  (forall data, WriteFile path data w = (None, w') ->
                ReadFile path w' = Ok data) ->
  (forall config data, toml_Marshal config = Ok data ->
                       toml_Unmarshal data = Ok config) ->
  LoadConfig path w' =
  Ok {| Mode := if String.eqb mode "aggregator" then "aggregator" else "agent";
        Aggregator := {| Port := 8080; Database := "sysinfo.db" |};
        Agent := {| ListenAddr := ":8080";
                    AggregatorURL :=
                      if String.eqb mode "aggregator" then ""
                      else "http://localhost:8080";
                    RegisterInterval := 300 |} |}.
Proof.
  unfold AppConfig.GenerateDefaultConfig, AppConfig.LoadConfig.
  intros Hgen Hdisk Hcodec.
  destruct (toml_Marshal _) as [data|e] eqn:Hdata; [|done].
  destruct (WriteFile path data w) as [[e|] w1] eqn:Hwrite; [done|].
  injection Hgen as <-.
  rewrite (Hdisk data Hwrite), (Hcodec _ data Hdata).
  by destruct (String.eqb mode "aggregator").
Qed.

End Settings.

Section SettingsWitnesses.
Import AppConfig SettingsExamples.

Lemma same_settings_eq (x y : Config) : same_settings x y = true -> x = y.
Proof.
  destruct x as [mode [port database] [listen url interval]].
  destruct y as [mode' [port' database'] [listen' url' interval']].
  unfold same_settings. simpl. rewrite !andb_true_iff.
  intros [[[[[Hm Hp] Hd] Hl] Hu] Hi].
  apply String.eqb_eq in Hm, Hd, Hl, Hu. apply Z.eqb_eq in Hp, Hi.
  by subst.
Qed.

Lemma decode_encode (config : Config) (data : string) :
  encode config = Ok data -> decode data = Ok config.
Proof.
  unfold encode.
  destruct (same_settings config aggregator_settings) eqn:Hagg.
  - apply same_settings_eq in Hagg as ->. by intros [= <-].
  - destruct (same_settings config agent_settings) eqn:Hagent; [|done].
    apply same_settings_eq in Hagent as ->. by intros [= <-].
Qed.

Lemma LoadConfig_complete_witness :
  LoadConfig read_file decode "config.toml"
    {["config.toml"%string := "mode = 'agent'"%string]}
  = Ok {| Mode := "agent";
          Aggregator := {| Port := 8080; Database := "sysinfo.db" |};
          Agent := {| ListenAddr := ":8080";
                      AggregatorURL := "http://localhost:8080";
                      RegisterInterval := 300 |} |} /\
  Port (Aggregator
          {| Mode := "agent";
             Aggregator := {| Port := 8080; Database := "sysinfo.db" |};
             Agent := {| ListenAddr := ":8080";
                         AggregatorURL := "http://localhost:8080";
                         RegisterInterval := 300 |} |}) <> 0.
Proof.
  assert (Hload :
    LoadConfig read_file decode "config.toml"
      {["config.toml"%string := "mode = 'agent'"%string]}
    = Ok {| Mode := "agent";
            Aggregator := {| Port := 8080; Database := "sysinfo.db" |};
            Agent := {| ListenAddr := ":8080";
                        AggregatorURL := "http://localhost:8080";
                        RegisterInterval := 300 |} |}) by reflexivity.
  split; [exact Hload|].
  exact (proj1 (proj2 (LoadConfig_complete read_file decode "config.toml" _ _
                         Hload))).
Defined.

Lemma generated_settings_load_witness :
  GenerateDefaultConfig write_file encode "config.toml" "agent" ∅
    = (None, {["config.toml"%string := "mode = 'agent'"%string]}) /\
  (forall data,
     write_file "config.toml" data ∅
       = (None, {["config.toml"%string := "mode = 'agent'"%string]}) ->
     read_file "config.toml"
       {["config.toml"%string := "mode = 'agent'"%string]} = Ok data) /\
  (forall config data, encode config = Ok data -> decode data = Ok config) /\
  LoadConfig read_file decode "config.toml"
    {["config.toml"%string := "mode = 'agent'"%string]}
  = Ok {| Mode := "agent";
          Aggregator := {| Port := 8080; Database := "sysinfo.db" |};
          Agent := {| ListenAddr := ":8080";
                      AggregatorURL := "http://localhost:8080";
                      RegisterInterval := 300 |} |}.
Proof.
  assert (Hgen :
    GenerateDefaultConfig write_file encode "config.toml" "agent" ∅
      = (None, {["config.toml"%string := "mode = 'agent'"%string]}))
    by reflexivity.
  assert (Hdisk : forall data,
     write_file "config.toml" data ∅
       = (None, {["config.toml"%string := "mode = 'agent'"%string]}) ->
     read_file "config.toml"
       {["config.toml"%string := "mode = 'agent'"%string]} = Ok data).
  { intros data Hwrite.
    assert (Hl : (write_file "config.toml" data ∅).2 !! "config.toml"%string
                 = ({["config.toml"%string := "mode = 'agent'"%string]}
                      : gmap string string) !! "config.toml"%string)
      by (by rewrite Hwrite).
    unfold write_file in Hl. cbn [snd] in Hl.
    rewrite lookup_insert_eq, lookup_singleton_eq in Hl.
    injection Hl as ->. reflexivity. }
  split; [exact Hgen|]. split; [exact Hdisk|]. split; [exact decode_encode|].
  exact (generated_settings_load read_file write_file decode encode
           "config.toml" "agent" ∅ _ Hgen Hdisk decode_encode).
Defined.

End SettingsWitnesses.
